(* ===== verification/_CoqProject ===== *)
-Q . S2P
Prelude.v
Preprocess.v
Geometry.v
Background.v
Compositor.v
JsValue.v
EdgeFunction.v
Catalog.v
TryOnClient.v
TryOnPage.v
ProductPages.v
Cart.v
Header.v
Auth.v
Landing.v
