(* ===== verification/Prelude.v ===== *)
(** * Verification of the one-page-wonder virtual try-on subsystem

    This library models, in Rocq, the TypeScript code of the repository
    that turns a user photo and a product into a try-on preview, and
    proves the properties that make each part correct.  Every file opens
    with a short note; this header documents the whole development.

    ** The program and how its parts interact

    - [src/src/lib/imageUtils.ts] ([compressImage]): the image
      preprocessor.  It scales a photo down so that its longest side is at
      most [maxDimension] (768) and re-encodes it as JPEG.
    - [src/src/lib/tryOnEngine.ts]: the local pipeline.
      [loadFaceModels] loads the landmark model once (a module-level
      flag); [detectEyewearPosition] turns face landmarks into eye
      centres, the inter-eye distance and the head roll, and these into an
      overlay rectangle; [getDefaultOverlayPosition] gives the watch and
      clothing rectangles; [removeBackground] makes the product photo's
      background transparent by colour distance to the mean corner colour,
      with a feathered band; [compositeImage] draws the user photo, then the
      stripped product twice (92% with a shadow, then 8% multiply) in a
      transform centred on the rectangle.
    - [src/supabase/functions/virtual-try-on/index.ts]: the edge function
      (the remote generation client).  It validates the request, builds a
      category prompt, parses the photo's data URL, calls the Gemini
      endpoint with up to three retries on HTTP 429 (delays 2s, 4s, 8s),
      classifies the upstream failure (429, 402/403, other) and extracts
      the first image part of the reply.  Every exception ends in a catch
      that picks 429 or 500 by looking for "429" or "quota" in the message.
    - [src/src/components/TryOnCanvas.tsx]: the client.  An effect invokes
      the edge function and commits the result or the error unless its
      [cancelled] flag was set by the effect's cleanup.
    - [src/src/pages/TryOn.tsx], [src/src/lib/products.ts]: the page that
      owns the photo, the camera stream and the selected product, and the
      product catalogue.
    - [src/src/pages/ProductDetail.tsx], [src/src/pages/Products.tsx],
      [src/src/components/sections/FeaturedProducts.tsx]: the shop pages
      that render the catalogue and link to a product's page and to the
      try-on page ([/try-on?product=<id>], read back by [TryOn.tsx]).
    - [src/src/pages/Cart.tsx], [src/src/components/layout/Header.tsx],
      [src/src/pages/Auth.tsx]: the cart page, the site header and the
      sign-in page.  They read the cart and auth contexts, which the
      repository imports but does not contain; the model takes what they
      provide as inputs and records the calls made on them.
    - [src/src/pages/Index.tsx] with the sections of
      [src/src/components/sections/] (hero, categories, featured products,
      how it works, call to action), [src/src/pages/Features.tsx] and
      [src/src/pages/FAQs.tsx]: the landing and marketing pages.  They
      hold no state but the FAQ accordion; they link to the shop and the
      try-on page, and their copy makes promises about the try-on path.

    Only the remote path is wired: nothing in the repository calls
    [compressImage] or any function of [tryOnEngine.ts]; the client sends
    the photo uncompressed.  The local pipeline is modelled all the same,
    since it is the code the spec describes.

    ** Files, in dependency order (see [_CoqProject])

    - [Prelude]: this header; the scope [tryon_scope]; the JavaScript error
      record and its result monad; [js_round], the model of [Math.round]
      on exact rationals, with its lemmas; the hint database [tryon].
    - [Preprocess]: [compressImage] (Module [Preprocess]): the scaled
      dimensions and the promise outcome.
    - [Geometry]: [JsMath], the interface of the [Math] functions the
      geometry calls ([hypot], [atan2], [cos], [sin]), with its laws and a
      rational instance; Module [Placement] ([OverlayPosition],
      [getDefaultOverlayPosition], the eyewear rectangle) and Module
      [FaceGeometry] ([detectEyewearPosition] against a [FaceDetector]
      interface; [loadFaceModels] as a step relation of interleaved async
      calls).
    - [Background]: [removeBackground] (Module [Background]) on the RGBA
      byte buffer, with the index loop of the source and a pixel-wise
      reference, and the feather alpha on integers.
    - [Compositor]: [compositeImage] (Module [Compositor]) as a Canvas 2D
      state machine whose observable output is the list of draw calls.
    - [JsValue]: JavaScript values as JSON and the edge function sees them:
      truthiness, [String(v)], property access with its [TypeError]s and the
      [Object.prototype] fallback of a plain-object lookup.
    - [EdgeFunction]: the whole request handler of [index.ts]
      (Module [EdgeFunction]): the [serve] callback as [handle], the retry
      loop [fetch_loop] in an effect-trace monad [io] (the fetches and
      sleeps it performs, in order), [handle_upstream] for the reply, the
      data-URL regex as [match_data_url], and the [catch] block.  Gemini is a
      Section variable: a function from the attempt number and request to
      a response or a network error.
    - [Catalog]: [products.ts] (Module [Catalog], the fourteen products
      field by field, [getProductById], [getProductsByCategory]), the
      filter of [Products.tsx] (Module [ProductsPage]) and the product page
      of [ProductDetail.tsx] (Module [ProductDetail]).
    - [TryOnClient]: [TryOnCanvas.tsx] (Module [TryOnCanvas]): its state,
      the [invoke] body, the code after the [await] ([settle]) and the
      render.  [invoke] models the [supabase-js] functions client, a
      library: a non-2xx status becomes its generic [FunctionsHttpError].
    - [TryOnPage]: [TryOn.tsx] (Module [TryOnPage]) as a state machine
      ([page], [event], [step], [reachable]).  Each handler of the page is a
      definition; the asynchronous completions (file reads, camera starts,
      invoke answers) are events of their own, so any interleaving is a
      sequence of steps; [commit] is React's reconciliation of the
      conditionally mounted [TryOnCanvas] (mount, effect re-run on a props
      change, cleanup on unmount), which sets the [cancelled] flag.
    - [ProductPages]: Module [Url] (the [URLSearchParams] reading of the
      try-on link's query), Module [DetailPage] (the product page as a
      state machine: [mount] runs the [useState] initialisers, [handle]
      the clicks, and a related-product link changes only the route
      parameter, since React Router keeps the matched element), Module
      [Cards] (the product cards, the products page's filter bar as a
      state machine, and the featured section) and Module
      [PageLaws].
    - [Cart]: Module [NumberFormat] ([Number.prototype.toFixed(2)], as the
      specification of the language defines it, on exact rationals) and
      Module [CartPage] (the render, the order summary, the calls of the
      buttons).
    - [Header]: Module [Header], the menu state, the clicks with their
      navigations, [handleSignOut] split at its [await], the render.
    - [Auth]: Module [Zod] (the two schemas of the page: [trim], zod 3's
      e-mail pattern, the length checks and their messages), Module [Html]
      (the browser's sanitisation and validation of [type="email"] and
      [required] inputs before [onSubmit]) and Module [AuthPage] (the form
      as a state machine; the call to [signIn] or [signUp] and its
      completion are separate events).
    - [Landing]: Module [Site] (the content arrays of the landing,
      features and FAQ pages, the small computations of their render, every
      link with its target, a route change or a document load, and the
      single collapsible accordion) and Module [Promises] (the copy's
      privacy promise against the try-on page, the client and the edge
      function composed).

    ** What the theorems show

    - Preprocessing: images within the bound pass unchanged; larger ones
      get a longest side of exactly [maxDimension], both sides within the
      bound, and an aspect ratio kept up to the rounding of the short side;
      the short side can round to 0 (a finding).
    - Geometry: the eyewear rectangle is positive exactly when the eyes
      are distinct; the spec's worked examples hold; the default
      rectangles fit inside the photo.  Every [loadFaceModels] call made
      before a load completes fetches the networks again (a finding), and
      none does once they are loaded.
    - Background removal: the index loop equals the pixel-wise reference;
      colours are never changed and alpha never increases; the background
      colour is the rounded mean of the four corner pixels; pixels close to
      it become transparent and far ones keep their alpha; the
      feather value is [Math.round] of the source's real expression.
    - Compositing: the draw calls do not depend on the canvas's previous
      state (idempotence), the transform is restored, both passes are
      centred on the rectangle and both cast the shadow (a finding); the
      [shadowBlur] setter ignores negative values, as HTML specifies.
    - Edge function: the retry loop terminates after at most four fetches,
      its delays are 2000, 4000, 8000 ms, and the trace of every retry
      scenario is exact; the handler's replies on every path (success,
      400, 402, 429, 500) are those of the code, including the substring
      test of the catch block (a finding); [String(v)] throws for an object
      with an own [toString], and the log line of line 43 then answers 500
      before the image is even checked (a finding); the data URL parser
      and printer round-trip; the prompt lookup falls through to
      [Object.prototype] for keys such as "constructor" (a finding).
    - Client: every non-2xx reply of the edge function reaches the user as
      the library's generic message, so the rate-limit toast is never shown
      (a finding).
    - Page: an invariant of every reachable page (a canvas is mounted
      exactly when the page shows one, with the page's props; effect ids
      are fresh; every request in flight is cancelled or is the mounted
      canvas's own, for its props; the mounted effect is not cancelled; a
      stored result implies a mounted canvas); an answer to a cancelled
      request changes nothing, and a committed result always belongs to
      the current photo and product; a camera start that completes while
      another stream is referenced, or whose [play()] rejects, leaves a
      stream running that no later event stops (two findings).
    - Catalogue: the lookup finds exactly the product with the id, and the product page shows
      the product, its first colour and size and up to three related
      products of its category.
    - Shop pages: colour, size and cart clicks keep the selection among the
      product's options, but a related-product link keeps the previous
      product's selection, so for every product some related product goes
      to the cart in a colour it does not offer (a finding); every
      "Try On" link makes the linked product the try-on page's active one;
      after any filter clicks exactly one filter button is pressed, and
      every product is listed under exactly one category.
    - Cart: for whole-cent totals the order summary prints exact cents and
      its subtotal and tax add up to its total.
    - Sign-in: a submission the browser accepts ends in zod's first error
      or in one call with the address and password as typed (zod's [trim]
      never changes the address); at most one call is in flight; its
      answer toasts by the mode the call was made in, whatever the user
      toggled meanwhile.
    - Landing pages: the FAQ accordion shows at most one answer, and a
      click on a closed item shows its answer.  Composing the try-on page,
      its canvas and the edge function: from every reachable page a "Try
      On" click with a photo starts an [invoke] carrying it, and the edge
      function's first effect is a fetch of Gemini whose body holds the
      photo's base64 payload, against the features page's "processed
      locally" (a finding).

    ** Numbers, bounds and fuel

    JavaScript numbers are doubles.  Pixel data and statuses are integers
    and are modelled exactly on [Z].  Geometry and scaling are modelled on
    exact rationals [Q]: the theorems hold of the real-number semantics
    the code is written for, not of double rounding.  [Math.sqrt] enters
    background removal only through comparisons with 60 and 90 and through
    the feather value; both are computed exactly on integers (for integer
    [n], correctly rounded [sqrt n < 60] iff [n < 3600]).  [Math.hypot],
    [Math.atan2], [Math.cos] and [Math.sin] are the [JsMath] interface:
    the theorems assume only its laws.  Loops that the source writes with
    an index take a fuel argument; each has a theorem that the fuel used
    by the model (the buffer length, or four attempts) is enough.
    [toFixed(2)] is modelled on exact rationals below [10^21] (above it
    JavaScript prints an exponent, which is not modelled); on doubles it
    can differ at an exact half cent, which the cart's totals of whole
    dollars and the 8% tax never reach.  Strings are sequences of 8-bit
    characters, read as Latin-1 code units.

    ** Not modelled

    The animation, styling and images of the pages (framer-motion
    properties, class names, the hero's floating cards), which are
    presentation only; the cart and
    auth contexts ([@/context/CartContext], [@/context/AuthContext]),
    which the repository imports but does not contain, so their state and
    operations are the pages' inputs and recorded calls; the route table
    (no [App.tsx] in the repository: the routes are those the links use);
    the JPEG encoder and image decoder; a rejection of [response.text()]
    (the model reads the error body as a string; [response.json()] may
    throw); the internals of the landmark
    network and of the Gemini model (external services).
*)

From Stdlib Require Import ZArith QArith Qround Lia Lqa String.

Declare Scope tryon_scope.
Delimit Scope tryon_scope with tryon.

(** ** JavaScript exceptions and the result monad *)

(** A thrown JavaScript error: its constructor name and its message. *)
Record js_error := JsError { err_name : string; err_message : string }.

(** A computation that returns an [A] or throws. *)
Definition js_result (A : Type) : Type := sum js_error A.

Definition js_ret {A} (a : A) : js_result A := inr a.
Definition js_throw {A} (e : js_error) : js_result A := inl e.

Definition js_bind {A B} (m : js_result A) (k : A -> js_result B) : js_result B :=
  match m with
  | inl e => inl e
  | inr a => k a
  end.

Notation "'let*' x := m 'in' k" := (js_bind m (fun x => k))
  (at level 10, x name, m at level 100, k at level 200) : tryon_scope.

Lemma js_bind_ret {A B} (a : A) (k : A -> js_result B) : js_bind (js_ret a) k = k a.
Proof. reflexivity. Qed.

Lemma js_bind_throw {A B} (e : js_error) (k : A -> js_result B) :
  js_bind (js_throw e) k = js_throw e.
Proof. reflexivity. Qed.

(** The settled state of a JavaScript promise. *)
Inductive settled (A : Type) : Type :=
| Fulfilled (a : A)
| Rejected (e : js_error).
Arguments Fulfilled {A} a.
Arguments Rejected {A} e.

(** ** [Math.round] on exact numbers *)

(** [Math.round x] is the integer nearest to [x], ties towards +infinity,
    that is [floor (x + 1/2)]. *)
Definition js_round (q : Q) : Z := Qfloor (q + (1 # 2)).

Local Open Scope Q_scope.

Lemma js_round_spec (q : Q) :
  inject_Z (js_round q) - (1 # 2) <= q /\ q < inject_Z (js_round q) + (1 # 2).
Proof.
  unfold js_round. pose proof (Qfloor_le (q + (1 # 2))) as Hle.
  pose proof (Qlt_floor (q + (1 # 2))) as Hlt.
  rewrite inject_Z_plus in Hlt. unfold inject_Z at 2 in Hlt. split; lra.
Qed.

(** Rounding is characterised by the half-open interval around [q]. *)
Lemma js_round_unique (q : Q) (z : Z) :
  inject_Z z - (1 # 2) <= q -> q < inject_Z z + (1 # 2) -> js_round q = z.
Proof.
  intros H1 H2. destruct (js_round_spec q) as [H3 H4].
  assert (inject_Z (js_round q) < inject_Z (z + 1)) as A.
  { rewrite inject_Z_plus. unfold inject_Z at 3. lra. }
  assert (inject_Z z < inject_Z (js_round q + 1)) as B.
  { rewrite inject_Z_plus. unfold inject_Z at 3. lra. }
  rewrite <- Zlt_Qlt in A, B. lia.
Qed.

Lemma js_round_inject (z : Z) : js_round (inject_Z z) = z.
Proof. apply js_round_unique; lra. Qed.

(** Rounding a quotient of integers is a floor division on [Z]. *)
Lemma js_round_div (a b : Z) :
  (0 < b)%Z -> js_round (inject_Z a / inject_Z b) = ((2 * a + b) / (2 * b))%Z.
Proof.
  intros Hb. destruct b as [|p|p]; try lia.
  cbv [js_round Qfloor Qdiv Qinv Qplus Qmult inject_Z Qnum Qden].
  rewrite Pos2Z.inj_mul. f_equal; lia.
Qed.

#[export] Instance js_round_proper : Proper (Qeq ==> eq) js_round.
Proof. intros x y E. unfold js_round. rewrite E. reflexivity. Qed.

(** Rounding is monotone. *)
Lemma js_round_le (p q : Q) : p <= q -> (js_round p <= js_round q)%Z.
Proof. intros H. unfold js_round. apply Qfloor_resp_le. apply Qplus_le_l. exact H. Qed.

Close Scope Q_scope.

(** Floor division bounds, in the form [nia] uses. *)
Lemma Z_div_bounds (a c : Z) : (0 < c)%Z -> (c * (a / c) <= a < c * (a / c) + c)%Z.
Proof.
  intros Hc. pose proof (Z.div_mod a c ltac:(lia)). pose proof (Z.mod_pos_bound a c Hc). lia.
Qed.

(** ** Shared tactics and hints *)

Create HintDb tryon.
Create Rewrite HintDb tryon_rw.

#[export] Hint Resolve js_round_inject js_round_le : tryon.
#[export] Hint Rewrite js_round_inject @js_bind_ret @js_bind_throw : tryon_rw.

(** Case on every boolean test of the goal, keeping the equation. *)
Ltac case_tests :=
  repeat match goal with
         | |- context [if ?b then _ else _] =>
             lazymatch b with
             | context [if _ then _ else _] => fail
             | _ => let E := fresh "E" in destruct b eqn:E
             end
         end.

(** Split the boolean connectives in the context, then read the boolean
    comparisons on [Z] as propositions, in hypotheses and goal alike. *)
Ltac zbool :=
  repeat match goal with
         | H : orb _ _ = true |- _ => apply Bool.orb_true_iff in H as [H | H]
         | H : orb _ _ = false |- _ => apply Bool.orb_false_iff in H as [H ?H]
         | H : andb _ _ = true |- _ => apply Bool.andb_true_iff in H as [H ?H]
         end;
  rewrite ?Z.gtb_ltb, ?Z.geb_leb in *;
  rewrite ?Z.ltb_lt, ?Z.ltb_ge, ?Z.leb_le, ?Z.leb_gt, ?Z.eqb_eq, ?Z.eqb_neq in *.

(** Replace the inverses of rational constants by their values, so that
    [lra] sees divisions by constants as multiplications. *)
Ltac qinv_consts :=
  unfold Qdiv in *;
  repeat match goal with
         | |- context [Qinv (Qmake ?n ?d)] =>
             let v := eval vm_compute in (Qinv (Qmake n d)) in change (Qinv (Qmake n d)) with v
         | H : context [Qinv (Qmake ?n ?d)] |- _ =>
             let v := eval vm_compute in (Qinv (Qmake n d)) in change (Qinv (Qmake n d)) with v in H
         end.

Ltac qlra := qinv_consts; lra.
