(* ===== verification/Preprocess.v ===== *)
(** * The image preprocessor: [compressImage] of [src/src/lib/imageUtils.ts]

    [compressImage] decodes a data URL, scales the image so that neither
    side exceeds [maxDimension] (the ratio is the smaller of the two
    per-side ratios, each side rounded with [Math.round]) and re-encodes
    it as JPEG.  The dimensions are computed exactly on [Q]; the decoder and
    the JPEG encoder are library code and appear as a Section variable and
    as an abstract data-URL value.  The theorems reduce the rounded sides
    to floor divisions on [Z] once, and derive the spec's properties from
    that closed form. *)

From Stdlib Require Import ZArith QArith Qround Qminmax Lia Lqa String.
From S2P Require Import Prelude.
Open Scope string_scope.

Module Preprocess.

Local Open Scope Z_scope.

(** A decoded image, as [img.width] and [img.height] report it. *)
Record image := MkImage { width : Z; height : Z }.

(** The defaults of the two optional parameters. *)
Definition maxDimension_default : Z := 768.
Definition quality_default : Q := 7 # 10.

(** Lines 13-20: the dimensions of the output canvas. *)
Definition scaled_size (maxDimension width height : Z) : Z * Z :=
  if (width >? maxDimension) || (height >? maxDimension) then
    let ratio := Qmin (inject_Z maxDimension / inject_Z width)
                      (inject_Z maxDimension / inject_Z height) in
    (js_round (inject_Z width * ratio), js_round (inject_Z height * ratio))
  else (width, height).

(** What [canvas.toDataURL("image/jpeg", quality)] returns for a canvas
    of [w] by [h] pixels holding [src] drawn at that size: the HTML
    standard returns the string "data:," for a canvas with no pixels. *)
Inductive data_url :=
| DataUrlEmpty
| DataUrlJpeg (src : image) (w h : Z) (quality : Q).

Definition canvas_toDataURL_jpeg (src : image) (w h : Z) (quality : Q) : data_url :=
  if (w =? 0) || (h =? 0) then DataUrlEmpty else DataUrlJpeg src w h quality.

Section Compress.

(** The browser's decoder: [img.onload] fires with the decoded image, or
    [img.onerror] fires ([None]). *)
Variable decode : string -> option image.

(** Lines 5-33: the promise [compressImage] returns, once settled. *)
Definition compressImage (dataUrl : string) (maxDimension : Z) (quality : Q)
  : settled data_url :=
  match decode dataUrl with
  | None => Rejected (JsError "Error" "Failed to load image for compression")
  | Some img =>
      let '(w, h) := scaled_size maxDimension (width img) (height img) in
      Fulfilled (canvas_toDataURL_jpeg img w h quality)
  end.

End Compress.

(** ** Closed form of the scaled sides *)

Lemma scale_side (x l m : Z) :
  (0 < l)%Z ->
  js_round (inject_Z x * (inject_Z m / inject_Z l)) = ((2 * (x * m) + l) / (2 * l))%Z.
Proof.
  intros Hl. rewrite <- js_round_div by exact Hl. apply js_round_proper.
  assert (~ inject_Z l == 0)%Q as Hnz.
  { intros E. unfold Qeq in E. simpl in E. lia. }
  rewrite inject_Z_mult. field. exact Hnz.
Qed.

(** The per-side ratio of the longer side is the smaller one. *)
Lemma ratio_of_longest (m s l : Z) :
  (0 <= m)%Z -> (0 < s <= l)%Z ->
  (inject_Z m / inject_Z l <= inject_Z m / inject_Z s)%Q.
Proof.
  intros Hm Hs. destruct s as [|s|s]; try lia. destruct l as [|l|l]; try lia.
  unfold Qle, Qdiv, Qmult, Qinv, inject_Z; simpl. nia.
Qed.

(** The quotient is determined by its bounds. *)
Lemma div_eq_of_bounds (a c q : Z) : 0 < c -> c * q <= a < c * q + c -> a / c = q.
Proof.
  intros Hc Hb. pose proof (Z_div_bounds a c Hc). nia.
Qed.

(** When the image exceeds the bound, each side [x] becomes
    [round (x * m / l)] with [l] the longer side, that is the floor
    division [(2 x m + l) / (2 l)]. *)
Lemma scaled_size_closed (m w h : Z) :
  0 < m -> 0 < w -> 0 < h -> m < Z.max w h ->
  scaled_size m w h =
    ((2 * (w * m) + Z.max w h) / (2 * Z.max w h),
     (2 * (h * m) + Z.max w h) / (2 * Z.max w h)).
Proof.
  intros Hm Hw Hh Hl. unfold scaled_size.
  replace ((w >? m) || (h >? m))%bool with true by (symmetry; apply Bool.orb_true_iff; lia).
  destruct (Z.le_ge_cases h w) as [Hhw | Hwh].
  - rewrite (Z.max_l w h Hhw).
    rewrite (Q.min_l _ _ (ratio_of_longest m h w ltac:(lia) ltac:(lia))).
    rewrite !scale_side by lia. reflexivity.
  - rewrite (Z.max_r w h Hwh).
    rewrite (Q.min_r _ _ (ratio_of_longest m w h ltac:(lia) ltac:(lia))).
    rewrite !scale_side by lia. reflexivity.
Qed.

(** The longer side scales to exactly [m]. *)
Lemma scale_longest (m l : Z) : 0 < l -> (2 * (l * m) + l) / (2 * l) = m.
Proof. intros Hl. apply div_eq_of_bounds; nia. Qed.

(** A side no longer than [l] scales into [0, m]. *)
Lemma scale_shorter_bounds (m s l : Z) :
  0 < m -> 0 < s <= l -> 0 <= (2 * (s * m) + l) / (2 * l) <= m.
Proof.
  intros Hm Hs. pose proof (Z_div_bounds (2 * (s * m) + l) (2 * l) ltac:(lia)). nia.
Qed.

(** ** Properties of the scaled dimensions *)

(** An image within the bound keeps its dimensions. *)
Theorem scaled_size_within (m w h : Z) :
  w <= m -> h <= m -> scaled_size m w h = (w, h).
Proof.
  intros Hw Hh. unfold scaled_size.
  replace ((w >? m) || (h >? m))%bool with false by (symmetry; apply Bool.orb_false_iff; lia).
  reflexivity.
Qed.

(** C26. An image larger than the bound gets a longer side of exactly
    [maxDimension]. *)
Theorem scaled_size_longest (m w h : Z) :
  0 < m -> 0 < w -> 0 < h -> m < Z.max w h ->
  Z.max (fst (scaled_size m w h)) (snd (scaled_size m w h)) = m.
Proof.
  intros Hm Hw Hh Hl. rewrite scaled_size_closed by assumption. cbn [fst snd].
  destruct (Z.le_ge_cases h w) as [Hhw | Hwh].
  - rewrite (Z.max_l w h Hhw). rewrite scale_longest by lia.
    pose proof (scale_shorter_bounds m h w Hm ltac:(lia)). lia.
  - rewrite (Z.max_r w h Hwh). rewrite scale_longest by lia.
    pose proof (scale_shorter_bounds m w h Hm ltac:(lia)). lia.
Qed.

(** Whatever the input, both output sides lie in [0, maxDimension]. *)
Theorem scaled_size_bounds (m w h : Z) :
  0 < m -> 0 < w -> 0 < h ->
  0 <= fst (scaled_size m w h) <= m /\ 0 <= snd (scaled_size m w h) <= m.
Proof.
  intros Hm Hw Hh. destruct (Z_lt_le_dec m (Z.max w h)) as [Hl | Hl].
  - rewrite scaled_size_closed by assumption. cbn [fst snd].
    split; apply scale_shorter_bounds; lia.
  - rewrite scaled_size_within by lia. simpl. lia.
Qed.

(** C36. The aspect ratio is kept up to the rounding of the shorter side:
    the cross products [w' * h] and [h' * w] differ by at most half the
    longer input side. *)
Theorem scaled_size_aspect (m w h : Z) :
  0 < m -> 0 < w -> 0 < h ->
  2 * Z.abs (fst (scaled_size m w h) * h - snd (scaled_size m w h) * w) <= Z.max w h.
Proof.
  intros Hm Hw Hh. destruct (Z_lt_le_dec m (Z.max w h)) as [Hl | Hl].
  - rewrite scaled_size_closed by assumption. cbn [fst snd].
    destruct (Z.le_ge_cases h w) as [Hhw | Hwh].
    + rewrite (Z.max_l w h Hhw). rewrite scale_longest by lia.
      pose proof (Z_div_bounds (2 * (h * m) + w) (2 * w) ltac:(lia)). nia.
    + rewrite (Z.max_r w h Hwh). rewrite scale_longest by lia.
      pose proof (Z_div_bounds (2 * (w * m) + h) (2 * h) ltac:(lia)). nia.
  - rewrite scaled_size_within by lia. cbn [fst snd]. rewrite (Z.mul_comm h w), Z.sub_diag. simpl. lia.
Qed.

(** ** The promise *)

(** An undecodable data URL rejects with the source's message and
    never reaches the encoder. *)
Theorem compressImage_decode_error (decode : string -> option image) (s : string) m q :
  decode s = None ->
  compressImage decode s m q =
    Rejected (JsError "Error" "Failed to load image for compression").
Proof. intros H. unfold compressImage. rewrite H. reflexivity. Qed.

(** C33. For a decodable image of positive size larger than the bound,
    [compressImage] resolves to the empty URL "data:," exactly when the
    shorter side, scaled, is below half a pixel: the output is then no
    image at all. *)
Theorem compressImage_empty_iff (decode : string -> option image) (s : string) img m q :
  decode s = Some img -> 0 < m -> 0 < width img -> 0 < height img ->
  m < Z.max (width img) (height img) ->
  (compressImage decode s m q = Fulfilled DataUrlEmpty <->
   2 * (Z.min (width img) (height img) * m) < Z.max (width img) (height img)).
Proof.
  intros Hd Hm Hw Hh Hl. unfold compressImage. rewrite Hd.
  rewrite scaled_size_closed by assumption. unfold canvas_toDataURL_jpeg.
  set (w := width img) in *. set (h := height img) in *.
  destruct (Z.le_ge_cases h w) as [Hhw | Hwh].
  - rewrite (Z.max_l w h Hhw), (Z.min_r w h Hhw). rewrite scale_longest by lia.
    pose proof (Z_div_bounds (2 * (h * m) + w) (2 * w) ltac:(lia)).
    destruct ((m =? 0) || ((2 * (h * m) + w) / (2 * w) =? 0))%bool eqn:E;
      zbool; split; intros; first [reflexivity | discriminate | nia | exfalso; nia].
  - rewrite (Z.max_r w h Hwh), (Z.min_l w h Hwh). rewrite scale_longest by lia.
    pose proof (Z_div_bounds (2 * (w * m) + h) (2 * h) ltac:(lia)).
    destruct (((2 * (w * m) + h) / (2 * h) =? 0) || (m =? 0))%bool eqn:E;
      zbool; split; intros; first [reflexivity | discriminate | nia | exfalso; nia].
Qed.

(** ** Concrete runs and witnesses *)

(** A 4000 by 3000 photo becomes 768 by 576; a 2000 by 1 strip becomes
    768 by 0. *)
Example scaled_size_4000_3000 : scaled_size 768 4000 3000 = (768, 576).
Proof. vm_compute. reflexivity. Qed.

Example scaled_size_2000_1 : scaled_size 768 2000 1 = (768, 0).
Proof. vm_compute. reflexivity. Qed.

Lemma scaled_size_within_witness : scaled_size 768 640 480 = (640, 480).
Proof. apply scaled_size_within; lia. Defined.

Lemma scaled_size_longest_witness :
  Z.max (fst (scaled_size 768 4000 3000)) (snd (scaled_size 768 4000 3000)) = 768.
Proof. apply scaled_size_longest; lia. Defined.

Lemma scaled_size_bounds_witness :
  0 <= fst (scaled_size 768 1000 5000) <= 768 /\ 0 <= snd (scaled_size 768 1000 5000) <= 768.
Proof. apply scaled_size_bounds; lia. Defined.

Lemma scaled_size_aspect_witness :
  2 * Z.abs (fst (scaled_size 768 1001 333) * 333 - snd (scaled_size 768 1001 333) * 1001)
    <= Z.max 1001 333.
Proof. apply scaled_size_aspect; lia. Defined.

Lemma compressImage_decode_error_witness :
  compressImage (fun _ => None) "data:image/png;base64,AAAA" 768 quality_default =
    Rejected (JsError "Error" "Failed to load image for compression").
Proof. apply compressImage_decode_error. reflexivity. Defined.

Lemma compressImage_empty_iff_witness :
  compressImage (fun _ => Some (MkImage 2000 1)) "data:image/png;base64,AAAA" 768
    quality_default = Fulfilled DataUrlEmpty.
Proof.
  apply (proj2 (compressImage_empty_iff (fun _ => Some (MkImage 2000 1))
                  "data:image/png;base64,AAAA" (MkImage 2000 1) 768 quality_default
                  eq_refl ltac:(lia) ltac:(simpl; lia) ltac:(simpl; lia) ltac:(simpl; lia))).
  simpl. lia.
Defined.

End Preprocess.
