(* ===== verification/Geometry.v ===== *)
(** * Face geometry and overlay placement: [src/src/lib/tryOnEngine.ts]

    [JsMath] is the interface of the [Math] functions the geometry calls,
    with the laws the theorems use; [QMath] is a rational instance that
    computes, used for the concrete runs.  Module [Placement] holds
    [OverlayPosition], [getDefaultOverlayPosition] and the eyewear
    rectangle of [detectEyewearPosition]; Module [FaceGeometry] holds the
    eye centres, the detector interface, [detectEyewearPosition] itself and
    [loadFaceModels] as a step relation of interleaved async calls.
    Numbers are exact rationals (see the header of [Prelude]). *)

From Stdlib Require Import ZArith QArith Qabs Qreduction Qminmax Lia Lqa List.
From S2P Require Import Prelude.
Import ListNotations.
Open Scope Q_scope.

(** ** The [Math] functions *)

Class JsMath := {
  js_hypot : Q -> Q -> Q;
  js_atan2 : Q -> Q -> Q;
  js_cos : Q -> Q;
  js_sin : Q -> Q
}.

(** What the theorems assume of [Math.hypot], [Math.atan2], [Math.cos]
    and [Math.sin]: they respect equality of numbers; [hypot] is a
    distance (non-negative, zero only at the origin, even in each argument,
    exact on an axis); [atan2] of a point on the positive x axis is 0;
    [cos 0 = 1] and [sin 0 = 0]. *)
Class JsMathLaws (M : JsMath) := {
  hypot_proper :: Proper (Qeq ==> Qeq ==> Qeq) js_hypot;
  atan2_proper :: Proper (Qeq ==> Qeq ==> Qeq) js_atan2;
  cos_proper :: Proper (Qeq ==> Qeq) js_cos;
  sin_proper :: Proper (Qeq ==> Qeq) js_sin;
  hypot_axis : forall d, js_hypot d 0 == Qabs d;
  hypot_pos : forall dx dy, ~ (dx == 0 /\ dy == 0) -> 0 < js_hypot dx dy;
  hypot_opp_l : forall dx dy, js_hypot (- dx) dy == js_hypot dx dy;
  hypot_opp_r : forall dx dy, js_hypot dx (- dy) == js_hypot dx dy;
  atan2_x_axis : forall x, 0 < x -> js_atan2 0 x == 0;
  cos_0 : js_cos 0 == 1;
  sin_0 : js_sin 0 == 0
}.

(** *** A rational instance *)

(** [sqrt q] rounded up to a multiple of [2^-20], exact on squares. *)
Definition hypot_scale : Z := 1048576.

Definition Qsqrt_up (q : Q) : Q :=
  Z.sqrt_up (Qnum q * Zpos (Qden q) * hypot_scale * hypot_scale)
    # (Qden q * Z.to_pos hypot_scale).

Definition PI_approx : Q := 355 # 113.

(** An odd rational approximation of [atan]. *)
Definition atan_approx (t : Q) : Q :=
  if Qle_bool (Qabs t) 1 then t / (1 + (7 # 25) * t * t)
  else if Qle_bool 0 t then PI_approx / 2 - t / (t * t + (7 # 25))
  else - (PI_approx / 2) - t / (t * t + (7 # 25)).

(** The case structure of ECMAScript's [Math.atan2] (signed zeros aside). *)
Definition atan2_cases (y x : Q) : Q :=
  if Qlt_le_dec 0 x then atan_approx (y / x)
  else if Qlt_le_dec x 0 then
    (if Qle_bool 0 y then atan_approx (y / x) + PI_approx else atan_approx (y / x) - PI_approx)
  else if Qlt_le_dec 0 y then PI_approx / 2
  else if Qlt_le_dec y 0 then - (PI_approx / 2)
  else 0.

#[export] Instance QMath : JsMath := {
  js_hypot dx dy := Qsqrt_up (Qred dx * Qred dx + Qred dy * Qred dy);
  js_atan2 y x := atan2_cases (Qred y) (Qred x);
  js_cos t := let u := Qred t in 1 - u * u / 2 + u * u * u * u / 24;
  js_sin t := let u := Qred t in u - u * u * u / 6
}.

Lemma Qsqrt_up_square (p : Z) (d : positive) :
  Qsqrt_up (Qmake (p * p) (d * d)) == Qabs (Qmake p d).
Proof.
  unfold Qsqrt_up, hypot_scale, Qeq. simpl Qnum. simpl Qden.
  replace (p * p * Z.pos (d * d) * 1048576 * 1048576)%Z
    with ((Z.abs p * Z.pos d * 1048576) * (Z.abs p * Z.pos d * 1048576))%Z by nia.
  rewrite Z.sqrt_up_square by lia. simpl. rewrite !Pos2Z.inj_mul. nia.
Qed.

Lemma Qred_zero : Qred 0 = 0.
Proof. reflexivity. Qed.

#[export] Instance QMath_laws : JsMathLaws QMath.
Proof.
  split; cbn [js_hypot js_atan2 js_cos js_sin QMath].
  - intros a b E c d F. rewrite (Qred_complete _ _ E), (Qred_complete _ _ F). reflexivity.
  - intros a b E c d F. rewrite (Qred_complete _ _ E), (Qred_complete _ _ F). reflexivity.
  - intros a b E. rewrite (Qred_complete _ _ E). reflexivity.
  - intros a b E. rewrite (Qred_complete _ _ E). reflexivity.
  - intros d. try rewrite Qred_zero. destruct (Qred d) as [p q] eqn:Ed.
    replace (Qmake p q * Qmake p q + 0 * 0) with (Qmake (p * p) (q * q))
      by (unfold Qplus, Qmult; simpl; f_equal; [ring | symmetry; apply Pos.mul_1_r]).
    rewrite Qsqrt_up_square, <- Ed. apply Qabs_wd. apply Qred_correct.
  - intros dx dy Hne. destruct (Qred dx) as [p q] eqn:Ex, (Qred dy) as [r s] eqn:Ey.
    assert (p <> 0 \/ r <> 0)%Z as Hpr.
    { destruct (Z.eq_dec p 0), (Z.eq_dec r 0); auto. exfalso. apply Hne. subst.
      rewrite <- (Qred_correct dx), <- (Qred_correct dy), Ex, Ey. split; reflexivity. }
    unfold Qsqrt_up, hypot_scale, Qlt. simpl. rewrite Z.mul_1_r.
    assert (0 < Z.sqrt_up ((p * p * Z.pos (s * s) + r * r * Z.pos (q * q)) * Z.pos (q * q * (s * s))
              * 1048576 * 1048576))%Z as H; [| lia].
    apply Z.sqrt_up_pos. rewrite !Pos2Z.inj_mul.
    destruct Hpr as [Hp | Hr]; [assert (0 < p * p)%Z by nia | assert (0 < r * r)%Z by nia];
      assert (0 < Z.pos q * Z.pos q * (Z.pos s * Z.pos s))%Z by nia; nia.
  - intros dx dy. rewrite Qred_opp. destruct (Qred dx) as [p q].
    unfold Qopp, Qmult. simpl. rewrite Z.mul_opp_opp. reflexivity.
  - intros dx dy. rewrite Qred_opp. destruct (Qred dy) as [p q].
    unfold Qopp, Qmult. simpl. rewrite Z.mul_opp_opp. reflexivity.
  - intros x Hx. try rewrite Qred_zero. unfold atan2_cases.
    destruct (Qlt_le_dec 0 (Qred x)) as [H | H].
    + reflexivity.
    + exfalso. rewrite Qred_correct in H. lra.
  - reflexivity.
  - reflexivity.
Qed.

(** A landmark or eye centre, as face-api's [Point]. *)
Record point := Pt { px : Q; py : Q }.

Definition pt_equiv (p q : point) : Prop := px p == px q /\ py p == py q.

#[export] Instance pt_equiv_equivalence : Equivalence pt_equiv.
Proof.
  split.
  - intros a. split; reflexivity.
  - intros a b [? ?]. split; symmetry; assumption.
  - intros a b c [? ?] [? ?]. split; etransitivity; eauto.
Qed.

Module Placement.

(** Lines 15-21. *)
Record OverlayPosition := MkPos { x : Q; y : Q; width : Q; height : Q; angle : Q }.

(** Two positions are the same rectangle when their numbers are equal. *)
Definition pos_equiv (a b : OverlayPosition) : Prop :=
  x a == x b /\ y a == y b /\ width a == width b /\ height a == height b /\ angle a == angle b.

#[export] Instance pos_equiv_equivalence : Equivalence pos_equiv.
Proof.
  split.
  - intros a. repeat split; reflexivity.
  - intros a b (?&?&?&?&?). repeat split; symmetry; assumption.
  - intros a b c (?&?&?&?&?) (?&?&?&?&?). repeat split; etransitivity; eauto.
Qed.

(** The [category] parameter of [getDefaultOverlayPosition] (line 82). *)
Inductive category := Watch | Clothing.

(** Lines 79-104. *)
Definition getDefaultOverlayPosition (imageWidth imageHeight : Q) (c : category)
  : OverlayPosition :=
  let size := Qmin imageWidth imageHeight * (3 # 10) in
  match c with
  | Watch =>
      {| x := imageWidth * (15 # 100); y := imageHeight * (55 # 100);
         width := size; height := size; angle := 0 |}
  | Clothing =>
      {| x := (imageWidth - size * (12 # 10)) / 2; y := imageHeight * (3 # 10);
         width := size * (12 # 10); height := size * (15 # 10); angle := 0 |}
  end.

Section Eyewear.
Context `{M : JsMath}.

(** Lines 50-72: from the two eye centres to the glasses' rectangle. *)
Definition eyewear_position (leftCenter rightCenter : point) : OverlayPosition :=
  let eyeDistance := js_hypot (px rightCenter - px leftCenter) (py rightCenter - py leftCenter) in
  let angle := js_atan2 (py rightCenter - py leftCenter) (px rightCenter - px leftCenter) in
  let width := eyeDistance * (24 # 10) in
  let height := width * (45 # 100) in
  let centerX := (px leftCenter + px rightCenter) / 2 in
  let centerY := (py leftCenter + py rightCenter) / 2 in
  {| x := centerX - width / 2; y := centerY - height / 2;
     width := width; height := height; angle := angle |}.

End Eyewear.

(** The rectangle lies inside the photo. *)
Definition inside (W H : Q) (p : OverlayPosition) : Prop :=
  0 <= x p /\ x p + width p <= W /\ 0 <= y p /\ y p + height p <= H.

(** Translation of a point. *)
Definition shift (v p : point) : point := Pt (px p + px v) (py p + py v).

Lemma Qmin_pos_bounds (a b : Q) :
  0 < a -> 0 < b -> 0 < Qmin a b /\ Qmin a b <= a /\ Qmin a b <= b.
Proof.
  intros Ha Hb. destruct (Q.min_spec a b) as [[H E] | [H E]]; rewrite E; lra.
Qed.

(** ** The default rectangles *)

(** For a photo of positive size, the watch and the clothing
    rectangles have positive width and height, no rotation, and lie inside
    the photo; the clothing rectangle is centred horizontally. *)
Theorem default_position_inside (W H : Q) (c : category) :
  0 < W -> 0 < H ->
  let p := getDefaultOverlayPosition W H c in
  inside W H p /\ 0 < width p /\ 0 < height p /\ angle p == 0 /\
  (c = Clothing -> x p + width p / 2 == W / 2).
Proof.
  intros HW HH. destruct (Qmin_pos_bounds W H HW HH) as (H1 & H2 & H3).
  destruct c; cbn; unfold inside; cbn; repeat split; intros; try discriminate; qlra.
Qed.

(** The spec's worked example: a 1000 by 800 photo puts the watch at
    (150, 440), 240 by 240, unrotated. *)
Theorem default_watch_example :
  pos_equiv (getDefaultOverlayPosition 1000 800 Watch) (MkPos 150 440 240 240 0).
Proof. repeat split; vm_compute; reflexivity. Qed.

(** ** The eyewear rectangle *)

Section EyewearLaws.
Context `{M : JsMath} `{!JsMathLaws M}.


(** C35. The rectangle has positive width and height exactly when the
    two eye centres are distinct; coincident centres give a 0 by 0
    rectangle. *)
Theorem eyewear_positive_iff (lc rc : point) :
  let p := eyewear_position lc rc in
  (0 < width p /\ 0 < height p) <-> ~ (px lc == px rc /\ py lc == py rc).
Proof.
  cbn. split.
  - intros [Hw _] [Ex Ey].
    assert (px rc - px lc == 0) as Dx by lra. assert (py rc - py lc == 0) as Dy by lra.
    rewrite Dx, Dy, hypot_axis in Hw. simpl in Hw. qlra.
  - intros Hne. assert (0 < js_hypot (px rc - px lc) (py rc - py lc)).
    { apply hypot_pos. intros [Dx Dy]. apply Hne. split; lra. }
    split; qlra.
Qed.

(** Eyes on one horizontal line, left of right: no rotation, and the
    glasses are 2.4 times (1.08 times) the horizontal gap wide (high). *)
Theorem eyewear_level (lc rc : point) :
  py lc == py rc -> px lc < px rc ->
  let p := eyewear_position lc rc in
  angle p == 0 /\ width p == (12 # 5) * (px rc - px lc) /\
  height p == (27 # 25) * (px rc - px lc).
Proof.
  intros Ey Hx. cbn.
  assert (py rc - py lc == 0) as Dy by lra.
  assert (0 < px rc - px lc) as Dx by lra.
  rewrite Dy, hypot_axis, atan2_x_axis by exact Dx.
  rewrite Qabs_pos by lra. repeat split; qlra.
Qed.

(** The spec's worked example: eye centres (100, 200) and
    (160, 200) give the rectangle (58, 167.6), 144 by 64.8, unrotated. *)
Theorem eyewear_spec_example :
  pos_equiv (eyewear_position (Pt 100 200) (Pt 160 200)) (MkPos 58 (1676 # 10) 144 (648 # 10) 0).
Proof.
  pose proof (eyewear_level (Pt 100 200) (Pt 160 200) ltac:(reflexivity) ltac:(reflexivity))
    as (Ha & Hw & Hh).
  revert Ha Hw Hh. unfold pos_equiv, eyewear_position. cbn [x y width height angle px py].
  intros. repeat split; try exact Ha; qlra.
Qed.

(** Swapping the two eyes changes neither the rectangle's place nor
    its size (only the angle, by a half turn). *)
Theorem eyewear_swap (lc rc : point) :
  let p := eyewear_position lc rc in
  let q := eyewear_position rc lc in
  x q == x p /\ y q == y p /\ width q == width p /\ height q == height p.
Proof.
  cbn.
  assert (js_hypot (px lc - px rc) (py lc - py rc) == js_hypot (px rc - px lc) (py rc - py lc)) as E.
  { setoid_replace (px lc - px rc) with (- (px rc - px lc)) by ring.
    setoid_replace (py lc - py rc) with (- (py rc - py lc)) by ring.
    rewrite hypot_opp_l, hypot_opp_r. reflexivity. }
  rewrite E. repeat split; qlra.
Qed.

(** Moving both eyes by a vector moves the rectangle by that vector
    and keeps its size and angle. *)
Theorem eyewear_translate (v lc rc : point) :
  let p := eyewear_position lc rc in
  let q := eyewear_position (shift v lc) (shift v rc) in
  x q == x p + px v /\ y q == y p + py v /\ width q == width p /\
  height q == height p /\ angle q == angle p.
Proof.
  cbn.
  setoid_replace (px rc + px v - (px lc + px v)) with (px rc - px lc) by ring.
  setoid_replace (py rc + py v - (py lc + py v)) with (py rc - py lc) by ring.
  repeat split; qlra.
Qed.

(** The rectangle depends only on the eye centres' coordinates. *)
#[export] Instance eyewear_position_proper :
  Proper (pt_equiv ==> pt_equiv ==> pos_equiv) eyewear_position.
Proof.
  intros a a' [Ax Ay] b b' [Bx By]. unfold eyewear_position, pos_equiv; cbn.
  rewrite Ax, Ay, Bx, By. repeat split; reflexivity.
Qed.

End EyewearLaws.

(** *** Witnesses, with the rational [Math] instance *)

Lemma default_position_inside_witness :
  let p := getDefaultOverlayPosition 1000 800 Clothing in
  inside 1000 800 p /\ 0 < width p /\ 0 < height p /\ angle p == 0 /\
  (Clothing = Clothing -> x p + width p / 2 == 1000 / 2).
Proof. apply default_position_inside; reflexivity. Defined.

Lemma eyewear_positive_iff_witness :
  let p := @eyewear_position QMath (Pt 100 200) (Pt 160 200) in 0 < width p /\ 0 < height p.
Proof.
  apply (proj2 (eyewear_positive_iff (M := QMath) (Pt 100 200) (Pt 160 200))).
  intros [E _]. vm_compute in E. discriminate E.
Defined.

Lemma eyewear_level_witness :
  let p := @eyewear_position QMath (Pt 100 200) (Pt 160 200) in
  angle p == 0 /\ width p == (12 # 5) * (160 - 100) /\ height p == (27 # 25) * (160 - 100).
Proof. apply (eyewear_level (M := QMath)); reflexivity. Defined.

Lemma eyewear_spec_example_witness :
  pos_equiv (@eyewear_position QMath (Pt 100 200) (Pt 160 200)) (MkPos 58 (1676 # 10) 144 (648 # 10) 0).
Proof. exact (eyewear_spec_example (M := QMath)). Defined.

Lemma eyewear_swap_witness :
  let p := @eyewear_position QMath (Pt 100 200) (Pt 160 230) in
  let q := @eyewear_position QMath (Pt 160 230) (Pt 100 200) in
  x q == x p /\ y q == y p /\ width q == width p /\ height q == height p.
Proof. exact (eyewear_swap (M := QMath) (Pt 100 200) (Pt 160 230)). Defined.

Lemma eyewear_translate_witness :
  let p := @eyewear_position QMath (Pt 100 200) (Pt 160 230) in
  let q := @eyewear_position QMath (shift (Pt 7 (-3)) (Pt 100 200)) (shift (Pt 7 (-3)) (Pt 160 230)) in
  x q == x p + 7 /\ y q == y p + (-3) /\ width q == width p /\ height q == height p /\
  angle q == angle p.
Proof. exact (eyewear_translate (M := QMath) (Pt 7 (-3)) (Pt 100 200) (Pt 160 230)). Defined.

End Placement.

Module FaceGeometry.
Import Placement.

(** A detection's 68 landmark positions; face-api's [getLeftEye] and
    [getRightEye] return positions 36-41 and 42-47. *)
Record Landmarks := MkLandmarks { positions : list point }.

Definition getLeftEye (lm : Landmarks) : list point := firstn 6 (skipn 36 (positions lm)).
Definition getRightEye (lm : Landmarks) : list point := firstn 6 (skipn 42 (positions lm)).

(** The face detector, an external model behind an interface:
    [detectSingleFace(img).withFaceLandmarks()] resolves to a detection or
    to [undefined]. *)
Class FaceDetector (Img : Type) := { detectSingleFace : Img -> option Landmarks }.

(** Lines 41-48: the centre of an eye is the mean of its points, a
    [reduce] from 0 divided by the number of points. *)
Definition eye_center (pts : list point) : point :=
  Pt (fold_left (fun s p => s + px p) pts 0 / inject_Z (Z.of_nat (length pts)))
     (fold_left (fun s p => s + py p) pts 0 / inject_Z (Z.of_nat (length pts))).

(** Lines 27-73. *)
Definition detectEyewearPosition `{JsMath} {Img : Type} `{FaceDetector Img} (img : Img)
  : option OverlayPosition :=
  match detectSingleFace img with
  | None => None
  | Some lm =>
      let leftEye := getLeftEye lm in
      let rightEye := getRightEye lm in
      Some (eyewear_position (eye_center leftEye) (eye_center rightEye))
  end.

(** *** [loadFaceModels] (lines 3-13) under interleaving

    The module-level flag [modelsLoaded] is read before the first [await]
    and set after it.  A call runs synchronously up to its [await]: it
    returns at once if the flag is set, and otherwise starts the two
    network loads ([tinyFaceDetector], [faceLandmark68Net]).  Its
    continuation runs later, when [Promise.all] settles: on success it
    sets the flag; on failure the call rejects and the flag stays unset. *)
Record loader := MkLoader {
  modelsLoaded : bool;
  pending : list nat;   (* calls awaiting the loads *)
  fetches : nat         (* [loadFromUri] calls issued *)
}.

Inductive loader_event :=
| Call (i : nat)        (* loadFaceModels() is called, runs to its await *)
| LoadsDone (i : nat)   (* the awaited Promise.all fulfils *)
| LoadsFail (i : nat).  (* it rejects *)

Definition loader_init : loader := MkLoader false [] 0.

Definition loader_step (s : loader) (e : loader_event) : option loader :=
  match e with
  | Call i =>
      if modelsLoaded s then Some s
      else Some (MkLoader false (i :: pending s) (fetches s + 2))
  | LoadsDone i =>
      if existsb (Nat.eqb i) (pending s)
      then Some (MkLoader true (remove Nat.eq_dec i (pending s)) (fetches s))
      else None
  | LoadsFail i =>
      if existsb (Nat.eqb i) (pending s)
      then Some (MkLoader (modelsLoaded s) (remove Nat.eq_dec i (pending s)) (fetches s))
      else None
  end.

Fixpoint loader_run (s : loader) (es : list loader_event) : option loader :=
  match es with
  | [] => Some s
  | e :: es' => match loader_step s e with Some s' => loader_run s' es' | None => None end
  end.

(** ** Theorems *)

Definition sum_x (pts : list point) : Q := fold_left (fun s p => s + px p) pts 0.
Definition sum_y (pts : list point) : Q := fold_left (fun s p => s + py p) pts 0.

Lemma fold_sum_acc (f : point -> Q) (pts : list point) (a : Q) :
  fold_left (fun s p => s + f p) pts a == a + fold_left (fun s p => s + f p) pts 0.
Proof.
  revert a. induction pts as [|p pts IH]; intros a; cbn; [lra |].
  rewrite (IH (a + f p)), (IH (0 + f p)). lra.
Qed.

Lemma fold_sum_shift (f : point -> Q) (g : point -> point) (c : Q) (pts : list point) :
  (forall p, f (g p) == f p + c) ->
  fold_left (fun s p => s + f p) (map g pts) 0 ==
    fold_left (fun s p => s + f p) pts 0 + inject_Z (Z.of_nat (length pts)) * c.
Proof.
  intros Hg. induction pts as [|p pts IH]; cbn [fold_left map length]; [cbn [Z.of_nat]; unfold inject_Z; lra |].
  rewrite (fold_sum_acc f (map g pts)), (fold_sum_acc f pts), IH, Hg.
  rewrite Nat2Z.inj_succ, <- Z.add_1_r, inject_Z_plus. change (inject_Z 1) with 1. ring.
Qed.

(** The centre of a non-empty point set moves with the points. *)
Lemma eye_center_shift (v : point) (pts : list point) :
  pts <> [] -> pt_equiv (eye_center (map (shift v) pts)) (shift v (eye_center pts)).
Proof.
  intros Hne. assert (~ inject_Z (Z.of_nat (length pts)) == 0) as Hn.
  { destruct pts; [congruence |]. cbn. unfold Qeq. cbn. lia. }
  unfold eye_center, pt_equiv; cbn. rewrite length_map.
  rewrite (fold_sum_shift px (shift v) (px v)), (fold_sum_shift py (shift v) (py v))
    by (intros; reflexivity).
  split; field; exact Hn.
Qed.

Definition shift_landmarks (v : point) (lm : Landmarks) : Landmarks :=
  MkLandmarks (map (shift v) (positions lm)).

Lemma eyes_nonempty (lm : Landmarks) :
  (48 <= length (positions lm))%nat -> getLeftEye lm <> [] /\ getRightEye lm <> [].
Proof.
  intros H. unfold getLeftEye, getRightEye. split; intros E;
    apply (f_equal (@length point)) in E; rewrite length_firstn, length_skipn in E;
    change (length (@nil point)) with 0%nat in E; lia.
Qed.

Section Detection.
Context `{M : JsMath} `{!JsMathLaws M} {Img : Type} `{D : FaceDetector Img}.

(** When the detector reports the same face moved by a vector (all
    landmarks shifted), [detectEyewearPosition] returns the same glasses'
    rectangle moved by that vector, same size and angle. *)
Theorem detect_translate (img img' : Img) (lm : Landmarks) (v : point) :
  detectSingleFace img = Some lm ->
  detectSingleFace img' = Some (shift_landmarks v lm) ->
  (48 <= length (positions lm))%nat ->
  exists p q, detectEyewearPosition img = Some p /\ detectEyewearPosition img' = Some q /\
    x q == x p + px v /\ y q == y p + py v /\ width q == width p /\
    height q == height p /\ angle q == angle p.
Proof.
  intros H1 H2 Hlen. unfold detectEyewearPosition. rewrite H1, H2.
  do 2 eexists. split; [reflexivity |]. split; [reflexivity |].
  destruct (eyes_nonempty lm Hlen) as [Hl Hr].
  assert (pos_equiv (eyewear_position (eye_center (getLeftEye (shift_landmarks v lm)))
                                      (eye_center (getRightEye (shift_landmarks v lm))))
                    (eyewear_position (shift v (eye_center (getLeftEye lm)))
                                      (shift v (eye_center (getRightEye lm))))) as (Ex & Ey & Ew & Eh & Ea).
  { unfold getLeftEye, getRightEye, shift_landmarks; cbn [positions].
    rewrite !skipn_map, !firstn_map.
    apply eyewear_position_proper; apply eye_center_shift; assumption. }
  rewrite Ex, Ey, Ew, Eh, Ea. apply eyewear_translate.
Qed.

End Detection.

(** C29. Once the model is loaded, no later call, in any interleaving,
    fetches the networks again, and the flag stays set. *)
Theorem loader_loaded_no_fetch (s s' : loader) (es : list loader_event) :
  modelsLoaded s = true -> loader_run s es = Some s' ->
  fetches s' = fetches s /\ modelsLoaded s' = true.
Proof.
  revert s. induction es as [|e es IH]; intros s Hl Hrun; cbn in Hrun.
  - injection Hrun as <-. auto.
  - destruct e as [i | i | i]; cbn in Hrun; [rewrite Hl in Hrun |
      destruct (existsb (Nat.eqb i) (pending s)); [| discriminate] ..];
      apply IH in Hrun; cbn in *; intuition congruence.
Qed.

(** C27. [loadFaceModels] reads its [modelsLoaded] flag before its
    [await] and sets it only after the loads complete: from any state in
    which the models are not loaded, every one of [n] calls made before a
    load completes (React strict mode's double effect, two components
    mounting) fetches both networks again, [2 * n] loads in all, and the
    calls all wait. *)
Theorem loader_calls_before_load (s : loader) (calls : list nat) :
  modelsLoaded s = false ->
  loader_run s (map Call calls) =
    Some (MkLoader false (rev calls ++ pending s) (fetches s + 2 * length calls)).
Proof.
  revert s. induction calls as [| i calls IH]; intros s Hl; cbn [map loader_run].
  - destruct s; cbn in *. rewrite Nat.add_0_r. congruence.
  - cbn [loader_step]. rewrite Hl. rewrite (IH (MkLoader false (i :: pending s) (fetches s + 2)) eq_refl).
    cbn [pending fetches rev length]. rewrite <- app_assoc. f_equal. f_equal. lia.
Qed.

(** *** Witnesses *)

(** A face with its 68 landmarks on a line, and the same face moved by
    (5, 9): a detector that reports the first for [true] and the second
    for [false]. *)
Definition sample_landmarks : Landmarks :=
  MkLandmarks (map (fun k => Pt (inject_Z (Z.of_nat k)) (inject_Z (Z.of_nat (k mod 7)))) (seq 0 68)).

#[export] Instance sample_detector : FaceDetector bool := {
  detectSingleFace b :=
    if b then Some sample_landmarks else Some (shift_landmarks (Pt 5 9) sample_landmarks)
}.

Lemma detect_translate_witness :
  exists p q, @detectEyewearPosition QMath bool _ true = Some p /\
    @detectEyewearPosition QMath bool _ false = Some q /\
    x q == x p + 5 /\ y q == y p + 9 /\ width q == width p /\
    height q == height p /\ angle q == angle p.
Proof.
  exact (detect_translate (M := QMath) true false sample_landmarks (Pt 5 9)
           eq_refl eq_refl ltac:(vm_compute; lia)).
Defined.

Lemma loader_loaded_no_fetch_witness :
  fetches (MkLoader true [] 2) = fetches (MkLoader true [] 2) /\ modelsLoaded (MkLoader true [] 2) = true.
Proof.
  apply (loader_loaded_no_fetch (MkLoader true [] 2) (MkLoader true [] 2) [Call 5; Call 6]);
    reflexivity.
Defined.

(** Two calls before the first load completes: four loads. *)
Lemma loader_calls_before_load_witness :
  loader_run loader_init (map Call [0; 1]%nat) =
    Some (MkLoader false (rev [0; 1]%nat ++ pending loader_init) (fetches loader_init + 2 * length [0; 1]%nat))%nat.
Proof. apply (loader_calls_before_load loader_init [0; 1]%nat). reflexivity. Defined.

End FaceGeometry.
