(* ===== verification/Background.v ===== *)
(** * Background removal: [removeBackground] of [src/src/lib/tryOnEngine.ts]

    The product photo is drawn into a canvas of its natural size and its
    RGBA bytes are read back ([getImageData]).  The mean of the four corner
    pixels is the background colour; each pixel's alpha is then set to 0
    when its colour is within distance 60 of it, lowered to a feathered
    value between 60 and 90, and kept beyond.  The buffer is a [list Z]
    updated with stdpp's [<[i:=v]>], which, like a typed array, ignores a
    write out of range.  [strip_loop] is the source's index loop, with fuel;
    [strip_pixels] is a reference that walks the buffer pixel by pixel, and
    the two agree ([strip_loop_equiv]).  The square root enters only
    through [Z.sqrt] on integers, which is exact for what the code does with
    it (see [sqrt_lt] and [feather_alpha]). *)

From Stdlib Require Import ZArith QArith Lia String.
From stdpp Require Import list.
From S2P Require Import Prelude.

Module Background.

Local Open Scope Z_scope.

(** ** Data *)

(** An [HTMLImageElement]: its natural and layout sizes. *)
Record product_image := MkProductImage {
  naturalWidth : Z; naturalHeight : Z; imgWidth : Z; imgHeight : Z
}.

(** A canvas: its size and its RGBA bytes, row by row. *)
Record canvas := MkCanvas { cwidth : Z; cheight : Z; cdata : list Z }.

(** [a || b] on numbers: [a] unless it is 0. *)
Definition js_or_num (a b : Z) : Z := if a =? 0 then b else a.

(** [data[i]] of a [Uint8ClampedArray]; reads out of range do not happen
    in this code (see [sample_corners] and [strip_loop_equiv]). *)
Definition read (data : list Z) (i : Z) : Z :=
  match data !! Z.to_nat i with Some v => v | None => 0 end.

(** [data[i] = v] for an integer [v] in [0, 255]. *)
Definition store (data : list Z) (i v : Z) : list Z := <[Z.to_nat i := v]> data.

(** ** The corner estimate (lines 122-141) *)

Definition samplePositions (w h : Z) : list Z :=
  [0; (w - 1) * 4; (h - 1) * w * 4; ((h - 1) * w + (w - 1)) * 4].

(** The loop of lines 131-138: sums of the three channels and the count
    of sampled corners. *)
Definition sample_corners (data : list Z) (w h : Z) : Z * Z * Z * Z :=
  fold_left
    (fun '(bgR, bgG, bgB, count) idx =>
       if (idx >=? 0) && (idx + 2 <? Z.of_nat (length data))
       then (bgR + read data idx, bgG + read data (idx + 1), bgB + read data (idx + 2), count + 1)
       else (bgR, bgG, bgB, count))
    (samplePositions w h) (0, 0, 0, 0).

(** Lines 139-141: [Math.round(sum / count)] for each channel; with
    [count = 0] the three values are [NaN] ([None]). *)
Definition background_color (data : list Z) (w h : Z) : option (Z * Z * Z) :=
  let '(bgR, bgG, bgB, count) := sample_corners data w h in
  if count =? 0 then None
  else Some (js_round (inject_Z bgR / inject_Z count), js_round (inject_Z bgG / inject_Z count),
             js_round (inject_Z bgB / inject_Z count)).

(** ** The per-pixel decision (lines 143-158) *)

Definition threshold : Z := 60.
Definition edgeFade : Z := 30.

(** The squared distance of a colour to the background. *)
Definition dist2 (bg : Z * Z * Z) (r g b : Z) : Z :=
  let '(bgR, bgG, bgB) := bg in (r - bgR) ^ 2 + (g - bgG) ^ 2 + (b - bgB) ^ 2.

(** [Math.sqrt(n) < t] for integers [n >= 0] and [t]: the square root is
    below an integer exactly when its integer part is (and a correctly
    rounded [sqrt] never crosses an integer). *)
Definition sqrt_lt (n t : Z) : bool := Z.sqrt n <? t.

(** [Math.round(((Math.sqrt(n) - threshold) / edgeFade) * 255)]: with
    [255 / edgeFade] and [threshold] integers, this is
    [floor((510 * sqrt n - 510 * threshold + edgeFade) / (2 * edgeFade))], and
    [floor (510 * sqrt n) = Z.sqrt (510^2 * n)]; see [feather_alpha_spec]. *)
Definition feather_alpha (n : Z) : Z :=
  (Z.sqrt (260100 * n) - 510 * threshold + edgeFade) / (2 * edgeFade).

(** The new alpha of a pixel of colour [r, g, b] and alpha [a]. *)
Definition new_alpha (bg : option (Z * Z * Z)) (r g b a : Z) : Z :=
  match bg with
  | None => a   (* every comparison with NaN is false *)
  | Some c =>
      let n := dist2 c r g b in
      if sqrt_lt n threshold then 0
      else if sqrt_lt n (threshold + edgeFade) then Z.min a (feather_alpha n)
      else a
  end.

(** One iteration of the loop of lines 146-159, at index [i]. *)
Definition pixel_step (bg : option (Z * Z * Z)) (i : Z) (data : list Z) : list Z :=
  let r := read data i in
  let g := read data (i + 1) in
  let b := read data (i + 2) in
  match bg with
  | None => data
  | Some c =>
      let n := dist2 c r g b in
      if sqrt_lt n threshold then store data (i + 3) 0
      else if sqrt_lt n (threshold + edgeFade)
      then store data (i + 3) (Z.min (read data (i + 3)) (feather_alpha n))
      else data
  end.

(** The loop [for (let i = 0; i < data.length; i += 4)], with fuel. *)
Fixpoint strip_loop (fuel : nat) (bg : option (Z * Z * Z)) (i : Z) (data : list Z) : list Z :=
  match fuel with
  | O => data
  | S fuel' =>
      if i <? Z.of_nat (length data)
      then strip_loop fuel' bg (i + 4) (pixel_step bg i data)
      else data
  end.

(** The reference: the same decision, pixel by pixel. *)
Fixpoint strip_pixels (bg : option (Z * Z * Z)) (data : list Z) : list Z :=
  match data with
  | r :: g :: b :: a :: rest => r :: g :: b :: new_alpha bg r g b a :: strip_pixels bg rest
  | _ => data
  end.

(** ** The whole function (lines 110-163) *)

(** Lines 112-113. *)
Definition source_width (img : product_image) : Z := js_or_num (naturalWidth img) (imgWidth img).
Definition source_height (img : product_image) : Z := js_or_num (naturalHeight img) (imgHeight img).

Section Remove.

(** The browser's rasterizer: the RGBA bytes of a [w] by [h] canvas after
    [drawImage(img, 0, 0, w, h)]. *)
Variable rasterize : product_image -> Z -> Z -> list Z.

Definition removeBackground (img : product_image) : js_result canvas :=
  let w := source_width img in
  let h := source_height img in
  if w <=? 0 then js_throw (JsError "IndexSizeError"%string
    "Failed to execute 'getImageData' on 'CanvasRenderingContext2D': The source width is 0."%string)
  else if h <=? 0 then js_throw (JsError "IndexSizeError"%string
    "Failed to execute 'getImageData' on 'CanvasRenderingContext2D': The source height is 0."%string)
  else
    let data := rasterize img w h in
    let bg := background_color data w h in
    js_ret (MkCanvas w h (strip_loop (length data) bg 0 data)).

End Remove.

(** ** The index loop and the pixel-wise reference *)

Lemma read_app (pre l : list Z) (j : Z) :
  0 <= j -> read (pre ++ l) (Z.of_nat (length pre) + j) = read l j.
Proof.
  intros Hj. unfold read. rewrite Z2Nat.inj_add, Nat2Z.id by lia.
  rewrite lookup_app_r by lia.
  replace (length pre + Z.to_nat j - length pre)%nat with (Z.to_nat j) by lia. reflexivity.
Qed.

Lemma read_app0 (pre l : list Z) : read (pre ++ l) (Z.of_nat (length pre)) = read l 0.
Proof. rewrite <- (read_app pre l 0) by lia. rewrite Z.add_0_r. reflexivity. Qed.

Lemma store_app (pre l : list Z) (j v : Z) :
  0 <= j -> store (pre ++ l) (Z.of_nat (length pre) + j) v = pre ++ store l j v.
Proof.
  intros Hj. unfold store. rewrite Z2Nat.inj_add, Nat2Z.id by lia. apply insert_app_r.
Qed.

(** One iteration rewrites exactly the alpha byte of the pixel at [i]. *)
Lemma pixel_step_app (bg : option (Z * Z * Z)) (pre rest : list Z) (r g b a : Z) :
  pixel_step bg (Z.of_nat (length pre)) (pre ++ r :: g :: b :: a :: rest) =
  pre ++ r :: g :: b :: new_alpha bg r g b a :: rest.
Proof.
  unfold pixel_step, new_alpha. cbv zeta.
  rewrite read_app0, !read_app by lia.
  change (read (r :: g :: b :: a :: rest) 0) with r.
  change (read (r :: g :: b :: a :: rest) 1) with g.
  change (read (r :: g :: b :: a :: rest) 2) with b.
  change (read (r :: g :: b :: a :: rest) 3) with a.
  destruct bg as [c |]; [| reflexivity].
  destruct (sqrt_lt (dist2 c r g b) threshold); [rewrite store_app by lia; reflexivity |].
  destruct (sqrt_lt (dist2 c r g b) (threshold + edgeFade)); [| reflexivity].
  rewrite store_app by lia. reflexivity.
Qed.

Lemma strip_loop_app (bg : option (Z * Z * Z)) (n : nat) :
  forall (rest pre : list Z) (fuel : nat),
  length rest = (4 * n)%nat -> (n <= fuel)%nat ->
  strip_loop fuel bg (Z.of_nat (length pre)) (pre ++ rest) = pre ++ strip_pixels bg rest.
Proof.
  induction n as [|n IH]; intros rest pre fuel Hlen Hfuel.
  - destruct rest; [| discriminate]. cbn [strip_pixels]. rewrite !app_nil_r.
    destruct fuel; cbn; [reflexivity |]. rewrite Z.ltb_irrefl. reflexivity.
  - destruct rest as [|r [|g [|b [|a rest']]]]; cbn [length] in Hlen; try lia.
    destruct fuel as [|fuel]; [lia |]. cbn [strip_loop strip_pixels].
    rewrite length_app. cbn [length].
    replace (Z.of_nat (length pre) <? Z.of_nat (length pre + S (S (S (S (length rest'))))))
      with true by (symmetry; apply Z.ltb_lt; lia).
    rewrite pixel_step_app.
    replace (Z.of_nat (length pre) + 4)
      with (Z.of_nat (length (pre ++ [r; g; b; new_alpha bg r g b a]))) by (rewrite length_app; cbn; lia).
    replace (pre ++ r :: g :: b :: new_alpha bg r g b a :: rest')
      with ((pre ++ [r; g; b; new_alpha bg r g b a]) ++ rest') by (rewrite <- app_assoc; reflexivity).
    rewrite IH by lia. rewrite <- app_assoc. reflexivity.
Qed.

(** C5. The source's index loop, given at least one unit of fuel per
    pixel, computes the same buffer as the pixel-wise reference: it
    terminates and changes only each pixel's alpha, by [new_alpha]. *)
Theorem strip_loop_equiv (bg : option (Z * Z * Z)) (data : list Z) (fuel : nat) :
  (length data mod 4 = 0)%nat -> (length data / 4 <= fuel)%nat ->
  strip_loop fuel bg 0 data = strip_pixels bg data.
Proof.
  intros Hmod Hfuel.
  apply (strip_loop_app bg (length data / 4) data [] fuel); [| exact Hfuel].
  pose proof (Nat.div_mod_eq (length data) 4). lia.
Qed.

(** ** The per-pixel decision *)

Lemma dist2_nonneg (c : Z * Z * Z) (r g b : Z) : 0 <= dist2 c r g b.
Proof.
  destruct c as [[cr cg] cb]. cbn [dist2]. rewrite !Z.pow_2_r.
  pose proof (Z.square_nonneg (r - cr)). pose proof (Z.square_nonneg (g - cg)).
  pose proof (Z.square_nonneg (b - cb)). lia.
Qed.

(** For non-negative integers, comparing the square root is comparing
    the square. *)
Lemma sqrt_lt_spec (n t : Z) : 0 <= n -> 0 <= t -> sqrt_lt n t = (n <? t * t).
Proof.
  intros Hn Ht. unfold sqrt_lt. pose proof (Z.sqrt_lt_square n t Hn Ht).
  destruct (Z.ltb_spec (Z.sqrt n) t), (Z.ltb_spec n (t * t)); intuition lia.
Qed.

(** The feather value is [Math.round(((sqrt n - 60) / 30) * 255)] for the
    real square root: writing [a] for it, [a - 1/2 <= 8.5 * (sqrt n - 60) <
    a + 1/2], squared out. *)
Theorem feather_alpha_spec (n : Z) :
  threshold * threshold <= n ->
  let a := feather_alpha n in
  (edgeFade * (2 * a - 1) + 510 * threshold) ^ 2 <= 260100 * n <
  (edgeFade * (2 * a + 1) + 510 * threshold) ^ 2.
Proof.
  unfold feather_alpha, threshold, edgeFade. intros Hn. cbv zeta.
  pose proof (Z.sqrt_spec (260100 * n) ltac:(lia)) as [Hs1 Hs2]. cbv zeta in Hs1, Hs2.
  assert (30600 <= Z.sqrt (260100 * n)).
  { apply Z.sqrt_le_square; lia. }
  set (k := Z.sqrt (260100 * n)) in *.
  pose proof (Z_div_bounds (k - 510 * 60 + 30) (2 * 30) ltac:(lia)).
  set (a := (k - 510 * 60 + 30) / (2 * 30)) in *. rewrite !Z.pow_2_r. split; nia.
Qed.

(** In the feather band the value is a byte. *)
Lemma feather_alpha_range (n : Z) :
  threshold * threshold <= n < (threshold + edgeFade) * (threshold + edgeFade) ->
  0 <= feather_alpha n <= 255.
Proof.
  unfold feather_alpha, threshold, edgeFade. intros Hn.
  assert (30600 <= Z.sqrt (260100 * n)) by (apply Z.sqrt_le_square; lia).
  assert (Z.sqrt (260100 * n) < 45900) by (apply Z.sqrt_lt_square; lia).
  split; [apply Z.div_pos; lia |].
  assert ((Z.sqrt (260100 * n) - 510 * 60 + 30) / (2 * 30) < 256) by (apply Z.div_lt_upper_bound; lia).
  lia.
Qed.

(** The new alpha of a pixel at squared colour distance [n] from the
    background: 0 when [sqrt n < 60]; the smaller of its alpha and the
    feather value when [60 <= sqrt n < 90]; its own alpha beyond. *)
Theorem new_alpha_cases (c : Z * Z * Z) (r g b a : Z) :
  let n := dist2 c r g b in
  (n < 3600 -> new_alpha (Some c) r g b a = 0) /\
  (3600 <= n < 8100 -> new_alpha (Some c) r g b a = Z.min a (feather_alpha n)) /\
  (8100 <= n -> new_alpha (Some c) r g b a = a).
Proof.
  cbv zeta. pose proof (dist2_nonneg c r g b). unfold new_alpha.
  rewrite !sqrt_lt_spec by (unfold threshold, edgeFade; lia).
  unfold threshold, edgeFade. repeat split; intros; case_tests; zbool; lia.
Qed.

(** C21. Background removal never makes a pixel more opaque and keeps
    alpha a byte: for an alpha [a] in [0, 255] the new alpha is in [0, a]. *)
Theorem new_alpha_bounds (bg : option (Z * Z * Z)) (r g b a : Z) :
  0 <= a <= 255 -> 0 <= new_alpha bg r g b a <= a.
Proof.
  intros Ha. destruct bg as [c |]; [| cbn; lia].
  destruct (new_alpha_cases c r g b a) as (H1 & H2 & H3).
  set (n := dist2 c r g b) in *.
  destruct (Z_lt_le_dec n 3600); [rewrite H1 by lia; lia |].
  destruct (Z_lt_le_dec n 8100); [| rewrite H3 by lia; lia].
  rewrite H2 by lia. pose proof (feather_alpha_range n ltac:(unfold threshold, edgeFade; lia)). lia.
Qed.

Lemma lookup_cons4 (x1 x2 x3 x4 : Z) (l : list Z) (i : nat) :
  (x1 :: x2 :: x3 :: x4 :: l) !! (4 + i)%nat = l !! i.
Proof. reflexivity. Qed.

(** The reference at pixel [k]: channels kept, alpha by [new_alpha]. *)
Lemma strip_pixels_lookup (bg : option (Z * Z * Z)) (k : nat) :
  forall data : list Z, (4 * k + 3 < length data)%nat ->
  (forall j, (j < 3)%nat -> strip_pixels bg data !! (4 * k + j)%nat = data !! (4 * k + j)%nat) /\
  strip_pixels bg data !! (4 * k + 3)%nat =
    Some (new_alpha bg (read data (Z.of_nat (4 * k))) (read data (Z.of_nat (4 * k) + 1))
                      (read data (Z.of_nat (4 * k) + 2)) (read data (Z.of_nat (4 * k) + 3))).
Proof.
  induction k as [|k IH]; intros data Hlen;
    destruct data as [|r [|g [|b [|a rest]]]]; cbn [length] in Hlen; try lia.
  - split; [intros [|[|[|j]]] Hj; cbn; reflexivity || lia | reflexivity].
  - replace (4 * S k)%nat with (4 + 4 * k)%nat by lia.
    destruct (IH rest ltac:(lia)) as [IHc IHa]. split.
    + intros j Hj. rewrite <- Nat.add_assoc. cbn [strip_pixels]. rewrite !lookup_cons4. apply (IHc j Hj).
    + rewrite <- Nat.add_assoc. cbn [strip_pixels]. rewrite lookup_cons4, IHa.
      replace (Z.of_nat (4 + 4 * k)) with (Z.of_nat (length [r; g; b; a]) + Z.of_nat (4 * k)) by (cbn; lia).
      change (r :: g :: b :: a :: rest) with ([r; g; b; a] ++ rest).
      rewrite <- !Z.add_assoc, !read_app by lia. reflexivity.
Qed.

(** ** The corner estimate *)

Lemma corner_guard (data : list Z) (idx : Z) :
  0 <= idx -> idx + 2 < Z.of_nat (length data) ->
  ((idx >=? 0) && (idx + 2 <? Z.of_nat (length data)))%bool = true.
Proof. intros H1 H2. apply andb_true_iff. rewrite Z.geb_le, Z.ltb_lt. lia. Qed.

(** For a canvas of at least one pixel, all four corner samples are
    in range: the count is 4 and the sums are those of the corner pixels
    (top-left, top-right, bottom-left, bottom-right). *)
Theorem sample_corners_full (data : list Z) (w h : Z) :
  1 <= w -> 1 <= h -> Z.of_nat (length data) = 4 * w * h ->
  let corner j := read data (0 + j) + read data ((w - 1) * 4 + j) +
                  read data ((h - 1) * w * 4 + j) + read data (((h - 1) * w + (w - 1)) * 4 + j) in
  sample_corners data w h = (corner 0, corner 1, corner 2, 4).
Proof.
  intros Hw Hh Hlen. cbv zeta. unfold sample_corners, samplePositions. cbn [fold_left].
  rewrite !corner_guard by nia. rewrite !Z.add_0_l, !Z.add_0_r. reflexivity.
Qed.

(** The mean corner colour of a canvas of at least one pixel: the
    rounded average of the four corner pixels, channel by channel. *)
Lemma background_color_corners (data : list Z) (w h : Z) :
  1 <= w -> 1 <= h -> Z.of_nat (length data) = 4 * w * h ->
  let corner j := read data (0 + j) + read data ((w - 1) * 4 + j) +
                  read data ((h - 1) * w * 4 + j) + read data (((h - 1) * w + (w - 1)) * 4 + j) in
  background_color data w h =
    Some (js_round (inject_Z (corner 0) / inject_Z 4), js_round (inject_Z (corner 1) / inject_Z 4),
          js_round (inject_Z (corner 2) / inject_Z 4)).
Proof.
  intros Hw Hh Hlen corner. unfold background_color. rewrite (sample_corners_full data w h Hw Hh Hlen).
  reflexivity.
Qed.

Lemma strip_pixels_length (bg : option (Z * Z * Z)) (n : nat) :
  forall data : list Z, (length data <= n)%nat -> length (strip_pixels bg data) = length data.
Proof.
  induction n as [|n IH]; intros data Hlen.
  - destruct data; [reflexivity | cbn in Hlen; lia].
  - destruct data as [|r [|g [|b [|a rest]]]]; try reflexivity.
    cbn [strip_pixels length] in *. rewrite IH by lia. reflexivity.
Qed.

(** ** The whole function *)

(** C20. For a photo of at least one pixel whose rasterized buffer has
    [4 * w * h] bytes, [removeBackground] returns a canvas of the same size
    whose buffer has the same length, the same colour bytes, and at each
    pixel the alpha [new_alpha] computes from the background colour
    estimated as the rounded mean of the four corner pixels. *)
Theorem removeBackground_pixels (rasterize : product_image -> Z -> Z -> list Z)
    (img : product_image) :
  let w := source_width img in
  let h := source_height img in
  let data := rasterize img w h in
  let corner j := read data (0 + j) + read data ((w - 1) * 4 + j) +
                  read data ((h - 1) * w * 4 + j) + read data (((h - 1) * w + (w - 1)) * 4 + j) in
  let bg := (js_round (inject_Z (corner 0) / inject_Z 4), js_round (inject_Z (corner 1) / inject_Z 4),
             js_round (inject_Z (corner 2) / inject_Z 4)) in
  1 <= w -> 1 <= h -> Z.of_nat (length data) = 4 * w * h ->
  exists out, removeBackground rasterize img = js_ret (MkCanvas w h out) /\
    length out = length data /\
    forall k : nat, (Z.of_nat k < w * h) ->
      (forall j, (j < 3)%nat -> out !! (4 * k + j)%nat = data !! (4 * k + j)%nat) /\
      out !! (4 * k + 3)%nat =
        Some (new_alpha (Some bg)
                (read data (Z.of_nat (4 * k))) (read data (Z.of_nat (4 * k) + 1))
                (read data (Z.of_nat (4 * k) + 2)) (read data (Z.of_nat (4 * k) + 3))).
Proof.
  cbv zeta. intros Hw Hh Hlen. unfold removeBackground. cbv zeta.
  replace (source_width img <=? 0) with false by (symmetry; apply Z.leb_gt; lia).
  replace (source_height img <=? 0) with false by (symmetry; apply Z.leb_gt; lia).
  set (data := rasterize img (source_width img) (source_height img)) in *.
  exists (strip_pixels (background_color data (source_width img) (source_height img)) data).
  rewrite strip_loop_equiv; [| apply Nat.Lcm0.mod_divide; exists (Z.to_nat (source_width img * source_height img)); lia
                            | apply Nat.Div0.div_le_upper_bound; lia].
  split; [reflexivity |]. split; [apply (strip_pixels_length _ (length data)); lia |].
  intros k Hk. rewrite <- (background_color_corners data _ _ Hw Hh Hlen). apply strip_pixels_lookup. lia.
Qed.

(** A photo of zero width (natural and layout width both 0, or a
    natural width of 0 with a layout width of 0) makes [getImageData]
    throw: [removeBackground] raises the [IndexSizeError]. *)
Theorem removeBackground_zero_width (rasterize : product_image -> Z -> Z -> list Z)
    (img : product_image) :
  source_width img <= 0 ->
  removeBackground rasterize img = js_throw (JsError "IndexSizeError"
    "Failed to execute 'getImageData' on 'CanvasRenderingContext2D': The source width is 0.").
Proof.
  intros Hw. unfold removeBackground. cbv zeta.
  replace (source_width img <=? 0) with true by (symmetry; apply Z.leb_le; lia). reflexivity.
Qed.

(** *** A photo of one colour *)

(** The buffer of a photo whose every pixel has colour [cr, cg, cb], with
    the given alphas. *)
Definition solid_buffer (cr cg cb : Z) (alphas : list Z) : list Z :=
  concat (map (fun a => [cr; cg; cb; a]) alphas).

Lemma solid_buffer_length (cr cg cb : Z) (alphas : list Z) :
  length (solid_buffer cr cg cb alphas) = (4 * length alphas)%nat.
Proof.
  unfold solid_buffer. induction alphas as [|a l IH]; [reflexivity |].
  cbn [map concat]. rewrite length_app, IH. cbn. lia.
Qed.

Lemma solid_buffer_lookup (cr cg cb : Z) (alphas : list Z) (k : nat) :
  (k < length alphas)%nat ->
  solid_buffer cr cg cb alphas !! (4 * k)%nat = Some cr /\
  solid_buffer cr cg cb alphas !! (4 * k + 1)%nat = Some cg /\
  solid_buffer cr cg cb alphas !! (4 * k + 2)%nat = Some cb.
Proof.
  unfold solid_buffer. revert alphas. induction k as [|k IH]; intros [|a l] Hk; cbn in Hk; try lia.
  - repeat split.
  - replace (4 * S k)%nat with (4 + 4 * k)%nat by lia. cbn [map concat app].
    rewrite <- !Nat.add_assoc, !lookup_cons4. apply IH. lia.
Qed.

(** The colour bytes of pixel [q] (as the corner indices [q * 4 + j]). *)
Lemma solid_buffer_read (cr cg cb : Z) (alphas : list Z) (q : Z) :
  0 <= q -> q < Z.of_nat (length alphas) ->
  read (solid_buffer cr cg cb alphas) (q * 4 + 0) = cr /\
  read (solid_buffer cr cg cb alphas) (q * 4 + 1) = cg /\
  read (solid_buffer cr cg cb alphas) (q * 4 + 2) = cb.
Proof.
  intros H0 H1. destruct (solid_buffer_lookup cr cg cb alphas (Z.to_nat q) ltac:(lia)) as (A & B & C).
  unfold read. replace (Z.to_nat (q * 4 + 0)) with (4 * Z.to_nat q)%nat by lia.
  replace (Z.to_nat (q * 4 + 1)) with (4 * Z.to_nat q + 1)%nat by lia.
  replace (Z.to_nat (q * 4 + 2)) with (4 * Z.to_nat q + 2)%nat by lia.
  rewrite A, B, C. auto.
Qed.

Lemma round_quarter (c : Z) : js_round (inject_Z (c + c + c + c) / inject_Z 4) = c.
Proof.
  rewrite js_round_div by lia. pose proof (Z_div_bounds (2 * (c + c + c + c) + 4) (2 * 4) ltac:(lia)). lia.
Qed.

Lemma strip_pixels_solid (cr cg cb : Z) (alphas : list Z) :
  strip_pixels (Some (cr, cg, cb)) (solid_buffer cr cg cb alphas) =
  solid_buffer cr cg cb (map (fun _ => 0) alphas).
Proof.
  unfold solid_buffer. induction alphas as [|a l IH]; [reflexivity |].
  cbn [map concat app strip_pixels]. rewrite IH.
  rewrite (proj1 (new_alpha_cases (cr, cg, cb) cr cg cb a)); [reflexivity |].
  cbn [dist2]. rewrite !Z.sub_diag. reflexivity.
Qed.

(** The spec's example: a product photo of one colour everywhere
    (its corners included) comes out fully transparent, every pixel's alpha
    0 and its colour unchanged. *)
Theorem removeBackground_solid (rasterize : product_image -> Z -> Z -> list Z)
    (img : product_image) (cr cg cb : Z) (alphas : list Z) :
  let w := source_width img in
  let h := source_height img in
  1 <= w -> 1 <= h ->
  rasterize img w h = solid_buffer cr cg cb alphas -> Z.of_nat (length alphas) = w * h ->
  removeBackground rasterize img = js_ret (MkCanvas w h (solid_buffer cr cg cb (map (fun _ => 0) alphas))).
Proof.
  cbv zeta. intros Hw Hh Hr Ha. unfold removeBackground. cbv zeta.
  replace (source_width img <=? 0) with false by (symmetry; apply Z.leb_gt; lia).
  replace (source_height img <=? 0) with false by (symmetry; apply Z.leb_gt; lia).
  rewrite Hr. set (w := source_width img) in *. set (h := source_height img) in *.
  pose proof (solid_buffer_length cr cg cb alphas) as Hlen.
  unfold background_color.
  rewrite (sample_corners_full _ w h Hw Hh) by lia. cbv zeta.
  destruct (solid_buffer_read cr cg cb alphas 0 ltac:(lia) ltac:(nia)) as (R0 & G0 & B0).
  destruct (solid_buffer_read cr cg cb alphas (w - 1) ltac:(lia) ltac:(nia)) as (R1 & G1 & B1).
  destruct (solid_buffer_read cr cg cb alphas ((h - 1) * w) ltac:(nia) ltac:(nia)) as (R2 & G2 & B2).
  destruct (solid_buffer_read cr cg cb alphas ((h - 1) * w + (w - 1)) ltac:(nia) ltac:(nia))
    as (R3 & G3 & B3).
  change (0 * 4 + 0) with (0 + 0) in R0. change (0 * 4 + 1) with (0 + 1) in G0.
  change (0 * 4 + 2) with (0 + 2) in B0.
  rewrite R0, G0, B0, R1, G1, B1, R2, G2, B2, R3, G3, B3. cbn [Z.eqb].
  rewrite !round_quarter, strip_loop_equiv, strip_pixels_solid; [reflexivity | rewrite Hlen .. ].
  - apply Nat.Lcm0.mod_divide. exists (length alphas). lia.
  - apply Nat.Div0.div_le_upper_bound. lia.
Qed.

(** ** Concrete runs and witnesses *)

(** At distance exactly 61, [Math.round(8.5)] is 9. *)
Example feather_alpha_61 : feather_alpha 3721 = 9.
Proof. vm_compute. reflexivity. Qed.

Definition sample_buffer : list Z := [250; 250; 250; 255; 20; 40; 60; 255; 250; 250; 250; 255].

Definition sample_image : product_image := MkProductImage 3 1 0 0.

Example removeBackground_sample :
  removeBackground (fun _ _ _ => sample_buffer) sample_image =
    js_ret (MkCanvas 3 1 [250; 250; 250; 0; 20; 40; 60; 255; 250; 250; 250; 0]).
Proof. vm_compute. reflexivity. Qed.

Lemma strip_loop_equiv_witness :
  strip_loop 3 (Some (250, 250, 250)) 0 sample_buffer = strip_pixels (Some (250, 250, 250)) sample_buffer.
Proof. apply strip_loop_equiv; vm_compute; lia. Defined.

Lemma new_alpha_bounds_witness :
  0 <= new_alpha (Some (250, 250, 250)) 200 200 200 255 <= 255.
Proof. apply new_alpha_bounds. lia. Defined.

Lemma feather_alpha_spec_witness :
  (edgeFade * (2 * feather_alpha 3721 - 1) + 510 * threshold) ^ 2 <= 260100 * 3721 <
  (edgeFade * (2 * feather_alpha 3721 + 1) + 510 * threshold) ^ 2.
Proof. apply feather_alpha_spec. vm_compute. discriminate. Defined.

Lemma sample_corners_full_witness :
  sample_corners sample_buffer 3 1 =
    (read sample_buffer (0 + 0) + read sample_buffer ((3 - 1) * 4 + 0) +
       read sample_buffer ((1 - 1) * 3 * 4 + 0) + read sample_buffer (((1 - 1) * 3 + (3 - 1)) * 4 + 0),
     read sample_buffer (0 + 1) + read sample_buffer ((3 - 1) * 4 + 1) +
       read sample_buffer ((1 - 1) * 3 * 4 + 1) + read sample_buffer (((1 - 1) * 3 + (3 - 1)) * 4 + 1),
     read sample_buffer (0 + 2) + read sample_buffer ((3 - 1) * 4 + 2) +
       read sample_buffer ((1 - 1) * 3 * 4 + 2) + read sample_buffer (((1 - 1) * 3 + (3 - 1)) * 4 + 2),
     4).
Proof. apply (sample_corners_full sample_buffer 3 1); vm_compute; congruence. Defined.

Lemma removeBackground_pixels_witness :
  exists out, removeBackground (fun _ _ _ => sample_buffer) sample_image = js_ret (MkCanvas 3 1 out) /\
    length out = length sample_buffer /\
    forall k : nat, (Z.of_nat k < 3 * 1) ->
      (forall j, (j < 3)%nat -> out !! (4 * k + j)%nat = sample_buffer !! (4 * k + j)%nat) /\
      out !! (4 * k + 3)%nat =
        Some (new_alpha (Some (250, 250, 250))
                (read sample_buffer (Z.of_nat (4 * k))) (read sample_buffer (Z.of_nat (4 * k) + 1))
                (read sample_buffer (Z.of_nat (4 * k) + 2)) (read sample_buffer (Z.of_nat (4 * k) + 3))).
Proof.
  exact (removeBackground_pixels (fun _ _ _ => sample_buffer) sample_image
           ltac:(vm_compute; congruence) ltac:(vm_compute; congruence) eq_refl).
Defined.

Lemma removeBackground_zero_width_witness :
  removeBackground (fun _ _ _ => []) (MkProductImage 0 5 0 5) = js_throw (JsError "IndexSizeError"
    "Failed to execute 'getImageData' on 'CanvasRenderingContext2D': The source width is 0.").
Proof. apply removeBackground_zero_width. vm_compute. congruence. Defined.

Lemma removeBackground_solid_witness :
  removeBackground (fun _ _ _ => solid_buffer 90 30 200 [255; 128; 255; 0; 255; 255])
    (MkProductImage 3 2 0 0) =
  js_ret (MkCanvas 3 2 (solid_buffer 90 30 200 (map (fun _ => 0) [255; 128; 255; 0; 255; 255]))).
Proof.
  exact (removeBackground_solid (fun _ _ _ => solid_buffer 90 30 200 [255; 128; 255; 0; 255; 255])
           (MkProductImage 3 2 0 0) 90 30 200 [255; 128; 255; 0; 255; 255]
           ltac:(vm_compute; congruence) ltac:(vm_compute; congruence) eq_refl eq_refl).
Defined.

End Background.
