(* ===== verification/Compositor.v ===== *)
(** * The compositor: [compositeImage] of [src/src/lib/tryOnEngine.ts]

    The Canvas 2D context is a state machine: a drawing state (transform,
    shadow, global alpha, composite operation), a stack of saved states,
    and the bitmap, which we observe as the list of the calls that drew on
    it, each with the drawing state in force.  Setting [canvas.width] or
    [canvas.height] resets the context and clears the bitmap, as the HTML
    standard says.  [compositeImage] is the sequence of calls of lines
    169-218, with [removeBackground] from [Background] in the middle; its
    result is the JPEG encoding of the final bitmap.  The canvas is the
    caller's object: [compositeImage] returns its final context beside the
    result, also when [removeBackground] throws after the photo was drawn. *)

From Stdlib Require Import ZArith QArith Lqa String List.
From S2P Require Import Prelude Geometry Background.
Import ListNotations.
Import Placement Background.
Open Scope Q_scope.

Module Compositor.

(** ** The Canvas 2D context *)

Inductive transform_op :=
| Translate (tx ty : Q)
| Rotate (a : Q).

Inductive composite_op := SourceOver | Multiply.

Record draw_state := MkDrawState {
  transform : list transform_op;   (* in the order the calls were made *)
  shadowColor : string;
  shadowBlur : Q;
  shadowOffsetX : Q;
  shadowOffsetY : Q;
  globalAlpha : Q;
  compositeOp : composite_op
}.

(** The state after a reset: identity transform, no shadow, opaque,
    [source-over]. *)
Definition default_state : draw_state :=
  MkDrawState [] "rgba(0, 0, 0, 0)" 0 0 0 1 SourceOver.

Inductive image_source :=
| SrcImage (img : product_image)
| SrcCanvas (c : canvas).

Inductive draw_cmd :=
| ClearRect (x y w h : Q)
| DrawImage (src : image_source) (dx dy dw dh : Q) (st : draw_state).

Record context := MkContext {
  cv_width : Z;
  cv_height : Z;
  state : draw_state;
  stack : list draw_state;
  bitmap : list draw_cmd    (* the calls that drew, oldest first *)
}.

Definition set_state (c : context) (st : draw_state) : context :=
  MkContext (cv_width c) (cv_height c) st (stack c) (bitmap c).

(** [canvas.width = w], [canvas.height = h]: the context is reset. *)
Definition set_width (c : context) (w : Z) : context := MkContext w (cv_height c) default_state [] [].
Definition set_height (c : context) (h : Z) : context := MkContext (cv_width c) h default_state [] [].

Definition clearRect (c : context) (x y w h : Q) : context :=
  MkContext (cv_width c) (cv_height c) (state c) (stack c) (bitmap c ++ [ClearRect x y w h]).

Definition drawImage (c : context) (src : image_source) (dx dy dw dh : Q) : context :=
  MkContext (cv_width c) (cv_height c) (state c) (stack c)
    (bitmap c ++ [DrawImage src dx dy dw dh (state c)]).

Definition save (c : context) : context :=
  MkContext (cv_width c) (cv_height c) (state c) (state c :: stack c) (bitmap c).

(** [restore()] with an empty stack does nothing. *)
Definition restore (c : context) : context :=
  match stack c with
  | [] => c
  | st :: rest => MkContext (cv_width c) (cv_height c) st rest (bitmap c)
  end.

Definition update_state (c : context) (f : draw_state -> draw_state) : context :=
  set_state c (f (state c)).

Definition translate (c : context) (tx ty : Q) : context :=
  update_state c (fun s => MkDrawState (transform s ++ [Translate tx ty]) (shadowColor s)
    (shadowBlur s) (shadowOffsetX s) (shadowOffsetY s) (globalAlpha s) (compositeOp s)).

Definition rotate (c : context) (a : Q) : context :=
  update_state c (fun s => MkDrawState (transform s ++ [Rotate a]) (shadowColor s)
    (shadowBlur s) (shadowOffsetX s) (shadowOffsetY s) (globalAlpha s) (compositeOp s)).

(** The [shadowBlur] setter ignores a negative value (HTML: values that
    are negative are ignored); the other three take any finite value. *)
Definition set_shadow (c : context) (color : string) (blur ox oy : Q) : context :=
  update_state c (fun s => MkDrawState (transform s) color (if Qle_bool 0 blur then blur else shadowBlur s)
                             ox oy (globalAlpha s) (compositeOp s)).

Definition set_globalAlpha (c : context) (a : Q) : context :=
  update_state c (fun s => MkDrawState (transform s) (shadowColor s) (shadowBlur s)
    (shadowOffsetX s) (shadowOffsetY s) a (compositeOp s)).

Definition set_compositeOp (c : context) (op : composite_op) : context :=
  update_state c (fun s => MkDrawState (transform s) (shadowColor s) (shadowBlur s)
    (shadowOffsetX s) (shadowOffsetY s) (globalAlpha s) op).

(** [canvas.toDataURL("image/jpeg", q)]: the encoding of the bitmap. *)
Record jpeg := MkJpeg { jpeg_width : Z; jpeg_height : Z; jpeg_calls : list draw_cmd; jpeg_quality : Q }.

Definition toDataURL (c : context) (q : Q) : jpeg := MkJpeg (cv_width c) (cv_height c) (bitmap c) q.

(** ** [compositeImage] (lines 169-218) *)

Section Composite.

Variable rasterize : product_image -> Z -> Z -> list Z.

Definition compositeImage (canvas0 : context) (userImg overlayImg : product_image)
    (position : OverlayPosition) : context * js_result jpeg :=
  let c := set_width canvas0 (source_width userImg) in
  let c := set_height c (source_height userImg) in
  let W := inject_Z (cv_width c) in
  let H := inject_Z (cv_height c) in
  let c := clearRect c 0 0 W H in
  let c := drawImage c (SrcImage userImg) 0 0 W H in
  match removeBackground rasterize overlayImg with
  | inl e => (c, js_throw e)
  | inr cleanOverlay =>
      let c := save c in
      let c := translate c (x position + width position / 2) (y position + height position / 2) in
      let c := rotate c (angle position) in
      let c := set_shadow c "rgba(0,0,0,0.3)" (width position * (5 # 100))
                 (width position * (1 # 100)) (width position * (2 # 100)) in
      let c := set_globalAlpha c (92 # 100) in
      let c := drawImage c (SrcCanvas cleanOverlay) (- width position / 2) (- height position / 2)
                 (width position) (height position) in
      let c := set_compositeOp c Multiply in
      let c := set_globalAlpha c (8 # 100) in
      let c := drawImage c (SrcCanvas cleanOverlay) (- width position / 2) (- height position / 2)
                 (width position) (height position) in
      let c := restore c in
      (c, js_ret (toDataURL c (92 # 100)))
  end.

End Composite.
(** ** The draw calls *)

(** The shadow blur of the passes: [0.05 w], or the reset value 0 when
    that is negative. *)
Definition pass_blur (p : OverlayPosition) : Q :=
  if Qle_bool 0 (width p * (5 # 100)) then width p * (5 # 100) else 0.

(** The drawing state of the first overlay pass: the transform centred on
    the rectangle and rotated by its angle, the shadow, 92% opacity. *)
Definition overlay_state (p : OverlayPosition) : draw_state :=
  MkDrawState [Translate (x p + width p / 2) (y p + height p / 2); Rotate (angle p)]
    "rgba(0,0,0,0.3)" (pass_blur p) (width p * (1 # 100)) (width p * (2 # 100))
    (92 # 100) SourceOver.

(** The second pass: the same, multiplied in at 8%. *)
Definition multiply_state (p : OverlayPosition) : draw_state :=
  MkDrawState [Translate (x p + width p / 2) (y p + height p / 2); Rotate (angle p)]
    "rgba(0,0,0,0.3)" (pass_blur p) (width p * (1 # 100)) (width p * (2 # 100))
    (8 # 100) Multiply.


Definition composite_calls (userImg : product_image) (clean : canvas) (p : OverlayPosition)
  : list draw_cmd :=
  let W := inject_Z (source_width userImg) in
  let H := inject_Z (source_height userImg) in
  [ClearRect 0 0 W H;
   DrawImage (SrcImage userImg) 0 0 W H default_state;
   DrawImage (SrcCanvas clean) (- width p / 2) (- height p / 2) (width p) (height p) (overlay_state p);
   DrawImage (SrcCanvas clean) (- width p / 2) (- height p / 2) (width p) (height p) (multiply_state p)].

Lemma compositeImage_ok (rasterize : product_image -> Z -> Z -> list Z) (c0 : context)
    (userImg overlayImg : product_image) (p : OverlayPosition) (clean : canvas) :
  removeBackground rasterize overlayImg = inr clean ->
  compositeImage rasterize c0 userImg overlayImg p =
    (MkContext (source_width userImg) (source_height userImg) default_state []
       (composite_calls userImg clean p),
     js_ret (MkJpeg (source_width userImg) (source_height userImg)
               (composite_calls userImg clean p) (92 # 100))).
Proof. intros H. unfold compositeImage. rewrite H. reflexivity. Qed.

(** C31. The output does not depend on what the canvas held or on the
    state its context was left in: two calls with the same photo, product
    and position, on any two canvases, give the same canvas and the same
    JPEG; in particular a second call on the canvas of the first gives
    identical bytes. *)
Theorem compositeImage_idempotent (rasterize : product_image -> Z -> Z -> list Z)
    (c0 c1 : context) (userImg overlayImg : product_image) (p : OverlayPosition) :
  compositeImage rasterize c0 userImg overlayImg p = compositeImage rasterize c1 userImg overlayImg p /\
  compositeImage rasterize (fst (compositeImage rasterize c0 userImg overlayImg p)) userImg overlayImg p =
    compositeImage rasterize c0 userImg overlayImg p.
Proof. unfold compositeImage. destruct (removeBackground rasterize overlayImg); split; reflexivity. Qed.

(** C6. When the product's background can be removed, the canvas is
    left with the photo's size, the default drawing state and an empty
    save stack ([save] and [restore] balance), and the JPEG holds, in
    order: the clear, the photo at its natural size under the default
    state, then the stripped product twice in the rectangle, first at 92%
    [source-over], then at 8% [multiply]. *)
Theorem compositeImage_calls (rasterize : product_image -> Z -> Z -> list Z) (c0 : context)
    (userImg overlayImg : product_image) (p : OverlayPosition) (clean : canvas) :
  removeBackground rasterize overlayImg = inr clean ->
  let '(c, r) := compositeImage rasterize c0 userImg overlayImg p in
  state c = default_state /\ stack c = [] /\
  cv_width c = source_width userImg /\ cv_height c = source_height userImg /\
  r = js_ret (MkJpeg (cv_width c) (cv_height c) (composite_calls userImg clean p) (92 # 100)).
Proof. intros H. rewrite (compositeImage_ok _ _ _ _ _ clean H). repeat split. Qed.


(** When removing the product's background throws, [compositeImage]
    throws the same error, and the caller's canvas has already been resized
    and holds the photo. *)
Theorem compositeImage_error (rasterize : product_image -> Z -> Z -> list Z) (c0 : context)
    (userImg overlayImg : product_image) (p : OverlayPosition) (e : js_error) :
  removeBackground rasterize overlayImg = inl e ->
  let W := inject_Z (source_width userImg) in
  let H := inject_Z (source_height userImg) in
  compositeImage rasterize c0 userImg overlayImg p =
    (MkContext (source_width userImg) (source_height userImg) default_state []
       [ClearRect 0 0 W H; DrawImage (SrcImage userImg) 0 0 W H default_state], js_throw e).
Proof. intros H. unfold compositeImage. rewrite H. reflexivity. Qed.

(** ** Where the product lands *)

Section Geometry.
Context `{M : JsMath} `{!JsMathLaws M}.

(** A point of the drawing space mapped to the canvas: the calls compose,
    so the last one applies first. *)
Definition apply_op (op : transform_op) (q : point) : point :=
  match op with
  | Translate tx ty => Pt (px q + tx) (py q + ty)
  | Rotate a => Pt (js_cos a * px q - js_sin a * py q) (js_sin a * px q + js_cos a * py q)
  end.

Definition apply_transform (ops : list transform_op) (q : point) : point :=
  fold_right apply_op q ops.

(** The destination rectangle of a draw, mapped corner by corner. *)
Definition drawn_center (dx dy dw dh : Q) (st : draw_state) : point :=
  apply_transform (transform st) (Pt (dx + dw / 2) (dy + dh / 2)).

(** C32. Each product pass is drawn centred on the overlay rectangle's
    centre, whatever the angle; and for an unrotated rectangle (the watch
    and clothing defaults) the drawn image covers exactly the rectangle:
    its corners land on [(x, y)] and [(x + width, y + height)]. *)
Theorem overlay_pass_placement (rasterize : product_image -> Z -> Z -> list Z) (c0 : context)
    (userImg overlayImg : product_image) (p : OverlayPosition) (clean : canvas)
    (c : context) (j : jpeg) :
  removeBackground rasterize overlayImg = inr clean ->
  compositeImage rasterize c0 userImg overlayImg p = (c, inr j) ->
  forall src dx dy dw dh st, In (DrawImage (SrcCanvas src) dx dy dw dh st) (jpeg_calls j) ->
    pt_equiv (drawn_center dx dy dw dh st) (Pt (x p + width p / 2) (y p + height p / 2)) /\
    (angle p == 0 ->
       pt_equiv (apply_transform (transform st) (Pt dx dy)) (Pt (x p) (y p)) /\
       pt_equiv (apply_transform (transform st) (Pt (dx + dw) (dy + dh)))
                (Pt (x p + width p) (y p + height p))).
Proof.
  intros Hr Hc. rewrite (compositeImage_ok _ _ _ _ _ clean Hr) in Hc.
  injection Hc as <- <-. intros src dx dy dw dh st Hin.
  unfold composite_calls in Hin. cbn [jpeg_calls In] in Hin.
  assert (transform st = [Translate (x p + width p / 2) (y p + height p / 2); Rotate (angle p)] /\
          dx = - width p / 2 /\ dy = - height p / 2 /\ dw = width p /\ dh = height p)
    as (Ht & -> & -> & -> & ->).
  { destruct Hin as [E | [E | [E | [E | []]]]]; try discriminate; injection E; intros; subst;
      repeat split. }
  unfold drawn_center, apply_transform. rewrite Ht. cbn [fold_right apply_op px py].
  unfold pt_equiv; cbn [px py]. split; [split; field |].
  intros Ha. rewrite Ha, cos_0, sin_0. split; split; cbn [px py]; field.
Qed.

End Geometry.

(** ** Witnesses *)

Definition sample_user : product_image := MkProductImage 4 2 0 0.
Definition sample_position : OverlayPosition := MkPos 1 0 2 1 0.
Definition sample_clean : canvas := MkCanvas 3 1 [250; 250; 250; 0; 20; 40; 60; 255; 250; 250; 250; 0]%Z.
Definition blank_context : context := MkContext 300 150 default_state [] [].

Lemma compositeImage_calls_witness :
  let '(c, r) := compositeImage (fun _ _ _ => sample_buffer) blank_context sample_user sample_image
                   sample_position in
  state c = default_state /\ stack c = [] /\
  cv_width c = source_width sample_user /\ cv_height c = source_height sample_user /\
  r = js_ret (MkJpeg (cv_width c) (cv_height c) (composite_calls sample_user sample_clean sample_position)
                (92 # 100)).
Proof. apply (compositeImage_calls _ _ _ _ _ sample_clean). vm_compute. reflexivity. Defined.

Lemma compositeImage_error_witness :
  let W := inject_Z (source_width sample_user) in
  let H := inject_Z (source_height sample_user) in
  compositeImage (fun _ _ _ => []) blank_context sample_user (MkProductImage 0 0 0 0) sample_position =
    (MkContext (source_width sample_user) (source_height sample_user) default_state []
       [ClearRect 0 0 W H; DrawImage (SrcImage sample_user) 0 0 W H default_state],
     js_throw (JsError "IndexSizeError"
       "Failed to execute 'getImageData' on 'CanvasRenderingContext2D': The source width is 0.")).
Proof. apply compositeImage_error. vm_compute. reflexivity. Defined.

Lemma overlay_pass_placement_witness :
  pt_equiv (drawn_center (M := QMath) (- 2 / 2) (- 1 / 2) 2 1 (overlay_state sample_position)) (Pt (1 + 2 / 2) (0 + 1 / 2)) /\
  (angle sample_position == 0 ->
     pt_equiv (apply_transform (M := QMath) (transform (overlay_state sample_position)) (Pt (- 2 / 2) (- 1 / 2))) (Pt 1 0) /\
     pt_equiv (apply_transform (M := QMath) (transform (overlay_state sample_position)) (Pt (- 2 / 2 + 2) (- 1 / 2 + 1)))
              (Pt (1 + 2) (0 + 1))).
Proof.
  apply (overlay_pass_placement (M := QMath) (fun _ _ _ => sample_buffer) blank_context sample_user sample_image
           sample_position sample_clean (fst (compositeImage (fun _ _ _ => sample_buffer) blank_context sample_user
             sample_image sample_position))
           (MkJpeg 4 2 (composite_calls sample_user sample_clean sample_position) (92 # 100)))
    with (src := sample_clean).
  - vm_compute. reflexivity.
  - vm_compute. reflexivity.
  - vm_compute. right; right; left. reflexivity.
Defined.


End Compositor.
