(* ===== verification/JsValue.v ===== *)
(** * JavaScript values as the edge function sees them

    The request body and the Gemini reply are parsed JSON, and the handler
    of [src/supabase/functions/virtual-try-on/index.ts] reads them with
    property accesses, truthiness tests and template literals.  This file
    gives those operations their JavaScript meaning: [jsval] (JSON values,
    [undefined] and the built-in functions a lookup can return),
    [truthy] ([!v]), [js_to_string] ([String(v)] and [`${v}`], with the
    [TypeError] of an object whose own [toString] is not callable),
    [get_prop] ([v[key]] and [v.key], with the [TypeError] of V8 on
    [null] and [undefined] and the [Object.prototype] fallback of plain
    objects and arrays), [json_omit] (what [JSON.stringify] drops) and
    [includes] ([String.prototype.includes]). *)

From Stdlib Require Import ZArith String Ascii List Lia DecimalString.
From S2P Require Import Prelude.
Local Set Warnings "-register-all".
Import ListNotations.
Open Scope string_scope.

Module JsValue.

(** ** Values *)

(** JSON numbers are modelled by their integer values: the handler reads
    numbers only as HTTP statuses and array lengths, and prints them only
    in messages. *)
Inductive jsval :=
| JUndefined
| JNull
| JBool (b : bool)
| JNum (z : Z)
| JStr (s : string)
| JArr (xs : list jsval)
| JObj (fields : list (string * jsval))   (* in source order *)
| JFun (name : string).                    (* a built-in function *)

(** [!v] is [negb (truthy v)]. *)
Definition truthy (v : jsval) : bool :=
  match v with
  | JUndefined | JNull => false
  | JBool b => b
  | JNum z => negb (z =? 0)%Z
  | JStr s => negb (String.eqb s "")
  | JArr _ | JObj _ | JFun _ => true
  end.

(** [String(n)] for an integral number. *)
Definition number_to_string (z : Z) : string := NilZero.string_of_int (Z.to_int z).

(** ** Property access *)

Definition type_error (msg : string) : js_error := JsError "TypeError" msg.

(** The members of [Object.prototype] that a plain object or an array
    inherits; [__proto__] is [Object.prototype] itself, an object without
    own enumerable properties. *)
Definition object_prototype_members : list string :=
  ["constructor"; "hasOwnProperty"; "isPrototypeOf"; "propertyIsEnumerable";
   "toLocaleString"; "toString"; "valueOf"; "__defineGetter__"; "__defineSetter__";
   "__lookupGetter__"; "__lookupSetter__"].

Definition object_prototype_lookup (key : string) : jsval :=
  if String.eqb key "__proto__" then JObj []
  else if String.eqb key "constructor" then JFun "Object"
  else if existsb (String.eqb key) object_prototype_members then JFun key
  else JUndefined.

(** The own property [key]: [JSON.parse] keeps the last of duplicate
    keys. *)
Fixpoint own_lookup (key : string) (fs : list (string * jsval)) : option jsval :=
  match fs with
  | [] => None
  | (k, v) :: rest =>
      match own_lookup key rest with
      | Some w => Some w
      | None => if String.eqb k key then Some v else None
      end
  end.

(** [o[key]] for a plain object [o]: its own property, else the member
    of [Object.prototype]. *)
Definition obj_get (fs : list (string * jsval)) (key : string) : jsval :=
  match own_lookup key fs with
  | Some x => x
  | None => object_prototype_lookup key
  end.

(** ** [String(v)] *)

(** The [TypeError] of [OrdinaryToPrimitive]: neither [toString] nor
    [valueOf] gave a primitive. *)
Definition to_primitive_error : js_error := type_error "Cannot convert object to primitive value".

(** [String(v)], which is also what a template literal and a computed
    property key do with [v].  A parsed-JSON object inherits
    [Object.prototype.toString] and prints as "[object Object]", unless
    it has an own [toString] property: that value is not callable (JSON
    holds no functions), and neither [valueOf] gives a primitive, so the
    conversion throws.  An array prints as [join(",")], with [null] and
    [undefined] elements empty, and throws when an element does. *)
Fixpoint js_to_string (v : jsval) : js_result string :=
  match v with
  | JUndefined => js_ret "undefined"
  | JNull => js_ret "null"
  | JBool true => js_ret "true"
  | JBool false => js_ret "false"
  | JNum z => js_ret (number_to_string z)
  | JStr s => js_ret s
  | JArr xs =>
      let fix elems (xs : list jsval) : js_result (list string) :=
        match xs with
        | [] => js_ret []
        | x :: rest =>
            let* e := match x with JUndefined | JNull => js_ret "" | _ => js_to_string x end in
            let* es := elems rest in
            js_ret (e :: es)
        end in
      let* es := elems xs in js_ret (String.concat "," es)
  | JObj fs =>
      match own_lookup "toString" fs with
      | Some _ => js_throw to_primitive_error
      | None => js_ret "[object Object]"
      end
  | JFun name => js_ret ("function " ++ name ++ "() { [native code] }")
  end%tryon.

(** A canonical array index: the decimal string of a natural number. *)
Definition array_index (key : string) : option nat :=
  match NilZero.uint_of_string key with
  | Some u =>
      let n := Nat.of_uint u in
      if String.eqb (NilZero.string_of_uint (Nat.to_uint n)) key then Some n else None
  | None => None
  end.

(** [v[key]].  Reading a property of [null] or [undefined] throws V8's
    [TypeError]; a missing property of an object or array is looked up in
    [Object.prototype]; a string has its [length] and its characters; the
    other primitives have none of the keys the handler reads. *)
Definition get_prop (v : jsval) (key : string) : js_result jsval :=
  match v with
  | JUndefined =>
      js_throw (type_error ("Cannot read properties of undefined (reading '" ++ key ++ "')"))
  | JNull =>
      js_throw (type_error ("Cannot read properties of null (reading '" ++ key ++ "')"))
  | JObj fs => js_ret (obj_get fs key)
  | JArr xs =>
      if String.eqb key "length" then js_ret (JNum (Z.of_nat (length xs)))
      else match array_index key with
           | Some n => js_ret (nth n xs JUndefined)
           | None => js_ret (object_prototype_lookup key)
           end
  | JStr s =>
      if String.eqb key "length" then js_ret (JNum (Z.of_nat (String.length s)))
      else match array_index key with
           | Some n =>
               match String.get n s with
               | Some c => js_ret (JStr (String c EmptyString))
               | None => js_ret JUndefined
               end
           | None => js_ret JUndefined
           end
  | JBool _ | JNum _ | JFun _ => js_ret JUndefined
  end.

(** [v?.key]: [undefined] when [v] is [null] or [undefined]. *)
Definition get_prop_opt (v : jsval) (key : string) : js_result jsval :=
  match v with
  | JUndefined | JNull => js_ret JUndefined
  | _ => get_prop v key
  end.

(** ** [JSON.stringify] *)

(** The value [JSON.stringify] writes: a property whose value is
    [undefined] or a function is left out of an object, and such an array
    element becomes [null]; [None] is a value that is not written at all. *)
Fixpoint json_omit (v : jsval) : option jsval :=
  match v with
  | JUndefined | JFun _ => None
  | JArr xs => Some (JArr (map (fun x => match json_omit x with Some y => y | None => JNull end) xs))
  | JObj fs =>
      Some (JObj (fold_right (fun kv acc =>
                                match json_omit (snd kv) with
                                | Some y => (fst kv, y) :: acc
                                | None => acc
                                end) [] fs))
  | _ => Some v
  end.

(** ** [String.prototype.includes] *)

Fixpoint includes (s sub : string) : bool :=
  String.prefix sub s ||
  match s with
  | EmptyString => false
  | String _ rest => includes rest sub
  end.

(** ** [String.prototype.split] *)

(** [s.split(sep)] for a one-character separator: the pieces between
    the separators, in order, the empty string included. *)
Fixpoint split_char (sep : ascii) (s : string) : list string :=
  match s with
  | EmptyString => [EmptyString]
  | String c rest =>
      if Ascii.eqb c sep then EmptyString :: split_char sep rest
      else match split_char sep rest with
           | w :: ws => String c w :: ws
           | [] => [String c EmptyString]
           end
  end.

(** ** Lemmas *)

Lemma prefix_app (sub s : string) : String.prefix sub s = true <-> exists q, s = sub ++ q.
Proof.
  revert s. induction sub as [| c sub IH]; intros s; cbn.
  - destruct s; split; eauto.
  - destruct s as [| d s]; split.
    + discriminate.
    + intros [q Hq]. discriminate.
    + cbn [prefix]. destruct (ascii_dec c d) as [-> | Hne]; intros H; [| discriminate H].
      apply IH in H as [q ->]. eauto.
    + intros [q Hq]. injection Hq as -> Hq. cbn [prefix]. destruct (ascii_dec c c); [| contradiction].
      apply IH. eauto.
Qed.

(** [includes] is substring search. *)
Lemma includes_spec (s sub : string) : includes s sub = true <-> exists p q, s = p ++ sub ++ q.
Proof.
  induction s as [| c s IH]; cbn [includes]; rewrite Bool.orb_true_iff, prefix_app.
  - split.
    + intros [[q Hq] | H]; [exists "", q; exact Hq | discriminate H].
    + intros (p & q & Hpq). destruct p; [left; eauto | discriminate].
  - rewrite IH. split.
    + intros [[q Hq] | (p & q & Hpq)]; [exists "", q; exact Hq |].
      exists (String c p), q. rewrite Hpq. reflexivity.
    + intros (p & q & Hpq). destruct p as [| d p]; [left; eauto |].
      injection Hpq as -> Hpq. right. eauto.
Qed.

Lemma includes_app_middle (p sub q : string) : includes (p ++ sub ++ q) sub = true.
Proof. apply includes_spec. eauto. Qed.

Lemma truthy_str (s : string) : truthy (JStr s) = true <-> s <> "".
Proof.
  cbn. rewrite Bool.negb_true_iff, String.eqb_neq. reflexivity.
Qed.

Lemma str_app_assoc (a b c : string) : (a ++ b) ++ c = a ++ (b ++ c).
Proof. induction a as [| x a IH]; cbn; [reflexivity | rewrite IH; reflexivity]. Qed.

Lemma str_app_nil_r (a : string) : a ++ "" = a.
Proof. induction a as [| x a IH]; cbn; [reflexivity | rewrite IH; reflexivity]. Qed.

Lemma get_prop_obj (fs : list (string * jsval)) (key : string) :
  get_prop (JObj fs) key = inr (obj_get fs key).
Proof. reflexivity. Qed.

Lemma get_prop_arr_length (xs : list jsval) :
  get_prop (JArr xs) "length" = inr (JNum (Z.of_nat (length xs))).
Proof. reflexivity. Qed.

Lemma get_prop_arr_0 (x : jsval) (xs : list jsval) : get_prop (JArr (x :: xs)) "0" = inr x.
Proof. reflexivity. Qed.

Lemma split_char_nonempty (sep : ascii) (s : string) : split_char sep s <> [].
Proof.
  destruct s as [| c s]; cbn; [discriminate |].
  destruct (Ascii.eqb c sep); [discriminate |]. destruct (split_char sep s); discriminate.
Qed.

End JsValue.
