(* ===== verification/EdgeFunction.v ===== *)
(** * The edge function [src/supabase/functions/virtual-try-on/index.ts]

    The remote generation client.  [handle] is the whole [serve] callback:
    the [OPTIONS] preflight, then the [try] block (request parsing,
    field checks, the API key, [buildTryOnPrompt], the data-URL regular
    expression, the retry loop around [fetch], the classification of the
    upstream status and the extraction of the image part) and the [catch]
    block that turns every exception into a 429 or a 500.

    Effects are explicit: the handler runs in [io], a writer of the
    [fetch] and [setTimeout] calls it makes, with JavaScript exceptions as
    the error.  The Gemini endpoint is a Section variable [gemini]: given
    the number of requests it received before and the request, it answers
    with a response or rejects ([fetch]'s [TypeError]).  The API key
    ([Deno.env.get]) is an argument. *)

From Stdlib Require Import ZArith String Ascii List Lia Bool.
From S2P Require Import Prelude JsValue.
Import ListNotations JsValue.
Open Scope string_scope.

Module EdgeFunction.

(** ** Responses *)

Definition corsHeaders : list (string * string) :=
  [("Access-Control-Allow-Origin", "*");
   ("Access-Control-Allow-Headers",
    "authorization, x-client-info, apikey, content-type, x-supabase-client-platform, x-supabase-client-platform-version, x-supabase-client-runtime, x-supabase-client-runtime-version")].

Definition json_headers : list (string * string) :=
  corsHeaders ++ [("Content-Type", "application/json")].

Inductive reply_body :=
| TextBody (s : string)
| JsonBody (v : jsval).   (* the object given to [JSON.stringify] *)

Record reply := MkReply { status : Z; headers : list (string * string); body : reply_body }.

Definition json_reply (st : Z) (v : jsval) : reply := MkReply st json_headers (JsonBody v).

Definition error_reply (st : Z) (msg : string) : reply := json_reply st (JObj [("error", JStr msg)]).

(** ** [buildTryOnPrompt] (lines 9-18) *)

Definition categoryPrompts (productName : string) : list (string * jsval) :=
  [("eyewear", JStr ("Add stylish " ++ productName ++ " sunglasses/glasses to this person's face. The glasses should be positioned naturally on their face, fitting properly on the nose bridge and ears. Make it look realistic as if they're actually wearing the glasses. Maintain the original photo quality and lighting."));
   ("watch", JStr ("Add a " ++ productName ++ " watch to this person's left wrist. The watch should be positioned naturally and sized appropriately for their wrist. Make it look realistic as if they're actually wearing the watch. Maintain the original photo quality and lighting."));
   ("clothing", JStr ("Show this person wearing a " ++ productName ++ ". The clothing should fit naturally on their body with realistic folds and draping. Maintain the original photo quality, lighting, and the person's pose."))].

Definition generic_prompt (productName : string) : string :=
  "Add " ++ productName ++ " to this person in a natural, realistic way. Maintain the original photo quality and lighting.".

(** The prompt for the printed name and category key:
    [categoryPrompts[key] || `Add ${name} ...`]. *)
Definition prompt_for (name key : string) : jsval :=
  let found := obj_get (categoryPrompts name) key in
  if truthy found then found else JStr (generic_prompt name).

(** The arguments are whatever the request body held: the three template
    literals of the object print [productName] with [String], then the
    lookup [categoryPrompts[productCategory]] converts [productCategory]
    to a key of a plain object; either conversion can throw. *)
Definition buildTryOnPrompt (productName productCategory : jsval) : js_result jsval :=
  (let* name := js_to_string productName in
  let* key := js_to_string productCategory in
  js_ret (prompt_for name key))%tryon.

(** ** The data URL (lines 48-56 and 130) *)

(** [\w] of a regular expression without the [u] flag. *)
Definition is_word_char (c : ascii) : bool :=
  let n := nat_of_ascii c in
  (Nat.leb 48 n && Nat.leb n 57) || (Nat.leb 65 n && Nat.leb n 90) ||
  (Nat.leb 97 n && Nat.leb n 122) || Nat.eqb n 95.

(** The line terminators that [.] does not match ([\n], [\r]; the other
    two are not ASCII). *)
Definition is_line_terminator (c : ascii) : bool :=
  let n := nat_of_ascii c in Nat.eqb n 10 || Nat.eqb n 13.

Fixpoint strip_prefix (p s : string) : option string :=
  match p, s with
  | EmptyString, _ => Some s
  | String a p', String b s' => if ascii_dec a b then strip_prefix p' s' else None
  | String _ _, EmptyString => None
  end.

(** The longest prefix of word characters, and the rest. *)
Fixpoint span_word (s : string) : string * string :=
  match s with
  | String c s' =>
      if is_word_char c then let '(w, r) := span_word s' in (String c w, r) else ("", s)
  | EmptyString => ("", "")
  end.

Fixpoint all_chars (f : ascii -> bool) (s : string) : bool :=
  match s with
  | EmptyString => true
  | String c s' => f c && all_chars f s'
  end.

(** [s.match(/^data:(image\/\w+);base64,(.+)$/)], as the two groups.  The
    match is unique: [\w+] must stop at the [;], and [.+] must reach the
    end of the input. *)
Definition match_data_url (s : string) : option (string * string) :=
  match strip_prefix "data:image/" s with
  | None => None
  | Some rest =>
      let '(sub, rest') := span_word rest in
      if String.eqb sub "" then None
      else match strip_prefix ";base64," rest' with
           | None => None
           | Some data =>
               if negb (String.eqb data "") && all_chars (fun c => negb (is_line_terminator c)) data
               then Some ("image/" ++ sub, data) else None
           end
  end.

(** The template of line 130, [`data:${mimeType};base64,${data}`]. *)
Definition data_url (mimeType data : string) : string :=
  "data:" ++ mimeType ++ ";base64," ++ data.

(** [userImage.match(...)]: only a string has a [match] method. *)
Definition userImage_match (userImage : jsval) : js_result (option (string * string)) :=
  match userImage with
  | JStr s => js_ret (match_data_url s)
  | _ => js_throw (type_error "userImage.match is not a function")
  end.

(** ** Effects *)

(** The calls the handler makes on the outside world, in order. *)
Record gemini_request := MkGeminiRequest { rq_url : string; rq_body : option jsval }.

Inductive effect :=
| EFetch (attempt : nat) (rq : gemini_request)
| ESleep (ms : Z).

(** A computation that makes calls and then returns or throws. *)
Definition io (A : Type) : Type := (list effect * js_result A)%type.

Definition io_ret {A} (a : A) : io A := ([], js_ret a).
Definition io_lift {A} (m : js_result A) : io A := ([], m).

Definition io_bind {A B} (m : io A) (k : A -> io B) : io B :=
  match m with
  | (t, inl e) => (t, inl e)
  | (t, inr a) => let '(t', r) := k a in (t ++ t', r)%list
  end.

Notation "'let!' x := m 'in' k" := (io_bind m (fun x => k))
  (at level 10, x name, m at level 100, k at level 200).

(** ** The upstream response *)

Record upstream := MkUpstream {
  up_status : Z;
  up_text : string;              (* [await response.text()] *)
  up_json : js_result jsval      (* [await response.json()] *)
}.

Definition ok (r : upstream) : bool := (200 <=? up_status r)%Z && (up_status r <=? 299)%Z.

Definition maxRetries : nat := 3.

(** [Math.pow(2, attempt + 1) * 1000]. *)
Definition backoff (attempt : nat) : Z := (2 ^ (Z.of_nat attempt + 1) * 1000)%Z.

Definition gemini_url (key : string) : string :=
  "https://generativelanguage.googleapis.com/v1beta/models/gemini-2.5-flash-image:generateContent?key=" ++ key.

(** The object given to [JSON.stringify] at line 68. *)
Definition gemini_body (prompt : jsval) (mimeType base64Data : string) : jsval :=
  JObj [("contents",
         JArr [JObj [("parts",
                      JArr [JObj [("text", prompt)];
                            JObj [("inlineData", JObj [("mimeType", JStr mimeType);
                                                        ("data", JStr base64Data)])]])]]);
        ("generationConfig", JObj [("responseModalities", JArr [JStr "TEXT"; JStr "IMAGE"])])].

Definition gemini_request_of (key : string) (prompt : jsval) (mimeType base64Data : string)
  : gemini_request :=
  MkGeminiRequest (gemini_url key) (json_omit (gemini_body prompt mimeType base64Data)).

Section Handler.

(** The endpoint: the answer to the [n]-th request (from 0). *)
Variable gemini : nat -> gemini_request -> js_result upstream.

(** ** The retry loop (lines 59-89) *)

(** The [for] loop from [attempt] with the last [response]; [fuel]
    bounds the iterations (four are enough, see [fetch_loop_fuel]). *)
Fixpoint fetch_loop (fuel : nat) (attempt : nat) (response : option upstream) (rq : gemini_request)
  : io (option upstream) :=
  match fuel with
  | O => io_ret response
  | S fuel' =>
      if Nat.leb attempt maxRetries then
        match gemini attempt rq with
        | inl e => ([EFetch attempt rq], js_throw e)
        | inr r =>
            if (up_status r =? 429)%Z && Nat.ltb attempt maxRetries then
              let '(t, res) := fetch_loop fuel' (S attempt) (Some r) rq in
              (EFetch attempt rq :: ESleep (backoff attempt) :: t, res)
            else ([EFetch attempt rq], js_ret (Some r))
        end
      else io_ret response
  end.

(** ** The reply to the last response (lines 91-136) *)

Fixpoint find_image_part (parts : list jsval) : js_result jsval :=
  match parts with
  | [] => js_ret JUndefined
  | p :: rest =>
      let* d := get_prop p "inlineData" in
      if truthy d then js_ret p else find_image_part rest
  end%tryon.

(** [parts.find((p) => p.inlineData)]: only an array has [find]. *)
Definition parts_find (parts : jsval) : js_result jsval :=
  match parts with
  | JArr xs => find_image_part xs
  | _ => js_throw (type_error "parts.find is not a function")
  end.

Definition plain_error (msg : string) : js_error := JsError "Error" msg.

Definition handle_upstream (r : upstream) : js_result reply :=
  (if negb (ok r) then
     let errorText := up_text r in
     if (up_status r =? 429)%Z then
       js_ret (json_reply 429 (JObj [("error", JStr "Rate limited after retries. Please try again shortly.");
                                     ("retryAfterSeconds", JNum 30)]))
     else if (up_status r =? 402)%Z || (up_status r =? 403)%Z then
       js_ret (error_reply 402 "API access denied. Please check your Gemini API key and billing.")
     else js_throw (plain_error ("Gemini API error (" ++ number_to_string (up_status r) ++ "): " ++ errorText))
   else
     let* data := up_json r in
     let* candidates := get_prop data "candidates" in
     if negb (truthy candidates) then js_throw (plain_error "No response from Gemini API") else
     let* len := get_prop candidates "length" in
     if match len with JNum 0 => true | _ => false end
     then js_throw (plain_error "No response from Gemini API") else
     let* c0 := get_prop candidates "0" in
     let* content := get_prop c0 "content" in
     let* parts := get_prop_opt content "parts" in
     if negb (truthy parts) then js_throw (plain_error "No content parts in Gemini response") else
     let* imagePart := parts_find parts in
     if negb (truthy imagePart) then js_throw (plain_error "No image was generated by Gemini") else
     let* inlineData := get_prop imagePart "inlineData" in
     let* mimeType := get_prop inlineData "mimeType" in
     let* d := get_prop inlineData "data" in
     let* ms := js_to_string mimeType in
     let* ds := js_to_string d in
     js_ret (json_reply 200 (JObj [("success", JBool true); ("resultImage", JStr (data_url ms ds))])))%tryon.

(** ** The handler (lines 20-147) *)

Record request := MkRequest { method : string; json_body : js_result jsval (* [await req.json()] *) }.

(** [const { userImage, productId, productName, productCategory } = v]. *)
Definition destructure (v : jsval) : js_result (jsval * jsval * jsval * jsval) :=
  match v with
  | JNull => js_throw (type_error "Cannot destructure property 'userImage' of '(intermediate value)' as it is null.")
  | JUndefined => js_throw (type_error "Cannot destructure property 'userImage' of '(intermediate value)' as it is undefined.")
  | _ =>
      let* a := get_prop v "userImage" in
      let* b := get_prop v "productId" in
      let* c := get_prop v "productName" in
      let* d := get_prop v "productCategory" in
      js_ret (a, b, c, d)
  end%tryon.

Definition missing_fields_msg : string := "Missing required fields: userImage and productId".
Definition no_key_msg : string := "Gemini API key not configured".
Definition invalid_image_msg : string := "Invalid image format. Please provide a base64 encoded image.".

(** The message of [console.log] at line 43; its template literal
    converts both fields. *)
Definition processing_log (productName productCategory : jsval) : js_result string :=
  (let* n := js_to_string productName in
   let* c := js_to_string productCategory in
   js_ret ("Processing virtual try-on for product: " ++ n ++ " (" ++ c ++ ")"))%tryon.

(** The [try] block. *)
Definition try_block (req : request) (apiKey : option string) : io reply :=
  let! v := io_lift (json_body req) in
  let! fields := io_lift (destructure v) in
  let '(userImage, productId, productName, productCategory) := fields in
  if negb (truthy userImage) || negb (truthy productId) then io_ret (error_reply 400 missing_fields_msg)
  else match apiKey with
       | None => io_ret (error_reply 500 no_key_msg)
       | Some key =>
           if String.eqb key "" then io_ret (error_reply 500 no_key_msg) else
           let! _ := io_lift (processing_log productName productCategory) in
           let! prompt := io_lift (buildTryOnPrompt productName productCategory) in
           let! m := io_lift (userImage_match userImage) in
           match m with
           | None => io_ret (error_reply 400 invalid_image_msg)
           | Some (mimeType, base64Data) =>
               let! response := fetch_loop 4 0 None (gemini_request_of key prompt mimeType base64Data) in
               match response with
               | None => io_lift (js_throw (type_error "Cannot read properties of null (reading 'ok')"))
               | Some r => io_lift (handle_upstream r)
               end
           end
       end.

(** The [catch] block: every exception is an [Error], so [msg] is its
    message. *)
Definition catch_status (msg : string) : Z :=
  if includes msg "429" || includes msg "quota" then 429 else 500.

Definition catch_reply (e : js_error) : reply :=
  error_reply (catch_status (err_message e)) (err_message e).

Definition handle (req : request) (apiKey : option string) : list effect * reply :=
  if String.eqb (method req) "OPTIONS" then ([], MkReply 200 corsHeaders (TextBody "ok"))
  else match try_block req apiKey with
       | (t, inr r) => (t, r)
       | (t, inl e) => (t, catch_reply e)
       end.

End Handler.

(** ** The retry loop *)

Section Retry.
Variable gemini : nat -> gemini_request -> js_result upstream.
Variable rq : gemini_request.

Definition rate_limited (x : js_result upstream) : bool :=
  match x with
  | inr r => (up_status r =? 429)%Z
  | inl _ => false
  end.

Definition some_result (x : js_result upstream) : js_result (option upstream) :=
  match x with
  | inl e => inl e
  | inr r => inr (Some r)
  end.

(** The calls of [k] rate-limited attempts from [a], then the attempt
    [a + k]. *)
Definition retry_trace_from (a k : nat) : list effect :=
  (flat_map (fun i => [EFetch i rq; ESleep (backoff i)]) (seq a k) ++ [EFetch (a + k) rq])%list.

Definition retry_trace (k : nat) : list effect := retry_trace_from 0 k.

Lemma fetch_loop_from (k a : nat) (resp : option upstream) :
  a + k <= 3 ->
  (forall i, a <= i < a + k -> rate_limited (gemini i rq) = true) ->
  (a + k < 3 -> rate_limited (gemini (a + k) rq) = false) ->
  fetch_loop gemini (4 - a) a resp rq = (retry_trace_from a k, some_result (gemini (a + k) rq)).
Proof.
  revert a resp. induction k as [| k IH]; intros a resp Hk Hrl Hlast.
  - replace (4 - a) with (S (3 - a)) by lia. cbn [fetch_loop].
    rewrite (proj2 (Nat.leb_le a maxRetries)) by (unfold maxRetries; lia).
    rewrite Nat.add_0_r in *. unfold retry_trace_from; cbn [seq flat_map app]. rewrite Nat.add_0_r.
    destruct (gemini a rq) as [e | r] eqn:E; [reflexivity |].
    destruct (Nat.ltb_spec a maxRetries) as [Hlt | Hge]; [| rewrite andb_false_r; reflexivity].
    unfold maxRetries in Hlt. specialize (Hlast Hlt). cbn in Hlast.
    rewrite Hlast. reflexivity.
  - replace (4 - a) with (S (4 - S a)) by lia. cbn [fetch_loop].
    rewrite (proj2 (Nat.leb_le a maxRetries)) by (unfold maxRetries; lia).
    pose proof (Hrl a ltac:(lia)) as Ha.
    destruct (gemini a rq) as [e | r] eqn:E; [discriminate |]. cbn in Ha. rewrite Ha.
    rewrite (proj2 (Nat.ltb_lt a maxRetries)) by (unfold maxRetries; lia). cbn [andb].
    rewrite (IH (S a) (Some r)); [| lia | intros; apply Hrl; lia |].
    + unfold retry_trace_from. cbn [seq flat_map app].
      replace (S a + k) with (a + S k) by lia. reflexivity.
    + intros. replace (S a + k) with (a + S k) by lia. apply Hlast; lia.
Qed.

(** Whatever the endpoint answers, the first [k <= 3] attempts are rate
    limited and attempt [k] is the last one. *)
Lemma last_attempt_exists :
  exists k, k <= 3 /\ (forall i, i < k -> rate_limited (gemini i rq) = true) /\
    (k < 3 -> rate_limited (gemini k rq) = false).
Proof.
  destruct (rate_limited (gemini 0 rq)) eqn:E0; [| exists 0; split; [lia | split; [lia | auto]]].
  destruct (rate_limited (gemini 1 rq)) eqn:E1;
    [| exists 1; split; [lia | split; [intros [|i] Hi; [auto | lia] | auto]]].
  destruct (rate_limited (gemini 2 rq)) eqn:E2;
    [| exists 2; split; [lia | split; [intros [|[|i]] Hi; [auto | auto | lia] | auto]]].
  exists 3. split; [lia | split; [intros [|[|[|i]]] Hi; [auto | auto | auto | lia] | lia]].
Qed.

Lemma fetch_loop_fuel_from (n a : nat) (resp : option upstream) :
  a <= 4 -> 4 - a <= n -> fetch_loop gemini n a resp rq = fetch_loop gemini (4 - a) a resp rq.
Proof.
  revert a resp. induction n as [| n IH]; intros a resp Ha Hn.
  - replace (4 - a) with 0 by lia. reflexivity.
  - destruct (Nat.eq_dec a 4) as [-> | Ha4]; [reflexivity |].
    replace (4 - a) with (S (4 - S a)) by lia. cbn [fetch_loop].
    destruct (Nat.leb a maxRetries); [| reflexivity].
    destruct (gemini a rq) as [e | r]; [reflexivity |].
    destruct ((up_status r =? 429)%Z && Nat.ltb a maxRetries); [| reflexivity].
    rewrite (IH (S a) (Some r)) by lia. reflexivity.
Qed.

(** The delays a trace waits, and the number of requests it sends. *)
Definition sleeps (t : list effect) : list Z :=
  flat_map (fun e => match e with ESleep ms => [ms] | EFetch _ _ => [] end) t.

Definition fetch_count (t : list effect) : nat :=
  length (filter (fun e => match e with EFetch _ _ => true | ESleep _ => false end) t).

Lemma retry_trace_from_S (a k : nat) :
  retry_trace_from a (S k) = EFetch a rq :: ESleep (backoff a) :: retry_trace_from (S a) k.
Proof.
  unfold retry_trace_from. cbn [seq flat_map app]. replace (a + S k) with (S a + k) by lia.
  reflexivity.
Qed.

Lemma retry_trace_from_effects (k a : nat) :
  sleeps (retry_trace_from a k) = map backoff (seq a k) /\ fetch_count (retry_trace_from a k) = S k.
Proof.
  revert a. induction k as [| k IH]; intros a; [split; reflexivity |].
  rewrite retry_trace_from_S. destruct (IH (S a)) as [Hs Hc].
  split; [cbn [seq map]; rewrite <- Hs | unfold fetch_count in *; cbn; rewrite Hc]; reflexivity.
Qed.

(** C7. The retry policy: when the attempts before [k] were answered
    with 429 and attempt [k] is the last one ([k] is 3, or its answer is
    not a 429), the loop sends exactly the attempts [0..k], sleeping
    [backoff i] after each rate-limited attempt [i], and ends with the
    answer of attempt [k] (or its rejection). *)
Theorem retry_policy (k : nat) :
  k <= 3 -> (forall i, i < k -> rate_limited (gemini i rq) = true) ->
  (k < 3 -> rate_limited (gemini k rq) = false) ->
  fetch_loop gemini 4 0 None rq = (retry_trace k, some_result (gemini k rq)).
Proof.
  intros Hk Hrl Hlast. apply (fetch_loop_from k 0 None); [lia | intros i Hi; apply Hrl; lia | exact Hlast].
Qed.

(** C2. The loop terminates: whatever the endpoint answers, four
    iterations suffice (more fuel computes the same), it sends between one
    and four requests, the response it ends with is never [null], and
    its delays are the first [k] of 2000, 4000, 8000 ms. *)
Theorem fetch_loop_terminates :
  exists k t r, k <= 3 /\ fetch_loop gemini 4 0 None rq = (t, r) /\
    (forall n, 4 <= n -> fetch_loop gemini n 0 None rq = (t, r)) /\
    r <> inr None /\ fetch_count t = S k /\ sleeps t = firstn k [2000; 4000; 8000]%Z.
Proof.
  destruct last_attempt_exists as (k & Hk & Hrl & Hlast).
  pose proof (fetch_loop_from k 0 None ltac:(lia) ltac:(intros i Hi; apply Hrl; lia) Hlast) as E.
  destruct (retry_trace_from_effects k 0) as [Hs Hc].
  exists k, (retry_trace_from 0 k), (some_result (gemini (0 + k) rq)).
  split; [exact Hk | split; [exact E | split; [| split; [| split; [exact Hc |]]]]].
  - intros n Hn. rewrite fetch_loop_fuel_from by lia. exact E.
  - destruct (gemini (0 + k) rq); discriminate.
  - rewrite Hs. destruct k as [|[|[|[|k]]]]; try lia; reflexivity.
Qed.

End Retry.

(** ** The data URL: parser and printer *)

Lemma strip_prefix_app (p s : string) : strip_prefix p (p ++ s) = Some s.
Proof.
  induction p as [| a p IH]; [destruct s; reflexivity |].
  cbn. destruct (ascii_dec a a); [exact IH | contradiction].
Qed.

Lemma strip_prefix_some (p s r : string) : strip_prefix p s = Some r -> s = p ++ r.
Proof.
  revert s. induction p as [| a p IH]; intros s H; [destruct s; injection H as <-; reflexivity |].
  destruct s as [| b s]; [discriminate |]. cbn in H.
  destruct (ascii_dec a b) as [<- | _]; [| discriminate]. cbn. f_equal. apply IH, H.
Qed.

Lemma span_word_app (w r : string) :
  all_chars is_word_char w = true ->
  (r = "" \/ exists c r', r = String c r' /\ is_word_char c = false) ->
  span_word (w ++ r) = (w, r).
Proof.
  intros Hw Hr. induction w as [| c w IH]; cbn [append span_word].
  - destruct Hr as [-> | (c & r' & -> & Hc)]; [reflexivity |]. cbn [span_word]. rewrite Hc. reflexivity.
  - cbn [all_chars] in Hw. apply andb_true_iff in Hw as [Hc Hw]. rewrite Hc, (IH Hw). reflexivity.
Qed.

Lemma span_word_spec (s w r : string) :
  span_word s = (w, r) ->
  s = w ++ r /\ all_chars is_word_char w = true /\
  (r = "" \/ exists c r', r = String c r' /\ is_word_char c = false).
Proof.
  revert w r. induction s as [| c s IH]; intros w r H; cbn [span_word] in H.
  - injection H as <- <-. auto.
  - destruct (is_word_char c) eqn:Hc.
    + destruct (span_word s) as [w' r'] eqn:E. injection H as <- <-.
      destruct (IH w' r' eq_refl) as (-> & Hw & Hr). cbn [append all_chars]. rewrite Hc, Hw. auto.
    + injection H as <- <-. cbn [append all_chars]. split; [reflexivity | split; [reflexivity | right; eauto]].
Qed.

Lemma semicolon_not_word : is_word_char ";"%char = false.
Proof. reflexivity. Qed.

(** What the regular expression accepts as the media subtype and as the
    payload. *)
Definition valid_subtype (sub : string) : Prop := sub <> "" /\ all_chars is_word_char sub = true.
Definition valid_payload (data : string) : Prop :=
  data <> "" /\ all_chars (fun c => negb (is_line_terminator c)) data = true.

(** C22. Round trip, print then parse: the data URL that line 130 prints
    for an [image/<subtype>] with a word-character subtype and a non-empty
    one-line payload is accepted by the regular expression of line 48,
    which gives back the same media type and payload. *)
Theorem data_url_roundtrip (sub data : string) :
  valid_subtype sub -> valid_payload data ->
  match_data_url (data_url ("image/" ++ sub) data) = Some ("image/" ++ sub, data).
Proof.
  intros [Hsub Hw] [Hd Hl]. unfold match_data_url, data_url.
  rewrite !str_app_assoc. change ("data:" ++ "image/" ++ ?x) with ("data:image/" ++ x).
  rewrite strip_prefix_app.
  rewrite (span_word_app sub) by (auto || (right; eexists _, _; split; [reflexivity | exact semicolon_not_word])).
  destruct (String.eqb_spec sub "") as [E | _]; [contradiction |].
  rewrite strip_prefix_app. destruct (String.eqb_spec data "") as [E | _]; [contradiction |].
  rewrite Hl. reflexivity.
Qed.

(** C23. Round trip, parse then print: every string the regular
    expression accepts is exactly the data URL printed from the two groups
    it captures, with a word-character subtype and a non-empty one-line
    payload; so the parser accepts exactly the printed URLs of
    [data_url_roundtrip]. *)
Theorem match_data_url_sound (s mimeType data : string) :
  match_data_url s = Some (mimeType, data) ->
  s = data_url mimeType data /\
  exists sub, mimeType = "image/" ++ sub /\ valid_subtype sub /\ valid_payload data.
Proof.
  unfold match_data_url. destruct (strip_prefix "data:image/" s) as [rest |] eqn:E1; [| discriminate].
  destruct (span_word rest) as [sub rest'] eqn:E2.
  destruct (String.eqb_spec sub "") as [_ | Hsub]; [discriminate |].
  destruct (strip_prefix ";base64," rest') as [d |] eqn:E3; [| discriminate].
  destruct (String.eqb_spec d "") as [_ | Hd]; [discriminate |].
  destruct (all_chars _ d) eqn:Hl; [| discriminate]. intros H. injection H as <- <-.
  apply strip_prefix_some in E1, E3. destruct (span_word_spec _ _ _ E2) as (-> & Hw & _).
  split; [| exists sub; repeat split; auto].
  rewrite E1, E3. reflexivity.
Qed.

(** ** The [catch] block *)

(** ** The handler on a well-formed request *)

Definition reply_of_result (res : js_result reply) : reply :=
  match res with
  | inr r => r
  | inl e => catch_reply e
  end.

(** The reply to what the loop ended with. *)
Definition final_reply (res : js_result (option upstream)) : reply :=
  match res with
  | inl e => catch_reply e
  | inr None => catch_reply (type_error "Cannot read properties of null (reading 'ok')")
  | inr (Some r) => reply_of_result (handle_upstream r)
  end.

Section WellFormed.
Variable gemini : nat -> gemini_request -> js_result upstream.
Variables (req : request) (v : jsval) (key s mimeType base64Data : string)
          (productId productName productCategory : jsval) (name category : string).
Hypothesis not_options : method req <> "OPTIONS".
Hypothesis body_parsed : json_body req = inr v.
Hypothesis fields : destructure v = inr (JStr s, productId, productName, productCategory).
Hypothesis id_present : truthy productId = true.
Hypothesis key_present : key <> "".
Hypothesis image_parsed : match_data_url s = Some (mimeType, base64Data).
(** [String(productName)] and [String(productCategory)] succeed, as they
    do for every value but an object with an own [toString]. *)
Hypothesis name_printed : js_to_string productName = inr name.
Hypothesis category_printed : js_to_string productCategory = inr category.

(** The request the handler sends. *)
Definition sent_request : gemini_request :=
  gemini_request_of key (prompt_for name category) mimeType base64Data.

Lemma match_data_url_nonempty : s <> "".
Proof. intros ->. discriminate image_parsed. Qed.

Lemma handle_well_formed :
  handle gemini req (Some key) =
    (fst (fetch_loop gemini 4 0 None sent_request), final_reply (snd (fetch_loop gemini 4 0 None sent_request))).
Proof.
  unfold handle. destruct (String.eqb_spec (method req) "OPTIONS") as [E | _]; [contradiction |].
  unfold try_block. rewrite body_parsed. cbn [io_bind io_lift app]. rewrite fields.
  cbn [io_bind io_lift app].
  rewrite (proj2 (truthy_str s) match_data_url_nonempty), id_present. cbn [negb orb].
  destruct (String.eqb_spec key "") as [E | _]; [contradiction |].
  unfold processing_log, buildTryOnPrompt. rewrite name_printed, category_printed.
  cbn [js_bind js_ret io_bind io_lift app userImage_match]. rewrite image_parsed.
  cbn [io_bind io_lift app js_ret]. fold sent_request. destruct (fetch_loop gemini 4 0 None sent_request) as [t [e | [r |]]];
    cbn [io_bind io_lift app fst snd final_reply]; rewrite ?app_nil_r; try reflexivity.
  destruct (handle_upstream r); reflexivity.
Qed.

(** C1. The whole handler on a well-formed request: when the first [k]
    attempts are rate limited and attempt [k] is the last, the handler
    sends exactly the requests of the retry policy and replies with what
    the answer of attempt [k] calls for, an exception of any step being
    turned into the [catch] block's reply. *)
Theorem handle_policy (k : nat) :
  k <= 3 -> (forall i, i < k -> rate_limited (gemini i sent_request) = true) ->
  (k < 3 -> rate_limited (gemini k sent_request) = false) ->
  handle gemini req (Some key) =
    (retry_trace sent_request k, final_reply (some_result (gemini k sent_request))).
Proof.
  intros Hk Hrl Hlast.
  pose proof (fetch_loop_from gemini sent_request k 0 None ltac:(lia)
                ltac:(intros i Hi; apply Hrl; lia) Hlast) as E.
  cbn [Nat.sub Nat.add] in E. rewrite handle_well_formed, E. reflexivity.
Qed.

(** C16. Classification of a failed upstream answer, at the level of
    the handler's reply: after the retries, a final answer [r] that is not
    2xx gives 429 with [retryAfterSeconds] when its status is 429, 402
    when it is 402 or 403, and otherwise goes through the [catch] block
    with the message [Gemini API error (<status>): <body>], whose status is
    429 or 500 depending on that text. *)
Theorem handle_upstream_failure (k : nat) (r : upstream) :
  k <= 3 -> (forall i, i < k -> rate_limited (gemini i sent_request) = true) ->
  gemini k sent_request = inr r -> (k < 3 -> up_status r <> 429%Z) -> ok r = false ->
  let msg := "Gemini API error (" ++ number_to_string (up_status r) ++ "): " ++ up_text r in
  fst (handle gemini req (Some key)) = retry_trace sent_request k /\
  snd (handle gemini req (Some key)) =
    (if (up_status r =? 429)%Z then
       json_reply 429 (JObj [("error", JStr "Rate limited after retries. Please try again shortly.");
                             ("retryAfterSeconds", JNum 30)])
     else if (up_status r =? 402)%Z || (up_status r =? 403)%Z then
       error_reply 402 "API access denied. Please check your Gemini API key and billing."
     else error_reply (catch_status msg) msg).
Proof.
  intros Hk Hrl Hr Hlast Hok msg.
  assert (Hl : k < 3 -> rate_limited (gemini k sent_request) = false).
  { intros Hk3. rewrite Hr. cbn. apply Z.eqb_neq, Hlast, Hk3. }
  pose proof (fetch_loop_from gemini sent_request k 0 None ltac:(lia)
                ltac:(intros i Hi; apply Hrl; lia) Hl) as E.
  cbn [Nat.sub Nat.add] in E. rewrite handle_well_formed, E, Hr. cbn [fst snd].
  split; [reflexivity |]. unfold some_result, final_reply, handle_upstream. rewrite Hok.
  cbn [negb]. destruct (up_status r =? 429)%Z; [reflexivity |].
  destruct ((up_status r =? 402)%Z || (up_status r =? 403)%Z); reflexivity.
Qed.

End WellFormed.

(** ** The image part of a successful answer *)

Definition inline_data_falsy (q : jsval) : Prop :=
  exists d, get_prop q "inlineData" = inr d /\ truthy d = false.

Lemma find_image_part_first (pre post : list jsval) (p d : jsval) :
  Forall inline_data_falsy pre -> get_prop p "inlineData" = inr d -> truthy d = true ->
  find_image_part (pre ++ p :: post) = inr p.
Proof.
  intros Hpre Hp Hd. induction Hpre as [| q pre (d' & Hq & Hf) _ IH]; cbn [app find_image_part].
  - rewrite Hp. cbn. rewrite Hd. reflexivity.
  - rewrite Hq. cbn [js_bind]. rewrite Hf. exact IH.
Qed.

(** C24. Response parsing: for a 2xx answer whose JSON has a non-empty
    [candidates] array whose first candidate has [content.parts], the
    reply is 200 with the data URL printed from the first part whose
    [inlineData] is truthy, whatever parts come before (with falsy
    [inlineData]) or after it, when its [mimeType] and [data] print
    (line 130) as [ms] and [ds]. *)
Theorem handle_upstream_image (r : upstream) (fs inline : list (string * jsval))
    (c0 content p : jsval) (cands pre post : list jsval) (ms ds : string) :
  ok r = true -> up_json r = inr (JObj fs) ->
  own_lookup "candidates" fs = Some (JArr (c0 :: cands)) ->
  get_prop c0 "content" = inr content ->
  get_prop_opt content "parts" = inr (JArr (pre ++ p :: post)) ->
  Forall inline_data_falsy pre -> get_prop p "inlineData" = inr (JObj inline) ->
  js_to_string (obj_get inline "mimeType") = inr ms -> js_to_string (obj_get inline "data") = inr ds ->
  handle_upstream r =
    inr (json_reply 200 (JObj [("success", JBool true); ("resultImage", JStr (data_url ms ds))])).
Proof.
  intros Hok Hj Hc H0 Hparts Hpre Hp Hms Hds.
  unfold handle_upstream. rewrite Hok, Hj. cbn [negb js_bind]. rewrite get_prop_obj.
  unfold obj_get at 1. rewrite Hc. cbn [truthy negb js_bind].
  rewrite get_prop_arr_length, get_prop_arr_0. cbn [length Z.of_nat js_bind]. rewrite H0. cbn [js_bind].
  rewrite Hparts. cbn [truthy negb js_bind parts_find].
  rewrite (find_image_part_first pre post p (JObj inline) ltac:(assumption) Hp eq_refl).
  assert (Ht : truthy p = true) by (destruct p; cbn in Hp; try discriminate; reflexivity).
  cbn [js_bind]. rewrite Ht. cbn [negb]. rewrite Hp. cbn [js_bind]. rewrite !get_prop_obj.
  cbn [js_bind]. rewrite Hms. cbn [js_bind]. rewrite Hds. reflexivity.
Qed.

(** ** Invalid input *)

(** The handler once the fields are present and the key is configured:
    the log line, the prompt and the regular expression, each of which
    can end the request before any network call. *)
Lemma handle_after_key (gemini : nat -> gemini_request -> js_result upstream) (req : request)
    (v userImage productId productName productCategory : jsval) (key : string) :
  method req <> "OPTIONS" -> json_body req = inr v ->
  destructure v = inr (userImage, productId, productName, productCategory) ->
  truthy userImage = true -> truthy productId = true -> key <> "" ->
  handle gemini req (Some key) =
    match processing_log productName productCategory with
    | inl e => ([], catch_reply e)
    | inr _ =>
        match buildTryOnPrompt productName productCategory with
        | inl e => ([], catch_reply e)
        | inr prompt =>
            match userImage_match userImage with
            | inl e => ([], catch_reply e)
            | inr None => ([], error_reply 400 invalid_image_msg)
            | inr (Some (m, d)) =>
                let '(t, res) := fetch_loop gemini 4 0 None (gemini_request_of key prompt m d) in
                (t, final_reply res)
            end
        end
    end.
Proof.
  intros Hm Hb Hf Hu Hi Hk. unfold handle. destruct (String.eqb_spec (method req) "OPTIONS"); [contradiction |].
  unfold try_block. rewrite Hb. cbn [io_bind io_lift app]. rewrite Hf. cbn [io_bind io_lift app].
  rewrite Hu, Hi. cbn [negb orb].
  destruct (String.eqb_spec key "") as [E | _]; [contradiction |].
  destruct (processing_log productName productCategory) as [e | l]; [reflexivity |]. cbn [io_bind io_lift app].
  destruct (buildTryOnPrompt productName productCategory) as [e | prompt]; [reflexivity |].
  cbn [io_bind io_lift app].
  destruct (userImage_match userImage) as [e | [[m d] |]]; [reflexivity | | reflexivity].
  cbn [io_bind io_lift app].
  destruct (fetch_loop gemini 4 0 None (gemini_request_of key prompt m d)) as [t [e | [r |]]];
    cbn [io_bind io_lift app final_reply]; rewrite ?app_nil_r; try reflexivity.
  destruct (handle_upstream r); reflexivity.
Qed.

Lemma processing_log_ok (productName productCategory : jsval) (n c : string) :
  js_to_string productName = inr n -> js_to_string productCategory = inr c ->
  exists l, processing_log productName productCategory = inr l /\
            buildTryOnPrompt productName productCategory = inr (prompt_for n c).
Proof.
  intros Hn Hc. unfold processing_log, buildTryOnPrompt. rewrite Hn, Hc. eexists. split; reflexivity.
Qed.

(** C25. Invalid input is answered before any network call: when the
    fields are missing, or [userImage] is not a string accepted by the
    regular expression (and the product's name and category print, as
    every value but an object with an own [toString] does), the handler
    sends no request and replies 400 for a missing field or a string that
    is not an image data URL, but 500 with the [TypeError] of
    [userImage.match] for a truthy non-string [userImage] (a number, an
    array, an object). *)
Theorem handle_invalid_input (gemini : nat -> gemini_request -> js_result upstream) (req : request)
    (v userImage productId productName productCategory : jsval) (key n c : string) :
  method req <> "OPTIONS" -> json_body req = inr v ->
  destructure v = inr (userImage, productId, productName, productCategory) -> key <> "" ->
  js_to_string productName = inr n -> js_to_string productCategory = inr c ->
  (forall s, userImage = JStr s -> match_data_url s = None) ->
  handle gemini req (Some key) =
    ([], if negb (truthy userImage) || negb (truthy productId) then error_reply 400 missing_fields_msg
         else match userImage with
              | JStr _ => error_reply 400 invalid_image_msg
              | _ => catch_reply (type_error "userImage.match is not a function")
              end).
Proof.
  intros Hm Hb Hf Hk Hn Hc Hs.
  destruct (truthy userImage) eqn:Hu, (truthy productId) eqn:Hi; cbn [negb orb];
    [| unfold handle, try_block; destruct (String.eqb_spec (method req) "OPTIONS"); [contradiction |];
       rewrite Hb; cbn [io_bind io_lift app]; rewrite Hf; cbn [io_bind io_lift app];
       rewrite Hu, Hi; reflexivity ..].
  rewrite (handle_after_key gemini req v userImage productId productName productCategory key Hm Hb Hf Hu Hi Hk).
  destruct (processing_log_ok productName productCategory n c Hn Hc) as (l & -> & ->).
  destruct userImage; cbn [userImage_match]; try reflexivity. rewrite (Hs s eq_refl). reflexivity.
Qed.

(** C19. The log line of line 43 prints the product's name and
    category with a template literal before anything else is checked.
    When one of them cannot be printed, an object with an own [toString]
    (valid JSON such as [{"toString": 1}]), the handler answers 500 with
    the [TypeError]'s message and sends no request, whatever [userImage]
    is, also when it is not an image data URL; and any exception of the
    log line or the prompt is answered by the [catch] block before any
    network call. *)
Theorem handle_unprintable_field (gemini : nat -> gemini_request -> js_result upstream) (req : request)
    (v userImage productId productName productCategory : jsval) (key : string)
    (fs : list (string * jsval)) (x : jsval) :
  method req <> "OPTIONS" -> json_body req = inr v ->
  destructure v = inr (userImage, productId, productName, productCategory) ->
  truthy userImage = true -> truthy productId = true -> key <> "" ->
  own_lookup "toString" fs = Some x ->
  (productName = JObj fs \/ (productCategory = JObj fs /\ exists n, js_to_string productName = inr n)) ->
  handle gemini req (Some key) = ([], error_reply 500 "Cannot convert object to primitive value").
Proof.
  intros Hm Hb Hf Hu Hi Hk Hx Hobj.
  rewrite (handle_after_key gemini req v userImage productId productName productCategory key Hm Hb Hf Hu Hi Hk).
  unfold processing_log.
  destruct Hobj as [-> | [-> [n Hn]]]; [| rewrite Hn]; cbn [js_to_string js_bind]; rewrite Hx; reflexivity.
Qed.

(** ** The prompt *)

Definition prompt_categories : list string := ["eyewear"; "watch"; "clothing"].

Lemma existsb_eqb_notin (key : string) (l : list string) :
  ~ In key l -> existsb (String.eqb key) l = false.
Proof.
  induction l as [| k l IH]; intros Hn; [reflexivity |]. cbn.
  destruct (String.eqb_spec key k) as [-> | _]; [exfalso; apply Hn; left; reflexivity |].
  apply IH. intros H. apply Hn. right. exact H.
Qed.

(** [buildTryOnPrompt] by category: the three categories get their
    own instruction, which is a non-empty string naming the product; a
    category whose key is neither one of them nor a member of
    [Object.prototype] gets the generic instruction. *)
Theorem prompt_for_spec (name key : string) :
  (In key prompt_categories ->
     exists pre post, prompt_for name key = JStr (pre ++ name ++ post) /\
                      obj_get (categoryPrompts name) key = JStr (pre ++ name ++ post)) /\
  (~ In key prompt_categories -> ~ In key ("__proto__" :: object_prototype_members) ->
     prompt_for name key = JStr (generic_prompt name)).
Proof.
  unfold prompt_for. split.
  - intros [<- | [<- | [<- | []]]]; cbn -[append]; eexists _, _; split; reflexivity.
  - intros Hc Hp. unfold obj_get, categoryPrompts, object_prototype_lookup. cbn [own_lookup].
    destruct (String.eqb_spec "clothing" key) as [E | _]; [exfalso; apply Hc; rewrite <- E; cbn; tauto |].
    destruct (String.eqb_spec "watch" key) as [E | _]; [exfalso; apply Hc; rewrite <- E; cbn; tauto |].
    destruct (String.eqb_spec "eyewear" key) as [E | _]; [exfalso; apply Hc; rewrite <- E; cbn; tauto |].
    destruct (String.eqb_spec key "__proto__") as [E | _]; [exfalso; apply Hp; rewrite E; cbn; tauto |].
    destruct (String.eqb_spec key "constructor") as [E | _]; [exfalso; apply Hp; rewrite E; cbn; tauto |].
    rewrite existsb_eqb_notin by (intros H; apply Hp; right; exact H). reflexivity.
Qed.

(** C30. The lookup [categoryPrompts[productCategory]] is a plain-object
    lookup: a category such as "constructor" or "toString" finds the
    inherited function, which is truthy and becomes the prompt;
    [JSON.stringify] then drops it, so the request sent to Gemini carries
    an empty first part and no instruction at all. *)
Theorem prompt_prototype_key (productName cat key mimeType base64Data : string) :
  In cat object_prototype_members ->
  exists f, buildTryOnPrompt (JStr productName) (JStr cat) = inr (JFun f) /\
  rq_body (gemini_request_of key (JFun f) mimeType base64Data) =
    Some (JObj [("contents",
                 JArr [JObj [("parts",
                              JArr [JObj [];
                                    JObj [("inlineData", JObj [("mimeType", JStr mimeType);
                                                                ("data", JStr base64Data)])]])]]);
                ("generationConfig", JObj [("responseModalities", JArr [JStr "TEXT"; JStr "IMAGE"])])]).
Proof.
  intros Hin. unfold object_prototype_members in Hin.
  repeat (destruct Hin as [<- | Hin]; [eexists; split; reflexivity |]).
  destruct Hin.
Qed.

(** ** Witnesses *)

Definition sample_image_url : string := "data:image/png;base64,iVBORw0KGgo".

Definition sample_body (productCategory : jsval) : jsval :=
  JObj [("userImage", JStr sample_image_url); ("productId", JStr "p1");
        ("productName", JStr "Aviator"); ("productCategory", productCategory)].

Definition sample_request : request := MkRequest "POST" (inr (sample_body (JStr "eyewear"))).

Definition busy_answer : upstream := MkUpstream 429 "Resource has been exhausted" (inr JNull).
Definition quota_answer : upstream := MkUpstream 500 "quota exceeded for project" (inr JNull).

Definition image_answer : upstream :=
  MkUpstream 200 "" (inr (JObj [("candidates",
    JArr [JObj [("content", JObj [("parts",
      JArr [JObj [("text", JStr "Here it is")];
            JObj [("inlineData", JObj [("mimeType", JStr "image/png"); ("data", JStr "AAAA")])]])])]])])).

(** An endpoint that is busy for the first [busy] requests, then answers
    with [final]. *)
Definition busy_then (busy : nat) (final : upstream) (n : nat) (_ : gemini_request) : js_result upstream :=
  if Nat.ltb n busy then inr busy_answer else inr final.

Definition sample_sent : gemini_request :=
  sent_request "KEY" "image/png" "iVBORw0KGgo" "Aviator" "eyewear".

Lemma retry_policy_witness :
  fetch_loop (busy_then 2 image_answer) 4 0 None sample_sent =
    (retry_trace sample_sent 2, some_result (busy_then 2 image_answer 2 sample_sent)).
Proof.
  apply retry_policy; [lia | intros i Hi; unfold busy_then; rewrite (proj2 (Nat.ltb_lt i 2) Hi); reflexivity |
                       intros _; reflexivity].
Defined.

Lemma data_url_roundtrip_witness :
  match_data_url (data_url ("image/" ++ "png") "iVBORw0KGgo") = Some ("image/" ++ "png", "iVBORw0KGgo").
Proof. apply data_url_roundtrip; split; (discriminate || reflexivity). Defined.

Lemma match_data_url_sound_witness :
  sample_image_url = data_url "image/png" "iVBORw0KGgo" /\
  exists sub, "image/png" = "image/" ++ sub /\ valid_subtype sub /\ valid_payload "iVBORw0KGgo".
Proof. apply match_data_url_sound. vm_compute. reflexivity. Defined.

Lemma handle_policy_witness :
  handle (busy_then 3 image_answer) sample_request (Some "KEY") =
    (retry_trace sample_sent 3, final_reply (some_result (busy_then 3 image_answer 3 sample_sent))).
Proof.
  apply handle_policy with (v := sample_body (JStr "eyewear")) (s := sample_image_url) (productId := JStr "p1")
    (productName := JStr "Aviator") (productCategory := JStr "eyewear");
    try (vm_compute; reflexivity); try discriminate; try lia.
  intros i Hi. unfold busy_then. rewrite (proj2 (Nat.ltb_lt i 3) Hi). reflexivity.
Defined.

(** An upstream 500 whose body mentions a quota is answered 429, without
    [retryAfterSeconds]. *)
Lemma handle_upstream_failure_witness :
  let msg := "Gemini API error (" ++ number_to_string (up_status quota_answer) ++ "): " ++ up_text quota_answer in
  fst (handle (busy_then 1 quota_answer) sample_request (Some "KEY")) = retry_trace sample_sent 1 /\
  snd (handle (busy_then 1 quota_answer) sample_request (Some "KEY")) =
    (if (up_status quota_answer =? 429)%Z then
       json_reply 429 (JObj [("error", JStr "Rate limited after retries. Please try again shortly.");
                             ("retryAfterSeconds", JNum 30)])
     else if (up_status quota_answer =? 402)%Z || (up_status quota_answer =? 403)%Z then
       error_reply 402 "API access denied. Please check your Gemini API key and billing."
     else error_reply (catch_status msg) msg).
Proof.
  apply handle_upstream_failure with (v := sample_body (JStr "eyewear")) (s := sample_image_url)
    (productId := JStr "p1") (productName := JStr "Aviator") (productCategory := JStr "eyewear");
    try (vm_compute; reflexivity); try discriminate; try lia.
  intros i Hi. unfold busy_then. rewrite (proj2 (Nat.ltb_lt i 1) Hi). reflexivity.
Defined.

Lemma handle_upstream_image_witness :
  handle_upstream image_answer =
    inr (json_reply 200 (JObj [("success", JBool true);
                               ("resultImage", JStr (data_url "image/png" "AAAA"))])).
Proof.
  apply handle_upstream_image with (inline := [("mimeType", JStr "image/png"); ("data", JStr "AAAA")])
    (fs := [("candidates", JArr [JObj [("content", JObj [("parts",
      JArr [JObj [("text", JStr "Here it is")];
            JObj [("inlineData", JObj [("mimeType", JStr "image/png"); ("data", JStr "AAAA")])]])])]])])
    (c0 := JObj [("content", JObj [("parts",
      JArr [JObj [("text", JStr "Here it is")];
            JObj [("inlineData", JObj [("mimeType", JStr "image/png"); ("data", JStr "AAAA")])]])])])
    (cands := []) (content := JObj [("parts",
      JArr [JObj [("text", JStr "Here it is")];
            JObj [("inlineData", JObj [("mimeType", JStr "image/png"); ("data", JStr "AAAA")])]])])
    (pre := [JObj [("text", JStr "Here it is")]]) (post := [])
    (p := JObj [("inlineData", JObj [("mimeType", JStr "image/png"); ("data", JStr "AAAA")])]);
    try reflexivity.
  constructor; [exists JUndefined; split; reflexivity | constructor].
Defined.

Lemma handle_invalid_input_witness :
  handle (busy_then 0 image_answer) (MkRequest "POST" (inr (JObj [("userImage", JNum 7); ("productId", JStr "p1")])))
    (Some "KEY") =
    ([], if negb (truthy (JNum 7)) || negb (truthy (JStr "p1")) then error_reply 400 missing_fields_msg
         else match JNum 7 with
              | JStr _ => error_reply 400 invalid_image_msg
              | _ => catch_reply (type_error "userImage.match is not a function")
              end).
Proof.
  apply handle_invalid_input with (v := JObj [("userImage", JNum 7); ("productId", JStr "p1")])
    (productName := JUndefined) (productCategory := JUndefined) (n := "undefined") (c := "undefined");
    try reflexivity; try discriminate.
Defined.

(** A name sent as [{"toString": 1}] with a string that is not a data
    URL: 500, not the 400 of an invalid image. *)
Definition unprintable_body : jsval :=
  JObj [("userImage", JStr "not an image"); ("productId", JStr "p1");
        ("productName", JObj [("toString", JNum 1)]); ("productCategory", JStr "eyewear")].

Lemma handle_unprintable_field_witness :
  handle (busy_then 0 image_answer) (MkRequest "POST" (inr unprintable_body)) (Some "KEY") =
    ([], error_reply 500 "Cannot convert object to primitive value").
Proof.
  apply handle_unprintable_field with (v := unprintable_body) (userImage := JStr "not an image")
    (productId := JStr "p1") (productName := JObj [("toString", JNum 1)]) (productCategory := JStr "eyewear")
    (fs := [("toString", JNum 1)]) (x := JNum 1); try reflexivity; try discriminate.
  left. reflexivity.
Defined.

Lemma prompt_prototype_key_witness :
  exists f, buildTryOnPrompt (JStr "Aviator") (JStr "constructor") = inr (JFun f) /\
  rq_body (gemini_request_of "KEY" (JFun f) "image/png" "AAAA") =
    Some (JObj [("contents",
                 JArr [JObj [("parts",
                              JArr [JObj [];
                                    JObj [("inlineData", JObj [("mimeType", JStr "image/png");
                                                                ("data", JStr "AAAA")])]])]]);
                ("generationConfig", JObj [("responseModalities", JArr [JStr "TEXT"; JStr "IMAGE"])])]).
Proof. apply prompt_prototype_key. cbn. tauto. Defined.

(** The two spec scenarios and the quota finding, evaluated. *)
Example handle_sample_success :
  handle (busy_then 3 image_answer) sample_request (Some "KEY") =
    (retry_trace sample_sent 3,
     json_reply 200 (JObj [("success", JBool true); ("resultImage", JStr "data:image/png;base64,AAAA")])).
Proof. vm_compute. reflexivity. Qed.

Example handle_sample_quota :
  snd (handle (busy_then 0 quota_answer) sample_request (Some "KEY")) =
    error_reply 429 "Gemini API error (500): quota exceeded for project".
Proof. vm_compute. reflexivity. Qed.

End EdgeFunction.
