(* ===== verification/Catalog.v ===== *)
(** * The product catalogue: [src/src/lib/products.ts] and its readers

    Module [Catalog] holds the [Product] interface as a record, the
    fourteen products of [products] field by field (an image is the path
    of the imported asset, which the bundler turns into its URL), and
    [getProductById] and [getProductsByCategory].  Module [ProductsPage]
    is the category filter of [src/src/pages/Products.tsx] and Module
    [ProductDetail] the product lookup, initial selections and related
    products of [src/src/pages/ProductDetail.tsx]. *)

From Stdlib Require Import ZArith String List Lia Bool Permutation.
From S2P Require Import Prelude.
Import ListNotations.
Open Scope string_scope.

Module Catalog.

Inductive product_category := Eyewear | Watch | Clothing.

(** The string of the [category] union type. *)
Definition category_key (c : product_category) : string :=
  match c with
  | Eyewear => "eyewear"
  | Watch => "watch"
  | Clothing => "clothing"
  end.

Record Product := MkProduct {
  id : string;
  name : string;
  category : product_category;
  subcategory : string;
  price : Z;
  originalPrice : option Z;
  image : string;
  description : string;
  tryOnAvailable : bool;
  colors : option (list string);
  sizes : option (list string);
  features : option (list string)
}.

Definition products : list Product := ([
  MkProduct "classic-aviator" "Classic Aviator" Eyewear "Sunglasses" 149 (Some 199)
    "@/assets/products/aviator-sunglasses.jpg"
    "Timeless aviator sunglasses with gradient lenses and a lightweight gold frame. Perfect for any occasion."
    true (Some ["Gold"; "Silver"; "Black"])
    None
    (Some ["UV400 Protection"; "Polarized Lenses"; "Lightweight Frame"]);
  MkProduct "chronograph-elite" "Chronograph Elite" Watch "Luxury Watch" 299 None
    "@/assets/products/chronograph-watch.jpg"
    "Elegant chronograph watch with a stunning blue dial and premium leather strap. Swiss-inspired precision."
    true (Some ["Blue/Silver"; "Black/Gold"; "White/Rose Gold"])
    None
    (Some ["Water Resistant"; "Sapphire Crystal"; "Chronograph Function"]);
  MkProduct "urban-blazer" "Urban Blazer" Clothing "Blazer" 189 None
    "@/assets/products/urban-blazer.jpg"
    "Modern slim-fit blazer in navy blue. Perfect for business meetings or evening events."
    true (Some ["Navy"; "Charcoal"; "Black"])
    (Some ["S"; "M"; "L"; "XL"; "XXL"])
    (Some ["Slim Fit"; "Two-Button Closure"; "Breathable Fabric"]);
  MkProduct "round-vintage" "Round Vintage" Eyewear "Eyeglasses" 129 None
    "@/assets/products/round-vintage.jpg"
    "Retro-inspired round frames with a classic tortoise shell pattern. Pairs perfectly with any style."
    true (Some ["Tortoise"; "Black"; "Crystal"])
    None
    (Some ["Blue Light Filter"; "Spring Hinges"; "Lightweight"]);
  MkProduct "smart-watch-pro" "Smart Watch Pro" Watch "Smart Watch" 449 (Some 499)
    "@/assets/products/smart-watch.jpg"
    "Advanced smart watch with health tracking, notifications, and a sleek minimalist design."
    true (Some ["Black"; "White"; "Rose Gold"])
    None
    (Some ["Heart Rate Monitor"; "GPS"; "5-Day Battery Life"]);
  MkProduct "casual-denim-jacket" "Casual Denim Jacket" Clothing "Jacket" 159 None
    "@/assets/products/denim-jacket.jpg"
    "Classic blue denim jacket with a relaxed fit. A wardrobe essential for layering."
    true (Some ["Light Blue"; "Dark Blue"; "Black"])
    (Some ["XS"; "S"; "M"; "L"; "XL"])
    (Some ["100% Cotton"; "Button Front"; "Chest Pockets"]);
  MkProduct "cat-eye-classic" "Cat Eye Classic" Eyewear "Eyeglasses" 139 None
    "@/assets/products/cat-eye-glasses.jpg"
    "Elegant cat eye frames in tortoise shell. A bold, feminine silhouette that commands attention."
    true (Some ["Tortoise"; "Black"; "Burgundy"])
    None
    (Some ["Blue Light Filter"; "Acetate Frame"; "Adjustable Nose Pads"]);
  MkProduct "wayfarer-modern" "Wayfarer Modern" Eyewear "Eyeglasses" 119 None
    "@/assets/products/wayfarer-glasses.jpg"
    "Iconic wayfarer-style frames in matte black. A timeless design that suits every face shape."
    true (Some ["Matte Black"; "Havana"; "Crystal Clear"])
    None
    (Some ["Scratch Resistant"; "Flexible Hinges"; "Lightweight"]);
  MkProduct "classic-dress-watch" "Classic Dress Watch" Watch "Dress Watch" 259 None
    "@/assets/products/classic-dress-watch.jpg"
    "Refined dress watch with Roman numeral dial and premium leather strap. Understated elegance."
    true (Some ["Brown/Silver"; "Black/Gold"; "Tan/Rose Gold"])
    None
    (Some ["Genuine Leather"; "Mineral Crystal"; "Japanese Movement"]);
  MkProduct "sports-watch-x" "Sports Watch X" Watch "Sports Watch" 349 (Some 399)
    "@/assets/products/sports-watch.jpg"
    "Rugged sports watch with digital display and shock-resistant design. Built for adventure."
    true (Some ["Black/Orange"; "Black/Green"; "All Black"])
    None
    (Some ["Shock Resistant"; "100m Water Resistant"; "Stopwatch"]);
  MkProduct "mesh-minimalist" "Mesh Minimalist" Watch "Minimalist Watch" 199 None
    "@/assets/products/mesh-watch.jpg"
    "Ultra-slim minimalist watch with silver mesh strap. Clean lines for the modern professional."
    true (Some ["Silver"; "Gold"; "Rose Gold"])
    None
    (Some ["Ultra Slim 6mm"; "Mesh Strap"; "Hardened Glass"]);
  MkProduct "polo-classic" "Classic Polo" Clothing "Polo Shirt" 79 None
    "@/assets/products/polo-shirt.jpg"
    "Premium cotton polo shirt in rich burgundy. Smart-casual style for everyday versatility."
    true (Some ["Burgundy"; "Navy"; "White"; "Forest Green"])
    (Some ["XS"; "S"; "M"; "L"; "XL"; "XXL"])
    (Some ["100% Pima Cotton"; "Ribbed Collar"; "Regular Fit"]);
  MkProduct "wool-overcoat" "Wool Overcoat" Clothing "Coat" 349 (Some 429)
    "@/assets/products/wool-overcoat.jpg"
    "Luxurious double-breasted overcoat in camel. Premium wool blend for warmth and sophistication."
    true (Some ["Camel"; "Charcoal"; "Navy"])
    (Some ["S"; "M"; "L"; "XL"])
    (Some ["Wool Blend"; "Double-Breasted"; "Notch Lapel"]);
  MkProduct "leather-bomber" "Leather Bomber" Clothing "Jacket" 279 None
    "@/assets/products/bomber-jacket.jpg"
    "Classic leather bomber jacket in jet black. Timeless style meets rugged durability."
    true (Some ["Black"; "Brown"; "Dark Green"])
    (Some ["S"; "M"; "L"; "XL"; "XXL"])
    (Some ["Genuine Leather"; "Zip Front"; "Ribbed Cuffs"])

])%Z.

(** [products.find((product) => product.id === id)]. *)
Definition getProductById (pid : string) : option Product :=
  find (fun p => String.eqb (id p) pid) products.

Definition getProductsByCategory (c : string) : list Product :=
  if String.eqb c "all" then products
  else List.filter (fun p => String.eqb (category_key (category p)) c) products.

End Catalog.

(** ** The products page (src/src/pages/Products.tsx, lines 9-22) *)

Module ProductsPage.
Import Catalog.

Definition categories : list (string * string) :=
  [("all", "All Products"); ("eyewear", "Eyewear"); ("watch", "Watches"); ("clothing", "Clothing")].

Definition filteredProducts (activeCategory : string) : list Product :=
  if String.eqb activeCategory "all" then products
  else List.filter (fun p => String.eqb (category_key (category p)) activeCategory) products.

End ProductsPage.

(** ** The product page (src/src/pages/ProductDetail.tsx, lines 11-48) *)

Module ProductDetail.
Import Catalog.

(** The calls the page makes on the cart context, and its toasts. *)
Inductive cart_call := AddToCart (p : Product) (color size : option string).

Definition relatedProducts (product : Product) : list Product :=
  firstn 3 (List.filter (fun p => String.eqb (category_key (category p)) (category_key (category product))
                                  && negb (String.eqb (id p) (id product))) products).

Record detail_view := MkDetailView {
  dv_product : Product;
  dv_related : list Product;
  selectedColor : option string;   (* [product?.colors?.[0]] *)
  selectedSize : option string     (* [product?.sizes?.[0]] *)
}.

Definition first_of (l : option (list string)) : option string :=
  match l with
  | Some (x :: _) => Some x
  | _ => None
  end.

(** The page for the route parameter [id]: [None] is "Product Not Found". *)
Definition productDetail (routeId : option string) : option detail_view :=
  match getProductById (match routeId with Some i => i | None => "" end) with
  | None => None
  | Some p => Some (MkDetailView p (relatedProducts p) (first_of (colors p)) (first_of (sizes p)))
  end.

Definition handleAddToCart (v : detail_view) : cart_call * string :=
  (AddToCart (dv_product v) (selectedColor v) (selectedSize v), name (dv_product v) ++ " added to cart!").

End ProductDetail.

(** ** Laws of the catalogue *)

Module CatalogLaws.
Import Catalog ProductsPage ProductDetail.

Definition product_wf (p : Product) : Prop :=
  (0 < price p)%Z /\ (forall o, originalPrice p = Some o -> (price p < o)%Z) /\
  tryOnAvailable p = true /\
  (forall cs, colors p = Some cs -> cs <> []) /\ (forall ss, sizes p = Some ss -> ss <> []).

Lemma find_id_unique (l : list Product) (p : Product) :
  NoDup (map id l) -> In p l -> find (fun q => String.eqb (id q) (id p)) l = Some p.
Proof.
  induction l as [| q l IH]; intros Hnd Hin; [destruct Hin |].
  inversion Hnd as [| x xs Hnot Hnd' Heq]; subst. cbn.
  destruct Hin as [<- | Hin]; [rewrite String.eqb_refl; reflexivity |].
  destruct (String.eqb_spec (id q) (id p)) as [E | _]; [| exact (IH Hnd' Hin)].
  exfalso. apply Hnot. rewrite E. apply in_map, Hin.
Qed.

Lemma products_nodup : NoDup (map id products).
Proof. cbn. repeat constructor; cbn; intuition discriminate. Qed.

(** The three categories partition any list of products. *)
Lemma category_filters_perm (l : list Product) :
  Permutation (List.filter (fun p => String.eqb (category_key (category p)) "eyewear") l ++
               List.filter (fun p => String.eqb (category_key (category p)) "watch") l ++
               List.filter (fun p => String.eqb (category_key (category p)) "clothing") l) l.
Proof.
  induction l as [| p l IH]; [constructor |]. cbn.
  destruct (category p); cbn.
  - constructor. exact IH.
  - symmetry. apply Permutation_cons_app. symmetry. exact IH.
  - rewrite app_assoc. symmetry. apply Permutation_cons_app. rewrite <- app_assoc. symmetry. exact IH.
Qed.

Lemma category_key_inj (c d : product_category) : String.eqb (category_key c) (category_key d) = true <-> c = d.
Proof. destruct c, d; cbn; split; congruence. Qed.

(** The same conditions as boolean tests, for evaluation. *)
Definition product_wfb (p : Product) : bool :=
  (0 <? price p)%Z &&
  match originalPrice p with Some o => (price p <? o)%Z | None => true end &&
  tryOnAvailable p &&
  match colors p with Some [] => false | _ => true end &&
  match sizes p with Some [] => false | _ => true end.

Lemma product_wfb_spec (p : Product) : product_wfb p = true -> product_wf p.
Proof.
  unfold product_wfb, product_wf. intros H.
  repeat match type of H with (_ && _) = true => apply andb_true_iff in H as [H ?H] end.
  apply Z.ltb_lt in H. split; [exact H |]. split; [| split; [assumption |]].
  - intros o E. rewrite E in *. apply Z.ltb_lt. assumption.
  - split; intros l E; subst; rewrite E in *; destruct l; (discriminate || congruence).
Qed.

Lemma in_firstn {A} (n : nat) (l : list A) (x : A) : In x (firstn n l) -> In x l.
Proof. intros H. rewrite <- (firstn_skipn n l). apply in_or_app. left. exact H. Qed.

Lemma in_relatedProducts (p q : Product) :
  In q (relatedProducts p) -> category q = category p /\ id q <> id p /\ In q products.
Proof.
  unfold relatedProducts. intros H. apply in_firstn, filter_In in H as [Hin H].
  apply andb_true_iff in H as [Hc Hid]. apply category_key_inj in Hc.
  apply negb_true_iff, String.eqb_neq in Hid. auto.
Qed.

Lemma products_wf : Forall product_wf products.
Proof.
  apply Forall_forall. intros p Hin. apply product_wfb_spec.
  assert (H : forallb product_wfb products = true) by (vm_compute; reflexivity).
  rewrite forallb_forall in H. exact (H p Hin).
Qed.

(** [getProductById] finds exactly the catalogue entry with that id:
    it returns [p] iff [p] is a product of the catalogue whose id is the
    argument (round trip through [id]). *)
Theorem getProductById_spec (pid : string) (p : Product) :
  getProductById pid = Some p <-> In p products /\ id p = pid.
Proof.
  unfold getProductById. split.
  - intros H. apply find_some in H as [Hin Heq]. apply String.eqb_eq in Heq. auto.
  - intros [Hin <-]. exact (find_id_unique products p products_nodup Hin).
Qed.

(** [getProductsByCategory "all"] is the whole catalogue; for a
    category it returns exactly the products of that category, in
    catalogue order; and the three categories partition the catalogue. *)
Theorem getProductsByCategory_spec :
  getProductsByCategory "all" = products /\
  (forall c p, In p (getProductsByCategory (category_key c)) <-> In p products /\ category p = c) /\
  Permutation (getProductsByCategory "eyewear" ++ getProductsByCategory "watch" ++
               getProductsByCategory "clothing") products.
Proof.
  split; [reflexivity | split; [| exact (category_filters_perm products)]].
  intros c p. unfold getProductsByCategory.
  replace (String.eqb (category_key c) "all") with false by (destruct c; reflexivity).
  rewrite filter_In, category_key_inj. reflexivity.
Qed.

(** Every product page of the catalogue shows three related
    products, each of the same category as the product and different from
    it; a route id that is no product's gives "Product Not Found". *)
Theorem productDetail_spec (p : Product) :
  In p products ->
  productDetail (Some (id p)) = Some (MkDetailView p (relatedProducts p) (first_of (colors p)) (first_of (sizes p))) /\
  length (relatedProducts p) = 3 /\
  Forall (fun q => category q = category p /\ id q <> id p /\ In q products) (relatedProducts p).
Proof.
  intros Hin. split.
  - unfold productDetail, getProductById. rewrite (find_id_unique products p products_nodup Hin). reflexivity.
  - split; [| apply Forall_forall; intros q Hq; exact (in_relatedProducts p q Hq)].
    assert (H : forallb (fun q => Nat.eqb (length (relatedProducts q)) 3) products = true)
      by (vm_compute; reflexivity).
    rewrite forallb_forall in H. apply Nat.eqb_eq, H, Hin.
Qed.

Lemma productDetail_not_found (routeId : string) :
  ~ In routeId (map id products) -> productDetail (Some routeId) = None.
Proof.
  intros Hn. unfold productDetail, getProductById.
  destruct (find _ products) as [p |] eqn:E; [| reflexivity].
  apply find_some in E as [Hin Heq]. apply String.eqb_eq in Heq. subst. exfalso. apply Hn, in_map, Hin.
Qed.

(** ** Witnesses *)

Definition no_product : Product := MkProduct "" "" Eyewear "" 0 None "" "" false None None None.
Definition sample_product : Product := nth 0 products no_product.

Lemma productDetail_spec_witness :
  productDetail (Some (id sample_product)) =
    Some (MkDetailView sample_product (relatedProducts sample_product)
            (first_of (colors sample_product)) (first_of (sizes sample_product))) /\
  length (relatedProducts sample_product) = 3 /\
  Forall (fun q => category q = category sample_product /\ id q <> id sample_product /\ In q products)
    (relatedProducts sample_product).
Proof. apply productDetail_spec. apply nth_In. vm_compute. lia. Defined.

Example productDetail_aviator :
  option_map (fun v => (map id (dv_related v), selectedColor v, selectedSize v)) (productDetail (Some "classic-aviator")) =
    Some (["round-vintage"; "cat-eye-classic"; "wayfarer-modern"], Some "Gold", None).
Proof. vm_compute. reflexivity. Qed.

End CatalogLaws.
