(* ===== verification/TryOnClient.v ===== *)
(** * The client: [src/src/components/TryOnCanvas.tsx]

    [TryOnCanvas] owns three pieces of React state ([loading], [error],
    [resultImage]) and one effect.  The effect starts [processTryOn],
    which resets the state, awaits [supabase.functions.invoke] and, unless
    the effect's cleanup has set its [cancelled] flag in the meantime,
    commits the image (and calls [onResult]) or the error message.  This
    file models the parts that do not depend on the page: the request
    body, the outcome of the [invoke] call as the [supabase-js] library
    delivers it ([invoke], a model of that library, not of this
    repository), the code after the [await] ([settle]) and the render.
    The lifecycle of the effect (mount, cleanup, cancellation) is in
    [TryOnPage], which owns the component. *)

From Stdlib Require Import ZArith String List Lia Bool.
From S2P Require Import Prelude JsValue EdgeFunction Catalog.
Import ListNotations JsValue Catalog.
Open Scope string_scope.

Module TryOnCanvas.

(** The props that the effect depends on; [onResult] is the page's
    [handleTryOnResult], a callback that never changes. *)
Record props := MkProps { p_userImage : string; p_product : Product }.

Record canvas_state := MkCanvasState {
  loading : bool;
  error : option string;
  resultImage : option jsval
}.

(** [useState(true)], [useState(null)], [useState(null)]. *)
Definition initial_canvas : canvas_state := MkCanvasState true None None.

(** [setLoading(true); setError(null)] at the start of [processTryOn]. *)
Definition start (st : canvas_state) : canvas_state := MkCanvasState true None (resultImage st).

(** The body of the [invoke] call (lines 27-32). *)
Definition invoke_body (pr : props) : jsval :=
  JObj [("userImage", JStr (p_userImage pr)); ("productId", JStr (id (p_product pr)));
        ("productName", JStr (name (p_product pr)));
        ("productCategory", JStr (category_key (category (p_product pr))))].

(** What [supabase.functions.invoke] resolves with: [data] and the
    message of [error] when there is one. *)
Record invoke_result := MkInvokeResult { data : jsval; fnError : option string }.

(** The [supabase-js] functions client: a 2xx answer gives its parsed
    body as [data]; any other status gives [data = null] and a
    [FunctionsHttpError]; a failed request a [FunctionsFetchError]. *)
Definition invoke (answer : option EdgeFunction.reply) : invoke_result :=
  match answer with
  | None => MkInvokeResult JNull (Some "Failed to send a request to the Edge Function")
  | Some rep =>
      if (200 <=? EdgeFunction.status rep)%Z && (EdgeFunction.status rep <=? 299)%Z then
        MkInvokeResult
          (match EdgeFunction.body rep with
           | EdgeFunction.JsonBody v => match json_omit v with Some w => w | None => JUndefined end
           | EdgeFunction.TextBody s => JStr s
           end) None
      else MkInvokeResult JNull (Some "Edge Function returned a non-2xx status code")
  end.

Inductive toast := ToastError (msg : string) | ToastSuccess (msg : string).

(** [v?.key] where a missing value reads as [undefined]. *)
Definition opt_get (v : jsval) (key : string) : jsval :=
  match get_prop_opt v key with
  | inr x => x
  | inl _ => JUndefined
  end.

(** What [throw new Error(v)] throws: the [Error] with message
    [String(v)] ([""] for [undefined]), or the [TypeError] that the
    conversion of [v] raised. *)
Definition new_error (v : jsval) : js_error :=
  match v with
  | JUndefined => JsError "Error" ""
  | _ => match js_to_string v with inr m => JsError "Error" m | inl e => e end
  end.

(** The [try] block after the [await] (lines 37-53): the toasts it
    shows, and the result image or the exception. *)
Definition try_part (r : invoke_result) : list toast * js_result jsval :=
  match fnError r with
  | Some m =>
      ([], js_throw (JsError "Error" (if String.eqb m "" then "Failed to process try-on" else m)))
  | None =>
      let err := opt_get (data r) "error" in
      if truthy err then
        let ra := opt_get (data r) "retryAfterSeconds" in
        if truthy ra then
          match js_to_string ra with
          | inr secs => ([ToastError ("Rate limited. Please try again in " ++ secs ++ "s")], js_throw (new_error err))
          | inl e => ([], js_throw e)
          end
        else ([], js_throw (new_error err))
      else
        let img := opt_get (data r) "resultImage" in
        if truthy img then ([], js_ret img)
        else ([], js_throw (JsError "Error" "No image was generated"))
  end.

(** The code after the [await] when the effect was not cancelled: the new
    state, the toasts, and the argument of [onResult] if it is called.
    The [catch] block sets the error, the [finally] block clears
    [loading]. *)
Definition settle (st : canvas_state) (r : invoke_result) : canvas_state * list toast * option jsval :=
  let '(ts, res) := try_part r in
  match res with
  | inr img => (MkCanvasState false (error st) (Some img), ts, Some img)
  | inl e =>
      let msg := if String.eqb (err_message e) "" then "Failed to generate try-on image" else err_message e in
      (MkCanvasState false (Some msg) (resultImage st), ts ++ [ToastError msg], None)
  end%list.

(** ** Render (lines 69-100) *)

Inductive canvas_view :=
| Generating                (* the spinner and "AI is generating your try-on..." *)
| Failed (msg : string)     (* "Try-on failed" and the message *)
| ResultImg (src : jsval)   (* the result image *)
| Nothing.

Definition render (st : canvas_state) : canvas_view :=
  if loading st then Generating
  else match error st with
       | Some m => if String.eqb m "" then
                     match resultImage st with
                     | Some v => if truthy v then ResultImg v else Nothing
                     | None => Nothing
                     end
                   else Failed m
       | None =>
           match resultImage st with
           | Some v => if truthy v then ResultImg v else Nothing
           | None => Nothing
           end
       end.

(** ** Laws *)

(** C17. Every error reply of the edge function reaches the component
    as [supabase-js]'s generic [FunctionsHttpError]: whatever the status
    (400, 402, 429, 500) and body, the user sees "Edge Function returned a
    non-2xx status code", the body's [error] text is lost, and the
    rate-limit toast with [retryAfterSeconds] is never shown. *)
Theorem settle_non_2xx (st : canvas_state) (rep : EdgeFunction.reply) :
  (EdgeFunction.status rep < 200 \/ 299 < EdgeFunction.status rep)%Z ->
  settle st (invoke (Some rep)) =
    (MkCanvasState false (Some "Edge Function returned a non-2xx status code") (resultImage st),
     [ToastError "Edge Function returned a non-2xx status code"], None).
Proof.
  intros Hs. unfold invoke.
  replace ((200 <=? EdgeFunction.status rep)%Z && (EdgeFunction.status rep <=? 299)%Z) with false
    by (symmetry; apply andb_false_iff; destruct Hs; [left | right]; apply Z.leb_gt; lia).
  reflexivity.
Qed.

(** A successful reply of the edge function, whose body is
    [{ success: true, resultImage }] with a non-empty data URL, is
    committed: [loading] is cleared, the image is stored and shown, no
    toast is raised, and [onResult] is called with it. *)
Theorem settle_success (st : canvas_state) (url : string) :
  url <> "" ->
  let rep := EdgeFunction.json_reply 200 (JObj [("success", JBool true); ("resultImage", JStr url)]) in
  settle st (invoke (Some rep)) = (MkCanvasState false (error st) (Some (JStr url)), [], Some (JStr url)) /\
  render (MkCanvasState false None (Some (JStr url))) = ResultImg (JStr url).
Proof.
  intros Hu rep. apply String.eqb_neq in Hu.
  unfold rep, settle, try_part, invoke, opt_get, render. cbn.
  rewrite Hu. cbn. split; reflexivity.
Qed.

(** ** Witnesses *)

Lemma settle_non_2xx_witness :
  settle initial_canvas (invoke (Some (EdgeFunction.error_reply 429 "Rate limited after retries. Please try again shortly."))) =
    (MkCanvasState false (Some "Edge Function returned a non-2xx status code") (resultImage initial_canvas),
     [ToastError "Edge Function returned a non-2xx status code"], None).
Proof. apply settle_non_2xx. cbn. lia. Defined.

Lemma settle_success_witness :
  settle initial_canvas (invoke (Some (EdgeFunction.json_reply 200
    (JObj [("success", JBool true); ("resultImage", JStr "data:image/png;base64,AAAA")])))) =
    (MkCanvasState false (error initial_canvas) (Some (JStr "data:image/png;base64,AAAA")), [],
     Some (JStr "data:image/png;base64,AAAA")) /\
  render (MkCanvasState false None (Some (JStr "data:image/png;base64,AAAA"))) =
    ResultImg (JStr "data:image/png;base64,AAAA").
Proof. apply settle_success. discriminate. Defined.

End TryOnCanvas.
