(* ===== verification/TryOnPage.v ===== *)
(** * The try-on page: [src/src/pages/TryOn.tsx]

    The page is a state machine.  Its state [page] holds the React state
    of lines 26-31 ([activeProduct], [userImage], [tryOnResult],
    [showTryOn], [isCameraActive], [facingMode]), the camera stream in
    [streamRef] and the streams whose tracks are running, the mounted
    [TryOnCanvas] (its props, its state, its current effect) and the
    effects whose cleanup ran ([cancelled]), and the asynchronous work in
    flight ([pending]: [invoke] calls, [getUserMedia] calls, file reads).
    An [event] is a click or an input the render offers, or the
    completion of a pending operation; [step] runs its handler and then
    [commit], React's reconciliation of the conditional
    [<TryOnCanvas/>] (mount, or unmount with the effect's cleanup).
    Toasts and cart calls are recorded in order. *)

From Stdlib Require Import ZArith String List Lia Bool.
From S2P Require Import Prelude JsValue Catalog TryOnClient.
Import ListNotations JsValue Catalog TryOnCanvas.
Open Scope string_scope.

Module TryOnPage.

(** ** State *)

Inductive facing := User | Environment.

Definition opposite (f : facing) : facing :=
  match f with User => Environment | Environment => User end.

(** The mounted [TryOnCanvas]: its props, its state and the effect that
    is current for them. *)
Record mounted := MkMounted { mc_props : props; mc_state : canvas_state; mc_effect : nat }.

Inductive pending_op :=
| PInvoke (eff : nat) (body : jsval)              (* [supabase.functions.invoke] of effect [eff] *)
| PGetUserMedia (call : nat) (mode : facing)      (* [getUserMedia] and [play()] of [startCamera] *)
| PReadFile (call : nat) (dataUrl : string).      (* [reader.readAsDataURL] *)

Inductive cart_call := AddToCart (p : Product).

Record page := MkPage {
  activeProduct : Product;
  userImage : option string;
  tryOnResult : option jsval;
  showTryOn : bool;
  isCameraActive : bool;
  facingMode : facing;
  streamRef : option nat;
  live_streams : list nat;      (* streams whose tracks have not been stopped *)
  canvas : option mounted;
  cancelled : list nat;         (* effects whose cleanup set [cancelled = true] *)
  pending : list pending_op;
  fresh : nat;                  (* the next identifier *)
  toasts : list toast;
  cart : list cart_call
}.

Definition set_activeProduct (v : Product) (s : page) : page :=
  MkPage v (userImage s) (tryOnResult s) (showTryOn s) (isCameraActive s) (facingMode s) (streamRef s)
   (live_streams s) (canvas s) (cancelled s) (pending s) (fresh s) (toasts s) (cart s).
Definition set_userImage (v : option string) (s : page) : page :=
  MkPage (activeProduct s) v (tryOnResult s) (showTryOn s) (isCameraActive s) (facingMode s) (streamRef s)
   (live_streams s) (canvas s) (cancelled s) (pending s) (fresh s) (toasts s) (cart s).
Definition set_tryOnResult (v : option jsval) (s : page) : page :=
  MkPage (activeProduct s) (userImage s) v (showTryOn s) (isCameraActive s) (facingMode s) (streamRef s)
   (live_streams s) (canvas s) (cancelled s) (pending s) (fresh s) (toasts s) (cart s).
Definition set_showTryOn (v : bool) (s : page) : page :=
  MkPage (activeProduct s) (userImage s) (tryOnResult s) v (isCameraActive s) (facingMode s) (streamRef s)
   (live_streams s) (canvas s) (cancelled s) (pending s) (fresh s) (toasts s) (cart s).
Definition set_isCameraActive (v : bool) (s : page) : page :=
  MkPage (activeProduct s) (userImage s) (tryOnResult s) (showTryOn s) v (facingMode s) (streamRef s)
   (live_streams s) (canvas s) (cancelled s) (pending s) (fresh s) (toasts s) (cart s).
Definition set_facingMode (v : facing) (s : page) : page :=
  MkPage (activeProduct s) (userImage s) (tryOnResult s) (showTryOn s) (isCameraActive s) v (streamRef s)
   (live_streams s) (canvas s) (cancelled s) (pending s) (fresh s) (toasts s) (cart s).
Definition set_streamRef (v : option nat) (s : page) : page :=
  MkPage (activeProduct s) (userImage s) (tryOnResult s) (showTryOn s) (isCameraActive s) (facingMode s) v
   (live_streams s) (canvas s) (cancelled s) (pending s) (fresh s) (toasts s) (cart s).
Definition set_live_streams (v : list nat) (s : page) : page :=
  MkPage (activeProduct s) (userImage s) (tryOnResult s) (showTryOn s) (isCameraActive s) (facingMode s) (streamRef s) v (canvas s) (cancelled s) (pending s) (fresh s) (toasts s) (cart s).
Definition set_canvas (v : option mounted) (s : page) : page :=
  MkPage (activeProduct s) (userImage s) (tryOnResult s) (showTryOn s) (isCameraActive s) (facingMode s) (streamRef s)
   (live_streams s) v (cancelled s) (pending s) (fresh s) (toasts s) (cart s).
Definition set_cancelled (v : list nat) (s : page) : page :=
  MkPage (activeProduct s) (userImage s) (tryOnResult s) (showTryOn s) (isCameraActive s) (facingMode s) (streamRef s)
   (live_streams s) (canvas s) v (pending s) (fresh s) (toasts s) (cart s).
Definition set_pending (v : list pending_op) (s : page) : page :=
  MkPage (activeProduct s) (userImage s) (tryOnResult s) (showTryOn s) (isCameraActive s) (facingMode s) (streamRef s)
   (live_streams s) (canvas s) (cancelled s) v (fresh s) (toasts s) (cart s).
Definition set_fresh (v : nat) (s : page) : page :=
  MkPage (activeProduct s) (userImage s) (tryOnResult s) (showTryOn s) (isCameraActive s) (facingMode s) (streamRef s)
   (live_streams s) (canvas s) (cancelled s) (pending s) v (toasts s) (cart s).
Definition set_toasts (v : list toast) (s : page) : page :=
  MkPage (activeProduct s) (userImage s) (tryOnResult s) (showTryOn s) (isCameraActive s) (facingMode s) (streamRef s)
   (live_streams s) (canvas s) (cancelled s) (pending s) (fresh s) v (cart s).
Definition set_cart (v : list cart_call) (s : page) : page :=
  MkPage (activeProduct s) (userImage s) (tryOnResult s) (showTryOn s) (isCameraActive s) (facingMode s) (streamRef s)
   (live_streams s) (canvas s) (cancelled s) (pending s) (fresh s) (toasts s) v.


Definition push_toast (t : toast) (s : page) : page := set_toasts (toasts s ++ [t]) s.

Definition add_pending (op : pending_op) (s : page) : page := set_pending (pending s ++ [op]) s.

Definition pending_eqb (a b : pending_op) : bool :=
  match a, b with
  | PInvoke e _, PInvoke e' _ => Nat.eqb e e'
  | PGetUserMedia c _, PGetUserMedia c' _ => Nat.eqb c c'
  | PReadFile c _, PReadFile c' _ => Nat.eqb c c'
  | _, _ => false
  end.

Definition drop_pending (op : pending_op) (s : page) : page :=
  set_pending (filter (fun o => negb (pending_eqb o op)) (pending s)) s.

(** [userImage] as a condition: a non-empty string. *)
Definition has_image (s : page) : bool :=
  match userImage s with
  | Some u => negb (String.eqb u "")
  | None => false
  end.

(** ** Handlers (lines 40-135) *)

(** [handleFileUpload]: a file of more than 5 MB is refused; otherwise
    its reading starts. *)
Definition handleFileUpload (file : option (Z * string)) (s : page) : page :=
  match file with
  | None => s
  | Some (size, dataUrl) =>
      if (5 * 1024 * 1024 <? size)%Z then push_toast (ToastError "Image size should be less than 5MB") s
      else set_fresh (S (fresh s)) (add_pending (PReadFile (fresh s) dataUrl) s)
  end.

(** [reader.onload]. *)
Definition readerLoaded (dataUrl : string) (s : page) : page :=
  set_showTryOn false (set_tryOnResult None (set_userImage (Some dataUrl) s)).

(** Stopping the tracks of [streamRef.current] and clearing it. *)
Definition stop_stream (s : page) : page :=
  match streamRef s with
  | Some st => set_streamRef None (set_live_streams (remove Nat.eq_dec st (live_streams s)) s)
  | None => s
  end.

(** [startCamera(mode)] up to its [await]. *)
Definition startCamera (mode : facing) (s : page) : page :=
  let s := stop_stream s in
  set_fresh (S (fresh s)) (add_pending (PGetUserMedia (fresh s) mode) s).

(** The rest of [startCamera] once the stream is playing; the video
    element is always rendered, so [videoRef.current] is set. *)
Definition cameraStarted (mode : facing) (s : page) : page :=
  let st := fresh s in
  push_toast (ToastSuccess "Camera is live! Position yourself and capture when ready.")
    (set_showTryOn false (set_tryOnResult None (set_facingMode mode (set_isCameraActive true
      (set_live_streams (st :: live_streams s) (set_streamRef (Some st) (set_fresh (S st) s))))))).

(** The [catch] of [startCamera]. *)
Definition cameraFailed (errName : string) (s : page) : page :=
  push_toast (ToastError (if String.eqb errName "NotAllowedError" then "Camera access denied. Please allow camera permissions."
                          else if String.eqb errName "NotFoundError" then "No camera found."
                          else "Could not access camera.")) s.

(** [getUserMedia] fulfilled but [videoRef.current.play()] rejected (an
    [AbortError] when another start replaced [srcObject], or a
    [NotAllowedError] of the autoplay policy): the [catch] toasts, and the
    stream that was acquired keeps running, referenced by nothing. *)
Definition cameraPlayFailed (errName : string) (s : page) : page :=
  let st := fresh s in
  cameraFailed errName (set_live_streams (st :: live_streams s) (set_fresh (S st) s)).

Definition toggleCamera (s : page) : page := startCamera (opposite (facingMode s)) s.

Definition stopCamera (s : page) : page := set_isCameraActive false (stop_stream s).

(** [capturePhoto]: the frame, as [canvas.toDataURL("image/jpeg", 0.8)]. *)
Definition capturePhoto (frame : string) (s : page) : page :=
  set_showTryOn false (set_tryOnResult None (stopCamera (set_userImage (Some frame) s))).

Definition handleTryOn (s : page) : page :=
  if has_image s then set_showTryOn true s
  else push_toast (ToastError "Please upload or capture a photo first") s.

Definition handleTryOnResult (resultDataUrl : jsval) (s : page) : page :=
  set_tryOnResult (Some resultDataUrl) s.

Definition handleAddToCart (s : page) : page :=
  push_toast (ToastSuccess (name (activeProduct s) ++ " added to cart!"))
    (set_cart (cart s ++ [AddToCart (activeProduct s)]) s).

Definition resetTryOn (s : page) : page :=
  stopCamera (set_showTryOn false (set_tryOnResult None (set_userImage None s))).

(** The buttons of "Try Other Products" (lines 276-280). *)
Definition selectProduct (p : Product) (s : page) : page :=
  set_showTryOn false (set_tryOnResult None (set_activeProduct p s)).

(** The [invoke] of effect [eff] settles: a cancelled effect returns
    without touching anything ([if (cancelled) return]); otherwise the
    code after the [await] runs [settle] in the mounted canvas, and
    [onResult] is [handleTryOnResult].  The source checks nothing else:
    that the mounted canvas is the one whose effect made the call is the
    invariant [invokes_ok], not a test. *)
Definition invokeSettled (eff : nat) (r : invoke_result) (s : page) : page :=
  if existsb (Nat.eqb eff) (cancelled s) then s
  else match canvas s with
       | Some mc =>
           let '(st', ts, res) := settle (mc_state mc) r in
           let s := set_toasts (toasts s ++ ts) (set_canvas (Some (MkMounted (mc_props mc) st' (mc_effect mc))) s) in
           match res with
           | Some img => handleTryOnResult img s
           | None => s
           end
       | None => s
       end.

(** ** Reconciling [<TryOnCanvas/>] (lines 184-189 and the effect's
    dependencies [userImage, product, onResult]) *)

(** The props of the canvas the render asks for, if it renders one. *)
Definition desired (s : page) : option props :=
  if isCameraActive s then None
  else if showTryOn s && has_image s then
    match userImage s with
    | Some u => Some (MkProps u (activeProduct s))
    | None => None
    end
  else None.

(** The dependencies are compared by identity; the products are the
    catalogue's objects, whose ids are unique. *)
Definition props_eqb (a b : props) : bool :=
  String.eqb (p_userImage a) (p_userImage b) && String.eqb (id (p_product a)) (id (p_product b)).

(** Running a new effect for [pr]: [processTryOn] resets the state and
    calls [invoke]. *)
Definition run_effect (pr : props) (st : canvas_state) (s : page) : page :=
  let e := fresh s in
  set_fresh (S e) (add_pending (PInvoke e (invoke_body pr)) (set_canvas (Some (MkMounted pr (start st) e)) s)).

Definition cleanup (mc : mounted) (s : page) : page := set_cancelled (mc_effect mc :: cancelled s) s.

Definition commit (s : page) : page :=
  match canvas s, desired s with
  | None, None => s
  | Some mc, None => set_canvas None (cleanup mc s)
  | None, Some pr => run_effect pr initial_canvas s
  | Some mc, Some pr =>
      if props_eqb (mc_props mc) pr then s else run_effect pr (mc_state mc) (cleanup mc s)
  end.

(** ** Render (lines 137-300) *)

Inductive preview :=
| CameraLive (mirrored : bool)
| CanvasPreview (v : canvas_view)
| PhotoPreview (photo : string) (product : Product)
| UploadPrompt.

Inductive button :=
| BtnCapture | BtnFlip | BtnCancel | BtnUseCamera | BtnUpload | BtnTryOn | BtnReset | BtnAddToCart
| BtnOtherProduct (productId : string).

Record view := MkView { preview_of : preview; buttons : list button; selected : Product; others : list Product }.

Definition render_page (s : page) : view :=
  let pv :=
    if isCameraActive s then CameraLive (match facingMode s with User => true | Environment => false end)
    else if showTryOn s && has_image s then
      CanvasPreview (match canvas s with Some mc => render (mc_state mc) | None => Nothing end)
    else match userImage s with
         | Some u => if has_image s then PhotoPreview u (activeProduct s) else UploadPrompt
         | None => UploadPrompt
         end in
  let others := filter (fun p => negb (String.eqb (id p) (id (activeProduct s)))) products in
  MkView pv
    ((if isCameraActive s then [BtnCapture; BtnFlip; BtnCancel] else [BtnUseCamera; BtnUpload]) ++
     (if has_image s && negb (isCameraActive s) then [BtnTryOn; BtnReset] else []) ++
     [BtnAddToCart] ++ map (fun p => BtnOtherProduct (id p)) others)
    (activeProduct s) others.

(** ** Events and steps *)

Inductive event :=
| FileSelected (file : option (Z * string))
| ReaderLoaded (call : nat)
| UseCamera
| Flip
| CameraStarted (call : nat)
| CameraFailed (call : nat) (errName : string)       (* [getUserMedia] rejects *)
| CameraPlayFailed (call : nat) (errName : string)   (* the stream arrives, [play()] rejects *)
| CancelCamera
| Capture (frame : string)
| TryOnClick
| AddToCartClick
| ResetClick
| SelectProduct (productId : string)     (* the button of that catalogue product *)
| InvokeSettled (eff : nat) (r : invoke_result).

Definition offered (s : page) (b : button) : bool :=
  existsb (fun b' => match b, b' with
                     | BtnOtherProduct i, BtnOtherProduct j => String.eqb i j
                     | BtnCapture, BtnCapture | BtnFlip, BtnFlip | BtnCancel, BtnCancel
                     | BtnUseCamera, BtnUseCamera | BtnUpload, BtnUpload | BtnTryOn, BtnTryOn
                     | BtnReset, BtnReset | BtnAddToCart, BtnAddToCart => true
                     | _, _ => false
                     end) (buttons (render_page s)).

Definition find_pending (f : pending_op -> bool) (s : page) : option pending_op := find f (pending s).

(** The handler of an event, when the render offers it or the operation
    is pending. *)
Definition handle (s : page) (e : event) : option page :=
  match e with
  | FileSelected file => if offered s BtnUpload then Some (handleFileUpload file s) else None
  | ReaderLoaded c =>
      match find_pending (fun o => match o with PReadFile c' _ => Nat.eqb c c' | _ => false end) s with
      | Some (PReadFile _ url as o) => Some (readerLoaded url (drop_pending o s))
      | _ => None
      end
  | UseCamera => if offered s BtnUseCamera then Some (startCamera (facingMode s) s) else None
  | Flip => if offered s BtnFlip then Some (toggleCamera s) else None
  | CameraStarted c =>
      match find_pending (fun o => match o with PGetUserMedia c' _ => Nat.eqb c c' | _ => false end) s with
      | Some (PGetUserMedia _ mode as o) => Some (cameraStarted mode (drop_pending o s))
      | _ => None
      end
  | CameraFailed c name =>
      match find_pending (fun o => match o with PGetUserMedia c' _ => Nat.eqb c c' | _ => false end) s with
      | Some o => Some (cameraFailed name (drop_pending o s))
      | None => None
      end
  | CameraPlayFailed c name =>
      match find_pending (fun o => match o with PGetUserMedia c' _ => Nat.eqb c c' | _ => false end) s with
      | Some o => Some (cameraPlayFailed name (drop_pending o s))
      | None => None
      end
  | CancelCamera => if offered s BtnCancel then Some (stopCamera s) else None
  | Capture frame => if offered s BtnCapture then Some (capturePhoto frame s) else None
  | TryOnClick => if offered s BtnTryOn then Some (handleTryOn s) else None
  | AddToCartClick => Some (handleAddToCart s)
  | ResetClick => if offered s BtnReset then Some (resetTryOn s) else None
  | SelectProduct pid =>
      if offered s (BtnOtherProduct pid) then option_map (fun p => selectProduct p s) (getProductById pid)
      else None
  | InvokeSettled eff r =>
      match find_pending (fun o => match o with PInvoke e' _ => Nat.eqb eff e' | _ => false end) s with
      | Some o => Some (invokeSettled eff r (drop_pending o s))
      | None => None
      end
  end.

Definition step (s : page) (e : event) : option page := option_map commit (handle s e).

(** The page as the route [/try-on?product=<id>] mounts it. *)
Definition initial_page (productParam : option string) : page :=
  let selectedProduct :=
    match productParam with
    | Some pid => if String.eqb pid "" then None else getProductById pid
    | None => None
    end in
  MkPage (match selectedProduct with Some p => p | None => nth 0 products (MkProduct "" "" Eyewear "" 0 None "" "" false None None None) end)
    None None false false User None [] None [] [] 0 [] [].

Fixpoint run (s : page) (es : list event) : option page :=
  match es with
  | [] => Some s
  | e :: rest => match step s e with Some s' => run s' rest | None => None end
  end.

Inductive reachable : page -> Prop :=
| reach_init (param : option string) : reachable (initial_page param)
| reach_step (s s' : page) (e : event) : reachable s -> step s e = Some s' -> reachable s'.

(** ** The page invariant *)

(** The mounted canvas is the one the render asks for. *)
Definition canvas_ok (s : page) : Prop :=
  match canvas s, desired s with
  | None, None => True
  | Some mc, Some pr => props_eqb (mc_props mc) pr = true
  | _, _ => False
  end.

Definition ids_below (s : page) : Prop :=
  (forall e, In e (cancelled s) -> e < fresh s) /\
  (forall mc, canvas s = Some mc -> mc_effect mc < fresh s).

(** Every [invoke] in flight belongs to a cancelled effect or to the
    current effect of the mounted canvas, for its props. *)
Definition invokes_ok (s : page) : Prop :=
  forall eff b, In (PInvoke eff b) (pending s) ->
    In eff (cancelled s) \/ exists mc, canvas s = Some mc /\ mc_effect mc = eff /\ b = invoke_body (mc_props mc).

Definition current_live (s : page) : Prop :=
  forall mc, canvas s = Some mc -> ~ In (mc_effect mc) (cancelled s).

Definition page_inv (s : page) : Prop :=
  canvas_ok s /\ ids_below s /\ invokes_ok s /\ current_live s /\ (tryOnResult s <> None -> canvas s <> None).

(** What a handler must leave for [commit]. *)
Definition pre_inv (t : page) : Prop :=
  ids_below t /\ invokes_ok t /\ current_live t /\ (tryOnResult t <> None -> desired t <> None).

Lemma props_eqb_refl (pr : props) : props_eqb pr pr = true.
Proof. unfold props_eqb. rewrite !String.eqb_refl. reflexivity. Qed.

Lemma run_effect_inv (pr : props) (st : canvas_state) (t : page) :
  desired t = Some pr -> ids_below t ->
  (forall eff b, In (PInvoke eff b) (pending t) -> In eff (cancelled t)) ->
  (tryOnResult t <> None -> desired t <> None) ->
  page_inv (run_effect pr st t).
Proof.
  intros Hd [Hcan Hmc] Hinv Hres.
  assert (Hd' : desired (run_effect pr st t) = Some pr) by exact Hd.
  unfold page_inv, canvas_ok, ids_below, invokes_ok, current_live. rewrite Hd'.
  unfold run_effect, set_fresh, add_pending, set_pending, set_canvas.
  cbn [canvas cancelled fresh pending tryOnResult mc_props mc_effect].
  split; [apply props_eqb_refl |].
  split; [split; [intros e He; apply Hcan in He; lia | intros mc E; injection E as <-; cbn; lia] |].
  split; [| split; [intros mc E; injection E as <-; cbn; intros Hin; apply Hcan in Hin; lia | intros _; discriminate]].
  intros eff b Hin. apply in_app_or in Hin as [Hin | [E | []]].
  - left. exact (Hinv eff b Hin).
  - injection E as <- <-. right. eexists; split; [reflexivity | split; reflexivity].
Qed.

Lemma desired_set_canvas (c : option mounted) (t : page) : desired (set_canvas c t) = desired t.
Proof. reflexivity. Qed.

Lemma desired_cleanup (mc : mounted) (t : page) : desired (cleanup mc t) = desired t.
Proof. reflexivity. Qed.

Lemma cleanup_ids (mc : mounted) (t : page) :
  ids_below t -> canvas t = Some mc -> ids_below (cleanup mc t).
Proof.
  intros [H1 H2] Ec. split; cbn; [intros e [<- | He]; [apply H2; exact Ec | auto] | exact H2].
Qed.

Lemma cleanup_invokes (mc : mounted) (t : page) (eff : nat) (b : jsval) :
  invokes_ok t -> canvas t = Some mc -> In (PInvoke eff b) (pending t) -> In eff (cancelled (cleanup mc t)).
Proof.
  intros Hinv Ec Hin. destruct (Hinv eff b Hin) as [Hc | (mc' & E & <- & _)]; [right; exact Hc |].
  rewrite Ec in E. injection E as <-. left. reflexivity.
Qed.

(** [commit] re-establishes the invariant. *)
Lemma commit_inv (t : page) : pre_inv t -> page_inv (commit t).
Proof.
  intros (Hids & Hinv & Hlive & Hres). unfold commit.
  destruct (canvas t) as [mc |] eqn:Ec; destruct (desired t) as [pr |] eqn:Ed.
  - destruct (props_eqb (mc_props mc) pr) eqn:Ep.
    + unfold page_inv, canvas_ok. rewrite Ec, Ed. repeat split; auto; [apply Hids | apply Hids | congruence].
    + apply run_effect_inv; [rewrite desired_cleanup; exact Ed | apply cleanup_ids; assumption |
        intros eff b Hin; exact (cleanup_invokes mc t eff b Hinv Ec Hin) |
        intros _; rewrite desired_cleanup, Ed; discriminate].
  - unfold page_inv, canvas_ok. rewrite desired_set_canvas, desired_cleanup, Ed.
    split; [exact I |]. split; [| split; [| split]].
    + destruct (cleanup_ids mc t Hids Ec) as [H1 H2]. split; [exact H1 | discriminate].
    + intros eff b Hin. left. exact (cleanup_invokes mc t eff b Hinv Ec Hin).
    + discriminate.
    + intros Hr. exfalso. exact (Hres Hr eq_refl).
  - apply run_effect_inv; [exact Ed | exact Hids | | intros _; rewrite Ed; discriminate].
    intros eff b Hin. destruct (Hinv eff b Hin) as [Hc | (mc' & E & _)]; [exact Hc | congruence].
  - unfold page_inv, canvas_ok. rewrite Ec, Ed. split; [exact I |]. split; [exact Hids |].
    split; [| split; [intros mc E; congruence | intros Hr; exfalso; exact (Hres Hr eq_refl)]].
    intros eff b Hin. destruct (Hinv eff b Hin) as [Hc | (mc' & E & _)]; [left; exact Hc | congruence].
Qed.

(** ** Handlers keep what [commit] needs *)

(** [t] leaves the canvas, the cancelled effects and the invokes in
    flight as [s] had them (it may finish some), and only allocates. *)
Definition frames (s t : page) : Prop :=
  canvas t = canvas s /\ cancelled t = cancelled s /\ fresh s <= fresh t /\
  (forall eff b, In (PInvoke eff b) (pending t) -> In (PInvoke eff b) (pending s)).

Lemma frames_refl (s : page) : frames s s.
Proof. repeat split; auto. Qed.

Lemma frames_trans (s t u : page) : frames s t -> frames t u -> frames s u.
Proof.
  intros (C1 & K1 & F1 & P1) (C2 & K2 & F2 & P2).
  repeat split; [congruence | congruence | lia | auto].
Qed.

Lemma frames_drop (s : page) (o : pending_op) : frames s (drop_pending o s).
Proof.
  repeat split; auto. intros eff b Hin. apply filter_In in Hin as [Hin _]. exact Hin.
Qed.

Lemma frames_add (s : page) (o : pending_op) :
  (forall eff b, o <> PInvoke eff b) -> frames s (set_fresh (S (fresh s)) (add_pending o s)).
Proof.
  intros Ho. repeat split; cbn; auto.
  intros eff b Hin. apply in_app_or in Hin as [Hin | [E | []]]; [exact Hin | exfalso; exact (Ho eff b E)].
Qed.

Lemma frames_stop (s : page) : frames s (stop_stream s).
Proof. unfold stop_stream. destruct (streamRef s); repeat split; auto. Qed.

#[local] Hint Resolve frames_refl frames_drop frames_stop : tryon.

Lemma desired_ext (s t : page) :
  isCameraActive t = isCameraActive s -> showTryOn t = showTryOn s -> userImage t = userImage s ->
  activeProduct t = activeProduct s -> desired t = desired s.
Proof.
  intros H1 H2 H3 H4. unfold desired, has_image. rewrite H1, H2, H3, H4. reflexivity.
Qed.

Lemma inv_result_desired (s : page) : page_inv s -> tryOnResult s <> None -> desired s <> None.
Proof.
  intros (Hc & _ & _ & _ & Hr) Hres Hd. apply (Hr Hres). unfold canvas_ok in Hc. rewrite Hd in Hc.
  destruct (canvas s); [destruct Hc | reflexivity].
Qed.

Lemma frames_pre_inv (s t : page) :
  page_inv s -> frames s t -> (tryOnResult t <> None -> desired t <> None) -> pre_inv t.
Proof.
  intros (Hc & [Hk Hm] & Hinv & Hlive & Hr) (C & K & F & P) Hres. unfold pre_inv.
  split; [split | split; [| split; [| exact Hres]]].
  - rewrite K. intros e He. apply Hk in He. lia.
  - rewrite C. intros mc E. apply Hm in E. lia.
  - intros eff b Hin. rewrite C, K. exact (Hinv eff b (P eff b Hin)).
  - intros mc E. rewrite K. apply Hlive. rewrite <- C. exact E.
Qed.

Ltac page_simpl :=
  cbn [canvas cancelled fresh pending tryOnResult userImage showTryOn isCameraActive activeProduct
       facingMode streamRef live_streams toasts cart
       set_activeProduct set_userImage set_tryOnResult set_showTryOn set_isCameraActive set_facingMode
       set_streamRef set_live_streams set_canvas set_cancelled set_pending set_fresh set_toasts set_cart
       push_toast add_pending drop_pending] in *.

(** Case on the camera stream where [stop_stream] looks at it. *)
Ltac case_stream :=
  repeat (page_simpl;
          match goal with
          | |- context [match streamRef ?x with _ => _ end] => destruct (streamRef x)
          end); page_simpl.

Ltac frames_solve :=
  unfold frames; case_stream; repeat split; try lia;
  let eff := fresh "eff" in let b := fresh "b" in let Hin := fresh "Hin" in
  intros eff b Hin;
  repeat match type of Hin with
         | In _ (_ ++ _) => apply in_app_or in Hin as [Hin | Hin]
         | In _ [_] => destruct Hin as [Hin | []]; discriminate Hin
         | In _ (filter _ _) => apply filter_In in Hin as [Hin _]
         end; exact Hin.

(** The result condition when the handler clears [tryOnResult]. *)
Ltac result_cleared := intros Hr; exfalso; apply Hr; case_stream; reflexivity.

(** The result condition when the handler keeps [tryOnResult] and what
    the render of the canvas depends on. *)
Ltac result_kept s Hs :=
  let Hr := fresh "Hr" in
  intros Hr; erewrite desired_ext; [apply (inv_result_desired s Hs); page_simpl; exact Hr | page_simpl; reflexivity ..].

Lemma desired_some (s : page) : desired s <> None -> isCameraActive s = false /\ showTryOn s = true.
Proof.
  unfold desired. destruct (isCameraActive s); [intros H; contradiction H; reflexivity |].
  destruct (showTryOn s); [auto | intros H; contradiction H; reflexivity].
Qed.

Lemma canvas_some_desired (s : page) (mc : mounted) : canvas_ok s -> canvas s = Some mc -> desired s <> None.
Proof. unfold canvas_ok. intros Hc E Hd. rewrite E, Hd in Hc. exact Hc. Qed.

Lemma find_pending_in (f : pending_op -> bool) (s : page) (o : pending_op) :
  find_pending f s = Some o -> In o (pending s) /\ f o = true.
Proof. apply find_some. Qed.

(** An [invoke] in flight that is not cancelled is the mounted canvas's
    current one. *)
Lemma live_invoke_current (s : page) (eff : nat) (b : jsval) (mc : mounted) :
  invokes_ok s -> In (PInvoke eff b) (pending s) -> existsb (Nat.eqb eff) (cancelled s) = false ->
  canvas s = Some mc -> mc_effect mc = eff /\ b = invoke_body (mc_props mc).
Proof.
  intros Hinv Hin Hk Ec. destruct (Hinv eff b Hin) as [Hx | (mc' & E & <- & ->)].
  - exfalso. apply Bool.not_true_iff_false in Hk. apply Hk, existsb_exists. exists eff.
    split; [exact Hx | apply Nat.eqb_refl].
  - rewrite Ec in E. injection E as ->. auto.
Qed.

Lemma invokeSettled_pre_inv (s : page) (eff : nat) (b : jsval) (r : invoke_result) (o : pending_op) :
  page_inv s -> In (PInvoke eff b) (pending s) -> pre_inv (invokeSettled eff r (drop_pending o s)).
Proof.
  intros Hs Hin0. pose proof (frames_drop s o) as Fd. set (s1 := drop_pending o s) in *.
  unfold invokeSettled. destruct (existsb (Nat.eqb eff) (cancelled s1)) eqn:Ek.
  { apply (frames_pre_inv s); [exact Hs | exact Fd | result_kept s Hs]. }
  destruct (canvas s1) as [mc |] eqn:Ec; [| apply (frames_pre_inv s); [exact Hs | exact Fd | result_kept s Hs]].
  destruct (live_invoke_current s eff b mc (proj1 (proj2 (proj2 Hs))) Hin0 Ek Ec) as [<- _]. clear b Hin0.
  destruct Hs as (Hc & [Hk Hm] & Hinv & Hlive & Hr). destruct Fd as (C & K & F & P).
  destruct (settle (mc_state mc) r) as [[st' ts] res].
  assert (Hcs : canvas s = Some mc) by (rewrite <- C; exact Ec).
  assert (Hd : desired s <> None) by exact (canvas_some_desired s mc Hc Hcs).
  assert (G : forall u, canvas u = Some (MkMounted (mc_props mc) st' (mc_effect mc)) -> cancelled u = cancelled s ->
                fresh u = fresh s1 -> (forall e b, In (PInvoke e b) (pending u) -> In (PInvoke e b) (pending s)) ->
                desired u = desired s -> pre_inv u).
  { intros u Cu Ku Fu Pu Du. split; [split | split; [| split]].
    - rewrite Ku, Fu. intros e He. apply Hk in He. lia.
    - rewrite Cu, Fu. intros mc' E. injection E as <-. cbn. apply Hm in Hcs. lia.
    - intros e b Hin. rewrite Ku, Cu. destruct (Hinv e b (Pu e b Hin)) as [Hx | (mc' & E & <- & ->)];
        [left; exact Hx | right]. rewrite Hcs in E. injection E as <-. eexists; split; [reflexivity | auto].
    - intros mc' E. rewrite Cu in E. injection E as <-. cbn. rewrite Ku. apply Hlive, Hcs.
    - intros _. rewrite Du. exact Hd. }
  destruct res as [img |]; apply G; page_simpl; auto; try (apply desired_ext; page_simpl; reflexivity).
Qed.

(** Every handler leaves what [commit] needs. *)
Lemma handle_pre_inv (s t : page) (e : event) : page_inv s -> handle s e = Some t -> pre_inv t.
Proof.
  intros Hs H. destruct e as [file | c | | | c | c name | c name | | frame | | | | pid | eff r]; cbn [handle] in H.
  - destruct (offered s BtnUpload); [injection H as <- | discriminate].
    unfold handleFileUpload. destruct file as [[size url] |]; [destruct (5 * 1024 * 1024 <? size)%Z |];
      apply (frames_pre_inv s); (exact Hs || frames_solve || result_kept s Hs).
  - destruct (find_pending _ s) as [[| | c' url] |]; try discriminate. injection H as <-.
    apply (frames_pre_inv s); [exact Hs | unfold readerLoaded; frames_solve | unfold readerLoaded; result_cleared].
  - destruct (offered s BtnUseCamera); [injection H as <- | discriminate].
    unfold startCamera, stop_stream.
    apply (frames_pre_inv s); (exact Hs || frames_solve || idtac).
    intros Hr. assert (Hd : desired s <> None) by (apply (inv_result_desired s Hs); revert Hr; case_stream; auto).
    erewrite desired_ext; [exact Hd | ..]; case_stream; reflexivity.
  - destruct (offered s BtnFlip); [injection H as <- | discriminate].
    unfold toggleCamera, startCamera, stop_stream.
    apply (frames_pre_inv s); (exact Hs || frames_solve || idtac).
    intros Hr. assert (Hd : desired s <> None) by (apply (inv_result_desired s Hs); revert Hr; case_stream; auto).
    erewrite desired_ext; [exact Hd | ..]; case_stream; reflexivity.
  - destruct (find_pending _ s) as [[| c' mode |] |]; try discriminate. injection H as <-.
    apply (frames_pre_inv s); [exact Hs | unfold cameraStarted; frames_solve | unfold cameraStarted; result_cleared].
  - destruct (find_pending _ s) as [o |]; [injection H as <- | discriminate].
    apply (frames_pre_inv s); [exact Hs | unfold cameraFailed; frames_solve | unfold cameraFailed; result_kept s Hs].
  - destruct (find_pending _ s) as [o |]; [injection H as <- | discriminate].
    apply (frames_pre_inv s); [exact Hs | unfold cameraPlayFailed, cameraFailed; frames_solve |
      unfold cameraPlayFailed, cameraFailed; result_kept s Hs].
  - destruct (offered s BtnCancel); [injection H as <- | discriminate].
    apply (frames_pre_inv s); [exact Hs | unfold stopCamera, stop_stream; frames_solve |].
    intros Hr. assert (Hd : desired s <> None).
    { apply (inv_result_desired s Hs). revert Hr. unfold stopCamera, stop_stream. case_stream; auto. }
    destruct (desired_some s Hd) as [Hcam _]. erewrite desired_ext; [exact Hd | ..];
      unfold stopCamera, stop_stream; case_stream; auto.
  - destruct (offered s BtnCapture); [injection H as <- | discriminate].
    apply (frames_pre_inv s); [exact Hs | unfold capturePhoto, stopCamera, stop_stream; frames_solve |
      unfold capturePhoto, stopCamera, stop_stream; result_cleared].
  - destruct (offered s BtnTryOn); [injection H as <- | discriminate].
    unfold handleTryOn. destruct (has_image s); apply (frames_pre_inv s); (exact Hs || frames_solve || idtac);
      [| result_kept s Hs].
    intros Hr. assert (Hd : desired s <> None) by (apply (inv_result_desired s Hs); exact Hr).
    destruct (desired_some s Hd) as [_ Hshow]. erewrite desired_ext; [exact Hd | ..]; page_simpl; auto.
  - injection H as <-.
    apply (frames_pre_inv s); [exact Hs | unfold handleAddToCart; frames_solve | unfold handleAddToCart; result_kept s Hs].
  - destruct (offered s BtnReset); [injection H as <- | discriminate].
    apply (frames_pre_inv s); [exact Hs | unfold resetTryOn, stopCamera, stop_stream; frames_solve |
      unfold resetTryOn, stopCamera, stop_stream; result_cleared].
  - destruct (offered s (BtnOtherProduct pid)); [| discriminate].
    destruct (getProductById pid) as [p |]; [injection H as <- | discriminate].
    apply (frames_pre_inv s); [exact Hs | unfold selectProduct; frames_solve | unfold selectProduct; result_cleared].
  - destruct (find_pending _ s) as [o |] eqn:Ef; [injection H as <- | discriminate].
    apply find_pending_in in Ef as [Ho Hf]. destruct o as [e b | |]; try discriminate.
    apply Nat.eqb_eq in Hf. subst e. exact (invokeSettled_pre_inv s eff b r _ Hs Ho).
Qed.

Lemma step_inv (s s' : page) (e : event) : page_inv s -> step s e = Some s' -> page_inv s'.
Proof.
  intros Hs H. unfold step in H. destruct (handle s e) as [t |] eqn:Ht; [| discriminate].
  injection H as <-. apply commit_inv. exact (handle_pre_inv s t e Hs Ht).
Qed.

Lemma initial_inv (param : option string) : page_inv (initial_page param).
Proof.
  unfold page_inv, canvas_ok, ids_below, invokes_ok, current_live, desired. cbn.
  repeat split; intros; try contradiction; try discriminate.
Qed.

Lemma commit_id (t : page) : canvas_ok t -> commit t = t.
Proof.
  unfold canvas_ok, commit. destruct (canvas t), (desired t); try contradiction; auto.
  intros E. rewrite E. reflexivity.
Qed.

Lemma commit_fields (t : page) :
  tryOnResult (commit t) = tryOnResult t /\ userImage (commit t) = userImage t /\
  activeProduct (commit t) = activeProduct t.
Proof.
  unfold commit. destruct (canvas t), (desired t); try (destruct (props_eqb _ _)); repeat split.
Qed.

Lemma canvas_ok_drop (s : page) (o : pending_op) : canvas_ok s -> canvas_ok (drop_pending o s).
Proof. exact (fun H => H). Qed.

(** C4. The page invariant holds in every reachable state, whatever
    the interleaving of clicks, file reads, camera starts and [invoke]
    completions: the mounted canvas is the one the render asks for, every
    [invoke] in flight belongs to a cancelled effect or to the current
    one (for the current photo and product), the current effect is not
    cancelled, and a try-on result is only ever held while the canvas is
    shown, that is with the camera off, [showTryOn] set and a photo. *)
Theorem reachable_page_inv (s : page) :
  reachable s ->
  page_inv s /\ (tryOnResult s <> None -> isCameraActive s = false /\ showTryOn s = true /\ has_image s = true).
Proof.
  intros R. assert (Hs : page_inv s).
  { induction R as [param | s s' e R IH H]; [apply initial_inv | exact (step_inv s s' e IH H)]. }
  split; [exact Hs |]. intros Hr. destruct Hs as (Hc & _ & _ & _ & Hres).
  destruct (canvas s) as [mc |] eqn:Ec; [| exfalso; exact (Hres Hr eq_refl)].
  assert (Hd : desired s <> None) by exact (canvas_some_desired s mc Hc Ec).
  destruct (desired_some s Hd) as [Hcam Hshow]. split; [exact Hcam | split; [exact Hshow |]].
  unfold desired in Hd. rewrite Hcam, Hshow in Hd. cbn in Hd.
  destruct (has_image s); [reflexivity | contradiction Hd; reflexivity].
Qed.

(** C3. Cancellation: when the [invoke] of an effect whose cleanup
    has run settles, nothing is committed: the step only forgets the
    finished call, so the result, the canvas, the toasts and the rest of
    the page are as before. *)
Theorem cancelled_invoke_discarded (s s' : page) (eff : nat) (r : invoke_result) :
  page_inv s -> In eff (cancelled s) -> step s (InvokeSettled eff r) = Some s' ->
  exists o, s' = drop_pending o s.
Proof.
  intros Hs Hk H. unfold step in H. cbn [handle] in H.
  destruct (find_pending _ s) as [o |]; [| discriminate]. injection H as <-. exists o.
  unfold invokeSettled. replace (existsb (Nat.eqb eff) (cancelled (drop_pending o s))) with true.
  - apply commit_id, canvas_ok_drop, Hs.
  - symmetry. apply existsb_exists. exists eff. split; [exact Hk | apply Nat.eqb_refl].
Qed.

(** C8. Only the current request commits: if an [invoke] completion
    changes the page's result, then it was the call of the mounted
    canvas's current effect, sent with the photo and the product shown
    now, and the photo and product are unchanged by the step. *)
Theorem result_from_current_request (s s' : page) (eff : nat) (r : invoke_result) :
  page_inv s -> step s (InvokeSettled eff r) = Some s' -> tryOnResult s' <> tryOnResult s ->
  exists mc u, canvas s = Some mc /\ mc_effect mc = eff /\ userImage s = Some u /\
    p_userImage (mc_props mc) = u /\ id (p_product (mc_props mc)) = id (activeProduct s) /\
    In (PInvoke eff (invoke_body (mc_props mc))) (pending s) /\
    userImage s' = userImage s /\ activeProduct s' = activeProduct s.
Proof.
  intros Hs H Hneq. unfold step in H. cbn [handle] in H.
  destruct (find_pending _ s) as [o |] eqn:Ef; [| discriminate]. injection H as <-.
  apply find_pending_in in Ef as [Ho Hf].
  destruct o as [e b | |]; try discriminate. apply Nat.eqb_eq in Hf. subst e.
  destruct (commit_fields (invokeSettled eff r (drop_pending (PInvoke eff b) s))) as (F1 & F2 & F3).
  rewrite F1 in Hneq. rewrite F2, F3. unfold invokeSettled in *.
  destruct (existsb (Nat.eqb eff) (cancelled (drop_pending (PInvoke eff b) s))) eqn:Ek;
    [contradiction Hneq; reflexivity |].
  change (canvas (drop_pending (PInvoke eff b) s)) with (canvas s) in *.
  change (cancelled (drop_pending (PInvoke eff b) s)) with (cancelled s) in Ek.
  destruct (canvas s) as [mc |] eqn:Ec; [| contradiction Hneq; reflexivity].
  destruct (live_invoke_current s eff b mc (proj1 (proj2 (proj2 Hs))) Ho Ek Ec) as [Heff Hb].
  destruct (settle (mc_state mc) r) as [[st' ts] [img |]]; [| contradiction Hneq; reflexivity].
  destruct Hs as (Hc & _ & Hinv & _ & _).
  unfold canvas_ok in Hc. rewrite Ec in Hc. unfold desired in Hc.
  destruct (isCameraActive s); [contradiction |]. destruct (showTryOn s && has_image s); [| contradiction].
  destruct (userImage s) as [u |] eqn:Eu; [| contradiction].
  unfold props_eqb in Hc. apply andb_true_iff in Hc as [H1 H2]. apply String.eqb_eq in H1, H2. cbn in H1, H2.
  exists mc, u. repeat split; auto. rewrite <- Hb. exact Ho.
Qed.

(** *** Camera streams *)

(** How a step changes the camera streams: not at all, by [stop_stream]
    of the referenced stream, by [cameraStarted] with a new referenced
    stream named [fresh s], or by [cameraPlayFailed] with a new stream
    that nothing references; effect ids only grow. *)
Definition streams_frame (s t : page) : Prop :=
  fresh s <= fresh t /\
  ((streamRef t = streamRef s /\ live_streams t = live_streams s) \/
   (exists x, streamRef s = Some x /\ streamRef t = None /\
              live_streams t = remove Nat.eq_dec x (live_streams s)) \/
   (streamRef t = Some (fresh s) /\ live_streams t = fresh s :: live_streams s /\ fresh s < fresh t) \/
   (streamRef t = streamRef s /\ live_streams t = fresh s :: live_streams s /\ fresh s < fresh t)).

Lemma commit_streams (s : page) :
  streamRef (commit s) = streamRef s /\ live_streams (commit s) = live_streams s /\ fresh s <= fresh (commit s).
Proof.
  unfold commit, run_effect, cleanup.
  destruct (canvas s), (desired s); try destruct (props_eqb _ _); page_simpl; repeat split; lia.
Qed.

Lemma invokeSettled_streams (eff : nat) (r : invoke_result) (s : page) :
  streamRef (invokeSettled eff r s) = streamRef s /\ live_streams (invokeSettled eff r s) = live_streams s /\
  fresh (invokeSettled eff r s) = fresh s.
Proof.
  unfold invokeSettled. destruct (existsb (Nat.eqb eff) (cancelled s)); [auto |].
  destruct (canvas s) as [mc |]; [| auto].
  destruct (settle (mc_state mc) r) as [[st' ts] [img |]]; unfold handleTryOnResult; page_simpl; auto.
Qed.

Lemma streams_frame_commit (s t : page) : streams_frame s t -> streams_frame s (commit t).
Proof.
  destruct (commit_streams t) as (E1 & E2 & E3). unfold streams_frame. rewrite E1, E2. intros [Hf H].
  split; [lia |]. destruct H as [H | [H | [(H1 & H2 & H3) | (H1 & H2 & H3)]]];
    [left | right; left | right; right; left | right; right; right]; auto; repeat split; auto; lia.
Qed.

Ltac streams_frame_solve :=
  unfold streams_frame; page_simpl;
  let Es := fresh "Es" in
  destruct (streamRef _) as [? |] eqn:Es; page_simpl; rewrite ?Es;
  first [ split; [lia | left; split; reflexivity]
        | split; [lia | right; left; eexists; repeat split; reflexivity]
        | split; [lia | right; right; left; repeat split; lia || reflexivity]
        | split; [lia | right; right; right; repeat split; lia || reflexivity] ].

Lemma handle_streams (s t : page) (e : event) : handle s e = Some t -> streams_frame s t.
Proof.
  destruct e; cbn [handle]; intros H;
    repeat match type of H with
           | (if ?c then _ else _) = _ => destruct c; [| discriminate H]
           | match ?x with _ => _ end = _ => destruct x; try discriminate H
           | option_map _ ?x = _ => destruct x; cbn [option_map] in H; [| discriminate H]
           end;
    injection H as <-;
    try (unfold handleFileUpload; destruct file as [[size url] |];
         [destruct (_ <? size)%Z |]; streams_frame_solve);
    try (destruct (invokeSettled_streams eff r (drop_pending p s)) as (E1 & E2 & E3);
         unfold streams_frame; rewrite E1, E2, E3; page_simpl; split; [lia | left; auto]);
    unfold readerLoaded, toggleCamera, startCamera, cameraStarted, cameraPlayFailed, cameraFailed, capturePhoto, resetTryOn,
      stopCamera, stop_stream, handleTryOn, handleAddToCart, selectProduct;
    try (destruct (has_image s)); streams_frame_solve.
Qed.

Lemma step_streams (s t : page) (e : event) : step s e = Some t -> streams_frame s t.
Proof.
  unfold step. destruct (handle s e) as [t' |] eqn:E; [| discriminate]. cbn [option_map].
  intros H. injection H as <-. apply streams_frame_commit, (handle_streams s t' e E).
Qed.

(** The referenced stream is live and older than every effect to come. *)
Definition stream_ok (s : page) : Prop :=
  forall x, streamRef s = Some x -> In x (live_streams s) /\ x < fresh s.

Lemma reachable_stream_ok (s : page) : reachable s -> stream_ok s.
Proof.
  induction 1 as [param | s s' e _ IH H]; [intros x E; discriminate E |].
  destruct (step_streams s s' e H)
    as [Hf [(E1 & E2) | [(y & Ey & E1 & E2) | [(E1 & E2 & Hlt) | (E1 & E2 & Hlt)]]]];
    intros x Ex; rewrite ?E1, ?E2 in *; [| discriminate Ex | |].
  - destruct (IH x Ex). split; [assumption | lia].
  - injection Ex as <-. split; [left; reflexivity | exact Hlt].
  - destruct (IH x Ex). split; [right; assumption | lia].
Qed.

(** A stream that is live but no longer referenced: nothing can stop it. *)
Definition leaked (st : nat) (s : page) : Prop :=
  st < fresh s /\ streamRef s <> Some st /\ In st (live_streams s).

Lemma step_leaked (st : nat) (s t : page) (e : event) : leaked st s -> step s e = Some t -> leaked st t.
Proof.
  intros (Hlt & Hr & Hin) H.
  destruct (step_streams s t e H)
    as [Hf [(E1 & E2) | [(y & Ey & E1 & E2) | [(E1 & E2 & Hlt') | (E1 & E2 & Hlt')]]]];
    unfold leaked; rewrite ?E1, ?E2.
  - repeat split; [lia | exact Hr | exact Hin].
  - repeat split; [lia | discriminate |]. apply in_in_remove; [| exact Hin]. intros ->. exact (Hr Ey).
  - repeat split; [lia | intros E; injection E as E; lia | right; exact Hin].
  - repeat split; [lia | exact Hr | right; exact Hin].
Qed.

Lemma run_leaked (st : nat) (s t : page) (es : list event) : leaked st s -> run s es = Some t -> leaked st t.
Proof.
  revert s. induction es as [| e es IH]; intros s Hs H; cbn [run] in H; [congruence |].
  destruct (step s e) as [s1 |] eqn:E; [| discriminate]. exact (IH s1 (step_leaked st s s1 e Hs E) H).
Qed.

Lemma camera_started_streams (s s' : page) (c : nat) :
  step s (CameraStarted c) = Some s' ->
  streamRef s' = Some (fresh s) /\ live_streams s' = fresh s :: live_streams s.
Proof.
  unfold step. cbn [handle].
  destruct (find_pending _ s) as [[| c' mode |] |]; cbn [option_map]; try discriminate.
  intros H. injection H as <-. destruct (commit_streams (cameraStarted mode (drop_pending (PGetUserMedia c' mode) s)))
    as (E1 & E2 & _). rewrite E1, E2. unfold cameraStarted. page_simpl. split; reflexivity.
Qed.

Lemma camera_play_failed_streams (s s' : page) (c : nat) (name : string) :
  step s (CameraPlayFailed c name) = Some s' ->
  streamRef s' = streamRef s /\ live_streams s' = fresh s :: live_streams s /\ fresh s < fresh s'.
Proof.
  unfold step. cbn [handle]. destruct (find_pending _ s) as [o |]; cbn [option_map]; [| discriminate].
  intros H. injection H as <-. destruct (commit_streams (cameraPlayFailed name (drop_pending o s)))
    as (E1 & E2 & E3). rewrite E1, E2. unfold cameraPlayFailed, cameraFailed in *. page_simpl.
  repeat split. lia.
Qed.

(** C28. When [getUserMedia] gives a stream but [play()] rejects (the
    [AbortError] of a second start that replaced [srcObject], or an
    autoplay refusal), the [catch] only toasts: from any reachable page,
    the stream acquired by that call is never stopped and never
    referenced, whatever happens next. *)
Theorem camera_play_failure_leaks (s s' : page) (c : nat) (name : string) :
  reachable s -> step s (CameraPlayFailed c name) = Some s' ->
  forall (es : list event) (t : page), run s' es = Some t ->
  In (fresh s) (live_streams t) /\ streamRef t <> Some (fresh s).
Proof.
  intros R H es t Hrun. destruct (camera_play_failed_streams s s' c name H) as (E1 & E2 & Hlt).
  assert (L : leaked (fresh s) s').
  { repeat split; [exact Hlt | rewrite E1; intros E; destruct (reachable_stream_ok s R _ E); lia |
                   rewrite E2; left; reflexivity]. }
  destruct (run_leaked (fresh s) s' t es L Hrun) as (_ & Hr & Hin). split; assumption.
Qed.

(** C18. [startCamera] checks [streamRef] before its [await] and
    overwrites it after, without stopping the stream it held.  From any
    reachable page whose [streamRef] holds a stream [st], the completion
    of another camera start (a second "Use Camera" click before the first
    stream arrived) replaces the reference, and from then on, whatever
    the user does ("Cancel", "Capture", "Reset", more starts), [st] is
    never stopped and never referenced again: the camera stays on. *)
Theorem camera_stream_leaks (s s' : page) (c st : nat) :
  reachable s -> streamRef s = Some st -> step s (CameraStarted c) = Some s' ->
  forall (es : list event) (t : page), run s' es = Some t ->
  In st (live_streams t) /\ streamRef t <> Some st.
Proof.
  intros R Hst H es t Hrun. destruct (reachable_stream_ok s R st Hst) as [Hin Hlt].
  destruct (camera_started_streams s s' c H) as [E1 E2]. pose proof (step_streams s s' _ H) as [Hf _].
  assert (L : leaked st s') by (repeat split; [lia | rewrite E1; intros E; injection E as E; lia |
                                              rewrite E2; right; exact Hin]).
  destruct (run_leaked st s' t es L Hrun) as (_ & Hr & Hin'). split; assumption.
Qed.

(** ** Witnesses *)

Lemma run_reachable (s s' : page) (es : list event) : reachable s -> run s es = Some s' -> reachable s'.
Proof.
  revert s. induction es as [| e es IH]; intros s R H; cbn in H; [injection H as <-; exact R |].
  destruct (step s e) as [t |] eqn:E; [| discriminate]. exact (IH t (reach_step s t e R E) H).
Qed.

Lemma run_inv (s s' : page) (es : list event) : page_inv s -> run s es = Some s' -> page_inv s'.
Proof.
  revert s. induction es as [| e es IH]; intros s R H; cbn in H; [injection H as <-; exact R |].
  destruct (step s e) as [t |] eqn:E; [| discriminate]. exact (IH t (step_inv s t e R E) H).
Qed.

Definition sample_result : invoke_result :=
  MkInvokeResult (JObj [("success", JBool true); ("resultImage", JStr "data:image/png;base64,AAAA")]) None.

Definition after (es : list event) : page :=
  match run (initial_page None) es with Some s => s | None => initial_page None end.

(** A photo is uploaded and tried on: the effect 1 is in flight. *)
Definition trying : list event :=
  [FileSelected (Some (1000%Z, "data:image/png;base64,QQ")); ReaderLoaded 0; TryOnClick].

(** Then another product is chosen: effect 1 is cancelled. *)
Definition switched : list event := trying ++ [SelectProduct "urban-blazer"].

Definition settled_in (s : page) : page :=
  match step s (InvokeSettled 1 sample_result) with Some s' => s' | None => s end.

Lemma reachable_page_inv_witness :
  page_inv (settled_in (after trying)) /\
  (tryOnResult (settled_in (after trying)) <> None ->
   isCameraActive (settled_in (after trying)) = false /\ showTryOn (settled_in (after trying)) = true /\
   has_image (settled_in (after trying)) = true).
Proof.
  apply reachable_page_inv. apply (run_reachable (initial_page None) _ (trying ++ [InvokeSettled 1 sample_result]));
    [apply reach_init | vm_compute; reflexivity].
Defined.

Lemma cancelled_invoke_discarded_witness :
  exists o, settled_in (after switched) = drop_pending o (after switched).
Proof.
  apply (cancelled_invoke_discarded (after switched) (settled_in (after switched)) 1 sample_result).
  - apply (run_inv (initial_page None) _ switched); [apply initial_inv | vm_compute; reflexivity].
  - vm_compute. left. reflexivity.
  - vm_compute. reflexivity.
Defined.

Lemma result_from_current_request_witness :
  exists mc u, canvas (after trying) = Some mc /\ mc_effect mc = 1 /\ userImage (after trying) = Some u /\
    p_userImage (mc_props mc) = u /\ id (p_product (mc_props mc)) = id (activeProduct (after trying)) /\
    In (PInvoke 1 (invoke_body (mc_props mc))) (pending (after trying)) /\
    userImage (settled_in (after trying)) = userImage (after trying) /\
    activeProduct (settled_in (after trying)) = activeProduct (after trying).
Proof.
  apply (result_from_current_request (after trying) (settled_in (after trying)) 1 sample_result).
  - apply (run_inv (initial_page None) _ trying); [apply initial_inv | vm_compute; reflexivity].
  - vm_compute. reflexivity.
  - vm_compute. discriminate.
Defined.

(** "Use Camera" clicked twice before the first stream arrives; the
    first start completes (stream 2), then the second (stream 3), then
    the user cancels. *)
Definition double_start : list event := [UseCamera; UseCamera; CameraStarted 0].

Lemma camera_stream_leaks_witness :
  In 2 (live_streams (after (double_start ++ [CameraStarted 1; CancelCamera]))) /\
  streamRef (after (double_start ++ [CameraStarted 1; CancelCamera])) <> Some 2.
Proof.
  apply (camera_stream_leaks (after double_start) (after (double_start ++ [CameraStarted 1])) 1 2
           (run_reachable (initial_page None) _ double_start (reach_init None) ltac:(vm_compute; reflexivity))
           ltac:(vm_compute; reflexivity) ltac:(vm_compute; reflexivity) [CancelCamera]).
  vm_compute. reflexivity.
Defined.

(** A camera start whose [play()] rejects, then the user starts the
    camera again and cancels. *)
Lemma camera_play_failure_leaks_witness :
  In (fresh (after [UseCamera])) (live_streams (after [UseCamera; CameraPlayFailed 0 "AbortError"; UseCamera; CameraStarted 2; CancelCamera])) /\
  streamRef (after [UseCamera; CameraPlayFailed 0 "AbortError"; UseCamera; CameraStarted 2; CancelCamera]) <>
    Some (fresh (after [UseCamera])).
Proof.
  apply (camera_play_failure_leaks (after [UseCamera]) (after [UseCamera; CameraPlayFailed 0 "AbortError"]) 0
           "AbortError" (run_reachable (initial_page None) _ [UseCamera] (reach_init None) ltac:(vm_compute; reflexivity))
           ltac:(vm_compute; reflexivity) [UseCamera; CameraStarted 2; CancelCamera]).
  vm_compute. reflexivity.
Defined.

End TryOnPage.
