(* ===== verification/ProductPages.v ===== *)
(** * The product pages and their links into the try-on page

    [src/src/pages/ProductDetail.tsx], [src/src/pages/Products.tsx] and
    [src/src/components/sections/FeaturedProducts.tsx] render the
    catalogue of [Catalog] and link to a product's page
    ([/product/<id>]) and to the try-on page ([/try-on?product=<id>]).
    Module [Url] models how the try-on page reads its [product] query
    parameter ([useSearchParams().get("product")], the URL standard's
    [application/x-www-form-urlencoded] parser).  Module [DetailPage] is
    the product page as a state machine over the clicks it handles; the
    route [/product/:id] keeps the same component instance when only
    [id] changes (React Router reuses the element of a matched route),
    so [useState]'s initial values are not computed again.  Module
    [Cards] renders the product cards of the two listing pages and what a
    click on each part of a card does, and the products page's filter
    bar as a state machine on [activeCategory]. *)

From Stdlib Require Import Ascii String List Bool Lia Arith ZArith.
From S2P Require Import Prelude JsValue Catalog TryOnClient TryOnPage.
Import ListNotations JsValue Catalog.
Open Scope string_scope.

(** ** Query strings *)

Module Url.

(** The search of a link target [to]: what follows the first [?], up to
    a [#]. *)
Fixpoint after_char (c : ascii) (s : string) : option string :=
  match s with
  | EmptyString => None
  | String d rest => if Ascii.eqb d c then Some rest else after_char c rest
  end.

Fixpoint before_char (c : ascii) (s : string) : string :=
  match s with
  | EmptyString => EmptyString
  | String d rest => if Ascii.eqb d c then EmptyString else String d (before_char c rest)
  end.

Definition search_of (to : string) : string :=
  match after_char "?" to with Some q => before_char "#" q | None => "" end.

Definition hex_digit (c : ascii) : option nat :=
  let n := nat_of_ascii c in
  if Nat.leb 48 n && Nat.leb n 57 then Some (n - 48)
  else if Nat.leb 65 n && Nat.leb n 70 then Some (n - 55)
  else if Nat.leb 97 n && Nat.leb n 102 then Some (n - 87)
  else None.

(** Percent-decoding of the bytes of a name or value, after [+] has
    become a space; a [%] not followed by two hex digits stays. *)
Fixpoint form_decode (s : string) : string :=
  match s with
  | EmptyString => EmptyString
  | String c t =>
      if Ascii.eqb c "+" then String " " (form_decode t)
      else if Ascii.eqb c "%" then
        match t with
        | String a (String b rest) =>
            match hex_digit a, hex_digit b with
            | Some x, Some y => String (ascii_of_nat (16 * x + y)) (form_decode rest)
            | _, _ => String c (form_decode t)
            end
        | _ => String c (form_decode t)
        end
      else String c (form_decode t)
  end.

(** A sequence [name=value] split at its first [=]. *)
Definition break_eq (s : string) : string * string :=
  match after_char "=" s with
  | Some v => (before_char "=" s, v)
  | None => (s, "")
  end.

(** [new URLSearchParams(search)]: a leading [?] is dropped, the
    sequences between [&] that are not empty are the pairs. *)
Definition search_params (search : string) : list (string * string) :=
  let q := match search with String "?" rest => rest | _ => search end in
  map (fun seq => let '(n, v) := break_eq seq in (form_decode n, form_decode v))
      (filter (fun seq => negb (String.eqb seq "")) (split_char "&" q)).

(** [params.get(name)]: the value of the first pair with that name. *)
Definition search_get (search name : string) : option string :=
  option_map snd (find (fun nv => String.eqb (fst nv) name) (search_params search)).

(** ** Laws *)

(** The characters that a query value can hold without escaping here. *)
Definition safe_char (c : ascii) : bool :=
  negb (existsb (Ascii.eqb c) ["?"; "#"; "&"; "="; "+"; "%"]%char).

Fixpoint url_safe (s : string) : bool :=
  match s with
  | EmptyString => true
  | String c rest => safe_char c && url_safe rest
  end.

Lemma safe_char_spec (c : ascii) :
  safe_char c = true ->
  Ascii.eqb c "?" = false /\ Ascii.eqb c "#" = false /\ Ascii.eqb c "&" = false /\
  Ascii.eqb c "=" = false /\ Ascii.eqb c "+" = false /\ Ascii.eqb c "%" = false.
Proof.
  unfold safe_char. cbn [existsb].
  destruct (Ascii.eqb c "?"), (Ascii.eqb c "#"), (Ascii.eqb c "&"), (Ascii.eqb c "="),
    (Ascii.eqb c "+"), (Ascii.eqb c "%"); cbn; intros H; discriminate H || auto 7.
Qed.

(** Each scanner leaves a safe string alone: one lemma per function,
    each by induction on the string. *)
Ltac safe_induction s :=
  induction s as [| x s IH]; cbn [url_safe]; [reflexivity |];
  rewrite andb_true_iff; intros [Hc Hs]; pose proof (safe_char_spec x Hc) as (H1 & H2 & H3 & H4 & H5 & H6).

Lemma after_char_safe (c : ascii) (s : string) :
  In c ["?"; "="]%char -> url_safe s = true -> after_char c s = None.
Proof.
  intros Hin. safe_induction s; cbn [after_char].
  destruct Hin as [<- | [<- | []]]; [rewrite H1 | rewrite H4]; exact (IH Hs).
Qed.

Lemma before_char_safe (c : ascii) (s : string) :
  In c ["#"; "="]%char -> url_safe s = true -> before_char c s = s.
Proof.
  intros Hin. safe_induction s; cbn [before_char].
  destruct Hin as [<- | [<- | []]]; [rewrite H2 | rewrite H4]; rewrite (IH Hs); reflexivity.
Qed.

Lemma split_amp_safe (s : string) : url_safe s = true -> split_char "&" s = [s].
Proof. safe_induction s; cbn [split_char]. rewrite H3, (IH Hs). reflexivity. Qed.

Lemma form_decode_safe (s : string) : url_safe s = true -> form_decode s = s.
Proof. safe_induction s; cbn [form_decode]. rewrite H5, H6, (IH Hs). reflexivity. Qed.

(** The try-on link of a product id gives the id back. *)
Lemma search_get_link (pid : string) :
  url_safe pid = true -> search_get (search_of ("/try-on?product=" ++ pid)) "product" = Some pid.
Proof.
  intros H. unfold search_of. cbn [after_char append Ascii.eqb Bool.eqb].
  cbn [before_char append Ascii.eqb Bool.eqb]. rewrite (before_char_safe "#" pid) by (cbn; auto).
  unfold search_get, search_params. cbn -[split_char form_decode].
  cbn [split_char append Ascii.eqb Bool.eqb]. rewrite (split_amp_safe pid H).
  cbn [filter String.eqb]. cbn -[form_decode]. unfold break_eq.
  cbn [after_char before_char append Ascii.eqb Bool.eqb]. rewrite (form_decode_safe pid H).
  reflexivity.
Qed.

End Url.

(** ** The product page as a state machine *)

Module DetailPage.
Import ProductDetail.

Record detail_state := MkDetailState {
  route_id : string;                 (* [id || ""] of [useParams] *)
  d_selectedColor : option string;
  d_selectedSize : option string
}.

(** The page's product. *)
Definition page_product (s : detail_state) : option Product := getProductById (route_id s).

(** Mounting the page at [/product/:id]: the [useState] initialisers
    (lines 12-20). *)
Definition mount (routeId : option string) : detail_state :=
  let rid := match routeId with Some i => i | None => "" end in
  match getProductById rid with
  | Some p => MkDetailState rid (first_of (colors p)) (first_of (sizes p))
  | None => MkDetailState rid None None
  end.

Definition view (s : detail_state) : option detail_view :=
  option_map (fun p => MkDetailView p (relatedProducts p) (d_selectedColor s) (d_selectedSize s))
    (page_product s).

Inductive event :=
| SelectColor (c : string)           (* a colour button (line 138) *)
| SelectSize (z : string)            (* a size button (line 162) *)
| AddToCartClick                     (* "Add to Cart" (line 188) *)
| OpenProduct (pid : string).        (* a "You May Also Like" card (line 230) *)

Inductive effect := CartCall (c : cart_call) | ToastSuccess (msg : string).

Definition listed (x : string) (l : option (list string)) : bool :=
  match l with Some xs => existsb (String.eqb x) xs | None => false end.

(** The events the rendered page offers: the buttons of the product's
    colours and sizes, and the links of its related products. *)
Definition offered (s : detail_state) (e : event) : bool :=
  match page_product s with
  | None => false
  | Some p =>
      match e with
      | SelectColor c => listed c (colors p)
      | SelectSize z => listed z (sizes p)
      | AddToCartClick => true
      | OpenProduct pid => existsb (fun q => String.eqb (id q) pid) (relatedProducts p)
      end
  end.

(** The handlers.  Following a link to another product changes only the
    route parameter: the component and its state stay. *)
Definition handle (s : detail_state) (e : event) : detail_state * list effect :=
  match e with
  | SelectColor c => (MkDetailState (route_id s) (Some c) (d_selectedSize s), [])
  | SelectSize z => (MkDetailState (route_id s) (d_selectedColor s) (Some z), [])
  | AddToCartClick =>
      match view s with
      | Some v => let '(call, msg) := handleAddToCart v in (s, [CartCall call; ToastSuccess msg])
      | None => (s, [])
      end
  | OpenProduct pid => (MkDetailState pid (d_selectedColor s) (d_selectedSize s), [])
  end.

Definition step (s : detail_state) (e : event) : option (detail_state * list effect) :=
  if offered s e then Some (handle s e) else None.

Fixpoint run (s : detail_state) (es : list event) : option (detail_state * list effect) :=
  match es with
  | [] => Some (s, [])
  | e :: rest =>
      match step s e with
      | None => None
      | Some (s', effs) => option_map (fun '(t, effs') => (t, (effs ++ effs')%list)) (run s' rest)
      end
  end.

(** ** Laws *)

(** The selection [o] is one of the offered options [l]: a listed one
    when there is a list, none when there is not. *)
Definition opt_listedb (o : option string) (l : option (list string)) : bool :=
  match l, o with
  | Some xs, Some x => existsb (String.eqb x) xs
  | None, None => true
  | _, _ => false
  end.

Definition sel_ok (s : detail_state) : bool :=
  match page_product s with
  | Some p => opt_listedb (d_selectedColor s) (colors p) && opt_listedb (d_selectedSize s) (sizes p)
  | None => true
  end.

Definition is_open (e : event) : bool := match e with OpenProduct _ => true | _ => false end.

Lemma first_of_listed (l : option (list string)) :
  (forall xs, l = Some xs -> xs <> []) -> opt_listedb (first_of l) l = true.
Proof.
  destruct l as [[| x xs] |]; cbn; intros H; [contradiction (H [] eq_refl); reflexivity | |reflexivity].
  rewrite String.eqb_refl. reflexivity.
Qed.

Lemma getProductById_in (pid : string) (p : Product) : getProductById pid = Some p -> In p products.
Proof. unfold getProductById. intros H. apply find_some in H. exact (proj1 H). Qed.

Lemma getProductById_id (p : Product) : In p products -> getProductById (id p) = Some p.
Proof. intros H. exact (CatalogLaws.find_id_unique products p CatalogLaws.products_nodup H). Qed.

Lemma mount_sel_ok (rid : option string) : sel_ok (mount rid) = true.
Proof.
  unfold mount. set (r := match rid with Some i => i | None => "" end).
  destruct (getProductById r) as [p |] eqn:E; unfold sel_ok, page_product; cbn [route_id]; rewrite E;
    [| reflexivity].
  apply getProductById_in in E. pose proof (proj1 (Forall_forall _ _) CatalogLaws.products_wf p E)
    as (_ & _ & _ & Hc & Hs).
  cbn [d_selectedColor d_selectedSize]. rewrite !first_of_listed by assumption. reflexivity.
Qed.

(** A step other than following a link keeps the route and the
    selection offered, and a cart call carries the page's product and
    selection. *)
Lemma step_sel_ok (s s' : detail_state) (e : event) (effs : list effect) :
  is_open e = false -> sel_ok s = true -> step s e = Some (s', effs) ->
  sel_ok s' = true /\
  (forall q c z, In (CartCall (AddToCart q c z)) effs ->
     page_product s = Some q /\ c = d_selectedColor s /\ z = d_selectedSize s).
Proof.
  unfold step, sel_ok, offered. intros Ho Hs.
  destruct (page_product s) as [p |] eqn:Ep; [| discriminate]. unfold page_product in Ep.
  destruct e as [c | z | | pid]; cbn [is_open] in Ho; try discriminate Ho.
  - destruct (listed c (colors p)) eqn:Hl; intros E; [injection E as <- <- | discriminate E].
    apply andb_true_iff in Hs as [_ Hz]. cbn [handle page_product route_id d_selectedColor d_selectedSize].
    unfold page_product; cbn [route_id]. rewrite Ep. destruct (colors p); cbn [listed opt_listedb] in Hl |- *; [rewrite Hl, Hz | discriminate Hl].
    split; [reflexivity | intros ? ? ? []].
  - destruct (listed z (sizes p)) eqn:Hl; intros E; [injection E as <- <- | discriminate E].
    apply andb_true_iff in Hs as [Hc _]. cbn [handle page_product route_id d_selectedColor d_selectedSize].
    unfold page_product; cbn [route_id]. rewrite Ep. destruct (sizes p); cbn [listed opt_listedb] in Hl |- *; [rewrite Hl, Hc | discriminate Hl].
    split; [reflexivity | intros ? ? ? []].
  - intros E. cbn [handle] in E. unfold view, page_product in E. rewrite Ep in E.
    cbn [option_map handleAddToCart dv_product selectedColor selectedSize] in E. injection E as <- <-.
    split; [unfold page_product; rewrite Ep; exact Hs |].
    intros q c z [H | [H | []]]; [injection H as <- <- <-; auto | discriminate H].
Qed.

(** ** Render (lines 50-256) *)

Record option_button := MkOptionButton { ob_label : string; ob_selected : bool }.

Record detail_render := MkDetailRender {
  dr_name : string;
  dr_price : string;                          (* [${product.price}] *)
  dr_original : option string;                (* struck-through original price *)
  dr_save : option string;                    (* [Save ${originalPrice - price}] *)
  dr_tryOnBadge : bool;
  dr_colorHeading : option string;            (* [Color: {selectedColor}] *)
  dr_colors : list option_button;
  dr_sizeHeading : option string;
  dr_sizes : list option_button;
  dr_tryOnLink : string;
  dr_features : list string;
  dr_related : list (string * string * string)   (* link, name, price *)
}.

Definition option_buttons (sel : option string) (l : list string) : list option_button :=
  map (fun x => MkOptionButton x (match sel with Some y => String.eqb y x | None => false end)) l.

Definition dollars (z : Z) : string := "$" ++ number_to_string z.

Definition render (s : detail_state) : option detail_render :=
  option_map (fun p =>
    MkDetailRender (name p) (dollars (price p))
      (option_map dollars (originalPrice p))
      (option_map (fun o => "Save " ++ dollars (o - price p)) (originalPrice p))
      (tryOnAvailable p)
      (option_map (fun _ => "Color: " ++ match d_selectedColor s with Some c => c | None => "" end) (colors p))
      (match colors p with Some cs => option_buttons (d_selectedColor s) cs | None => [] end)
      (option_map (fun _ => "Size: " ++ match d_selectedSize s with Some z => z | None => "" end) (sizes p))
      (match sizes p with Some zs => option_buttons (d_selectedSize s) zs | None => [] end)
      ("/try-on?product=" ++ id p)
      (match features p with Some fs => fs | None => [] end)
      (map (fun q => ("/product/" ++ id q, name q, dollars (price q))) (relatedProducts p)))
    (page_product s).

End DetailPage.

(** ** Product cards (Products.tsx lines 16-142, FeaturedProducts.tsx) *)

Module Cards.

(** [featuredIds] and the featured products, in catalogue order. *)
Definition featuredIds : list string :=
  ["classic-aviator"; "chronograph-elite"; "urban-blazer"; "round-vintage"; "smart-watch-pro";
   "casual-denim-jacket"].

Definition featured : list Product :=
  filter (fun p => existsb (String.eqb (id p)) featuredIds) products.

(** The parts of a card that react to a click. *)
Inductive card_part := CardImage | TryOnButton | WishlistButton | CardName | DetailsButton | AddButton.

Inductive card_action :=
| GoTo (to : string)
| AddProduct (p : Product) (msg : string)   (* [addToCart(product)] and its toast *)
| NoAction.

(** A card of the products page.  The image area is a [Link] to the
    product page that contains the "Try On" [Link] and the wishlist
    button: the inner link's click prevents the outer one, and the
    button, which has no handler, lets the click reach the outer link. *)
Definition product_card_click (p : Product) (part : card_part) : card_action :=
  match part with
  | TryOnButton => GoTo ("/try-on?product=" ++ id p)
  | CardImage | WishlistButton | CardName | DetailsButton => GoTo ("/product/" ++ id p)
  | AddButton => NoAction
  end.

(** A card of the featured section: no link around the image; "Try On"
    calls [navigate], "Add to Cart" adds the product without colour or
    size. *)
Definition featured_card_click (p : Product) (part : card_part) : card_action :=
  match part with
  | TryOnButton => GoTo ("/try-on?product=" ++ id p)
  | AddButton => AddProduct p (name p ++ " added to cart!")
  | _ => NoAction
  end.

(** The products page: its category filter state and the cards shown. *)
Definition products_page (activeCategory : string) : list (string * string) :=
  map (fun p => ("/product/" ++ id p, "/try-on?product=" ++ id p)) (ProductsPage.filteredProducts activeCategory).

(** The products page is a state machine on [activeCategory]
    ([useState("all")], line 17).  The filter bar (lines 47-61) has one
    button per entry of [categories], pressed when its id is the state;
    a click on the [k]-th button runs [setActiveCategory(cat.id)]. *)
Definition products_initial : string := "all".

Definition filter_buttons (activeCategory : string) : list (string * bool) :=
  map (fun '(cid, nm) => (nm, String.eqb activeCategory cid)) ProductsPage.categories.

Definition filter_click (k : nat) (activeCategory : string) : option string :=
  match nth_error ProductsPage.categories k with
  | Some (cid, _) => Some cid
  | None => None
  end.

Fixpoint products_run (activeCategory : string) (clicks : list nat) : option string :=
  match clicks with
  | [] => Some activeCategory
  | k :: rest =>
      match filter_click k activeCategory with
      | Some a => products_run a rest
      | None => None
      end
  end.

(** How many filter buttons are shown pressed. *)
Definition pressed (bs : list (string * bool)) : nat := length (filter snd bs).

(** The page (lines 16-75): the filter bar and the grid of cards. *)
Definition products_view (activeCategory : string) : list (string * bool) * list (string * string) :=
  (filter_buttons activeCategory, products_page activeCategory).

End Cards.

(** ** Laws of the pages *)

Module PageLaws.
Import Url DetailPage Cards ProductDetail.

Lemma run_sel_ok (s : detail_state) (es : list event) (t : detail_state) (effs : list effect) :
  sel_ok s = true -> forallb (fun e => negb (is_open e)) es = true -> run s es = Some (t, effs) ->
  sel_ok t = true /\
  (forall q c z, In (CartCall (AddToCart q c z)) effs ->
     In q products /\ opt_listedb c (colors q) && opt_listedb z (sizes q) = true).
Proof.
  revert s effs. induction es as [| e es IH]; intros s effs Hs Hes; cbn [run].
  - intros E. injection E as <- <-. split; [exact Hs | intros ? ? ? []].
  - apply andb_true_iff in Hes as [He Hes]. apply negb_true_iff in He.
    destruct (step s e) as [[s1 effs1] |] eqn:Est; [| discriminate].
    destruct (run s1 es) as [[t' effs'] |] eqn:Er; [| discriminate]. cbn. intros E. injection E as <- <-.
    destruct (step_sel_ok s s1 e effs1 He Hs Est) as [Hs1 Hcall].
    destruct (IH s1 effs' Hs1 Hes Er) as [Ht Hcall']. split; [exact Ht |].
    intros q c z Hin. apply in_app_or in Hin as [Hin | Hin]; [| exact (Hcall' q c z Hin)].
    destruct (Hcall q c z Hin) as (Hq & -> & ->). split; [exact (getProductById_in _ _ Hq) |].
    unfold sel_ok in Hs. rewrite Hq in Hs. exact Hs.
Qed.

(** Opening a related product and adding it to the cart. *)
Lemma open_then_add (p q : Product) :
  In p products -> In q (relatedProducts p) ->
  run (mount (Some (id p))) [OpenProduct (id q); AddToCartClick] =
    Some (MkDetailState (id q) (first_of (colors p)) (first_of (sizes p)),
          [CartCall (AddToCart q (first_of (colors p)) (first_of (sizes p))); ToastSuccess (name q ++ " added to cart!")]).
Proof.
  intros Hp Hq. pose proof (CatalogLaws.in_relatedProducts p q Hq) as (_ & _ & Hqp).
  assert (Ho : existsb (fun r => String.eqb (id r) (id q)) (relatedProducts p) = true).
  { apply existsb_exists. exists q. split; [exact Hq | apply String.eqb_refl]. }
  unfold mount. rewrite (getProductById_id p Hp). cbn [run]. unfold step, offered, page_product.
  cbn [route_id]. rewrite (getProductById_id p Hp), Ho. cbn [handle route_id d_selectedColor d_selectedSize].
  rewrite (getProductById_id q Hqp). cbn [handle]. unfold view, page_product. cbn [route_id].
  rewrite (getProductById_id q Hqp). reflexivity.
Qed.

(** C11. On a product page as mounted, whatever colours and sizes
    the user picks, the selection stays among the options the product
    offers, and every "Add to Cart" adds a catalogue product with one
    of its colours and sizes (none where it offers none). *)
Theorem selection_stays_offered (rid : option string) (es : list event) (t : detail_state) (effs : list effect) :
  forallb (fun e => negb (is_open e)) es = true -> run (mount rid) es = Some (t, effs) ->
  sel_ok t = true /\
  (forall q c z, In (CartCall (AddToCart q c z)) effs ->
     In q products /\ opt_listedb c (colors q) && opt_listedb z (sizes q) = true).
Proof. apply run_sel_ok, mount_sel_ok. Qed.

(** C9. Following a "You May Also Like" link keeps the selection of
    the previous product: for every product of the catalogue there is a
    related product that, opened from its page and added to the cart,
    goes to the cart with the first colour of the previous product,
    which the related product does not offer. *)
Theorem related_link_keeps_selection (p : Product) :
  In p products ->
  exists q, In q (relatedProducts p) /\ opt_listedb (first_of (colors p)) (colors q) = false /\
    run (mount (Some (id p))) [OpenProduct (id q); AddToCartClick] =
      Some (MkDetailState (id q) (first_of (colors p)) (first_of (sizes p)),
            [CartCall (AddToCart q (first_of (colors p)) (first_of (sizes p)));
             ToastSuccess (name q ++ " added to cart!")]).
Proof.
  intros Hp.
  assert (H : forallb (fun p => existsb (fun q => negb (opt_listedb (first_of (colors p)) (colors q)))
                                  (relatedProducts p)) products = true) by (vm_compute; reflexivity).
  rewrite forallb_forall in H. pose proof (H p Hp) as Hex. apply existsb_exists in Hex as (q & Hq & Hc).
  exists q. apply negb_true_iff in Hc. split; [exact Hq | split; [exact Hc | exact (open_then_add p q Hp Hq)]].
Qed.

(** The ids of the catalogue are non-empty and need no escaping. *)
Lemma catalogue_ids_safe (p : Product) : In p products -> url_safe (id p) = true /\ String.eqb (id p) "" = false.
Proof.
  intros Hp. assert (H : forallb (fun p => url_safe (id p) && negb (String.eqb (id p) "")) products = true)
    by (vm_compute; reflexivity).
  rewrite forallb_forall in H. pose proof (H p Hp) as Hb. apply andb_true_iff in Hb as [H1 H2]. apply negb_true_iff in H2. auto.
Qed.

(** C13. Every "Try On" of the product pages opens the try-on page
    on that product: the link of the product page, of a product card and
    of a featured card, read back by the try-on page's
    [searchParams.get("product")], makes that product the active one. *)
Theorem tryon_links_select (p : Product) (to : string) :
  In p products ->
  product_card_click p TryOnButton = GoTo to \/ featured_card_click p TryOnButton = GoTo to \/
  option_map dr_tryOnLink (render (mount (Some (id p)))) = Some to ->
  TryOnPage.activeProduct (TryOnPage.initial_page (search_get (search_of to) "product")) = p.
Proof.
  intros Hp Hto. destruct (catalogue_ids_safe p Hp) as [Hs He].
  assert (Eto : to = "/try-on?product=" ++ id p).
  { destruct Hto as [H | [H | H]]; cbn in H; [injection H as <- .. |]; try reflexivity.
    revert H. unfold render, mount, page_product. rewrite (getProductById_id p Hp). cbn [route_id].
    rewrite (getProductById_id p Hp). cbn. intros H. injection H as <-. reflexivity. }
  subst to. rewrite (search_get_link (id p) Hs). unfold TryOnPage.initial_page. rewrite He.
  rewrite (getProductById_id p Hp). reflexivity.
Qed.

(** ** Witnesses *)

Definition aviator : Product := CatalogLaws.sample_product.

Lemma selection_stays_offered_witness :
  forallb (fun e => negb (is_open e)) [SelectColor "Silver"; AddToCartClick] = true /\
  run (mount (Some "classic-aviator")) [SelectColor "Silver"; AddToCartClick] =
    Some (MkDetailState "classic-aviator" (Some "Silver") None,
          [CartCall (AddToCart aviator (Some "Silver") None); ToastSuccess "Classic Aviator added to cart!"]) /\
  sel_ok (MkDetailState "classic-aviator" (Some "Silver") None) = true.
Proof.
  assert (E : run (mount (Some "classic-aviator")) [SelectColor "Silver"; AddToCartClick] =
    Some (MkDetailState "classic-aviator" (Some "Silver") None,
          [CartCall (AddToCart aviator (Some "Silver") None); ToastSuccess "Classic Aviator added to cart!"]))
    by (vm_compute; reflexivity).
  split; [reflexivity | split; [exact E |]].
  exact (proj1 (selection_stays_offered (Some "classic-aviator") [SelectColor "Silver"; AddToCartClick] _ _ eq_refl E)).
Defined.

Lemma related_link_keeps_selection_witness :
  In aviator products /\
  exists q, In q (relatedProducts aviator) /\ opt_listedb (first_of (colors aviator)) (colors q) = false /\
    run (mount (Some (id aviator))) [OpenProduct (id q); AddToCartClick] =
      Some (MkDetailState (id q) (first_of (colors aviator)) (first_of (sizes aviator)),
            [CartCall (AddToCart q (first_of (colors aviator)) (first_of (sizes aviator)));
             ToastSuccess (name q ++ " added to cart!")]).
Proof.
  assert (H : In aviator products) by (left; reflexivity).
  split; [exact H | exact (related_link_keeps_selection aviator H)].
Defined.

Lemma tryon_links_select_witness :
  In aviator products /\
  product_card_click aviator TryOnButton = GoTo "/try-on?product=classic-aviator" /\
  TryOnPage.activeProduct (TryOnPage.initial_page (search_get (search_of "/try-on?product=classic-aviator") "product"))
    = aviator.
Proof.
  assert (H : In aviator products) by (left; reflexivity).
  split; [exact H | split; [reflexivity |]].
  exact (tryon_links_select aviator _ H (or_introl eq_refl)).
Defined.

(** The wishlist button of a product card has no handler and sits
    inside the card's link: a click on it opens the product page. *)
Example wishlist_opens_product : product_card_click aviator WishlistButton = GoTo "/product/classic-aviator".
Proof. vm_compute. reflexivity. Qed.

Lemma products_run_category (a : string) (clicks : list nat) (a' : string) :
  In a (map fst ProductsPage.categories) -> products_run a clicks = Some a' ->
  In a' (map fst ProductsPage.categories).
Proof.
  revert a. induction clicks as [| k clicks IH]; intros a Ha; cbn [products_run]; [congruence |].
  unfold filter_click. destruct (nth_error ProductsPage.categories k) as [[cid nm] |] eqn:E; [| discriminate].
  apply IH. apply in_map_iff. exists (cid, nm). split; [reflexivity | exact (nth_error_In _ _ E)].
Qed.

(** C38. The products page's filter bar: whatever filter buttons are
    clicked, in any order, exactly one of them is shown pressed, and the
    grid shows the cards of [filteredProducts] of the category chosen
    last. *)
Lemma filter_exactly_one_pressed (clicks : list nat) (a : string) :
  products_run products_initial clicks = Some a ->
  pressed (fst (products_view a)) = 1 /\
  snd (products_view a) = map (fun p => ("/product/" ++ id p, "/try-on?product=" ++ id p))
                            (ProductsPage.filteredProducts a).
Proof.
  intros H. split; [| reflexivity].
  pose proof (products_run_category products_initial clicks a (or_introl eq_refl) H) as Hin.
  cbn in Hin. destruct Hin as [<- | [<- | [<- | [<- | []]]]]; reflexivity.
Qed.

(** Every catalogue product is shown under "All Products" and under
    exactly one of the other filter buttons. *)
Lemma category_filters_partition (p : Product) :
  In p products ->
  In p (ProductsPage.filteredProducts products_initial) /\
  length (filter (fun cid => existsb (fun q => String.eqb (id q) (id p)) (ProductsPage.filteredProducts cid))
                 (tl (map fst ProductsPage.categories))) = 1.
Proof.
  intros Hp. split; [exact Hp |].
  assert (Hall : forallb (fun p => Nat.eqb (length (filter (fun cid =>
             existsb (fun q => String.eqb (id q) (id p)) (ProductsPage.filteredProducts cid))
             (tl (map fst ProductsPage.categories)))) 1) products = true) by (vm_compute; reflexivity).
  rewrite forallb_forall in Hall. apply Nat.eqb_eq, Hall, Hp.
Qed.

(** "Watches", then "Clothing", then "All Products". *)
Lemma filter_exactly_one_pressed_witness :
  pressed (fst (products_view "all")) = 1 /\
  snd (products_view "all") = map (fun p => ("/product/" ++ id p, "/try-on?product=" ++ id p))
                                (ProductsPage.filteredProducts "all").
Proof. apply (filter_exactly_one_pressed [2; 3; 0]). reflexivity. Defined.

End PageLaws.
