(* ===== verification/Cart.v ===== *)
(** * The cart page: [src/src/pages/Cart.tsx]

    The page reads [items], [totalItems] and [totalPrice] from the cart
    context and calls [removeFromCart], [updateQuantity] and [clearCart].
    The context itself ([@/context/CartContext]) is imported but is not
    part of the repository, so its values are the page's inputs here and
    its operations are recorded as the calls the page makes.  The prices
    are printed with [Number.prototype.toFixed(2)], modelled in Module
    [NumberFormat] on exact rationals. *)

From Stdlib Require Import ZArith QArith Qround Qabs Lia Lqa String List Bool.
From S2P Require Import Prelude JsValue Catalog.
Import ListNotations JsValue Catalog.
Open Scope string_scope.

(** ** [Number.prototype.toFixed(2)] *)

Module NumberFormat.

(** The two digits after the point, [0 <= n < 100]. *)
Definition digits2 (n : Z) : string :=
  if (n <? 10)%Z then "0" ++ number_to_string n else number_to_string n.

(** The text [toFixed(2)] builds from the integer [n] of hundredths:
    the digits of [n] with a point before the last two. *)
Definition fixed_cents (n : Z) : string :=
  number_to_string (n / 100) ++ "." ++ digits2 (n mod 100).

(** [x.toFixed(2)] (ECMA-262, Number.prototype.toFixed): for
    [|x| >= 10^21] the result is [ToString(x)], which is not modelled
    ([None]); otherwise the sign, then the integer [n] nearest to
    [100 |x|], the larger one on a tie, printed by [fixed_cents]. *)
Definition toFixed2 (x : Q) : option string :=
  if Qle_bool (inject_Z (10 ^ 21)) (Qabs x) then None
  else Some ((if Qlt_le_dec x 0 then "-" else "") ++ fixed_cents (js_round (Qabs x * 100))).

(** ** Laws of [toFixed(2)] *)

Local Open Scope Q_scope.

(** On a non-negative number within range, [toFixed(2)] prints the
    nearest number of hundredths. *)
Lemma toFixed2_nonneg (x : Q) :
  0 <= x -> x < inject_Z (10 ^ 21) -> toFixed2 x = Some (fixed_cents (js_round (x * 100))).
Proof.
  intros H0 H1. unfold toFixed2. rewrite Qabs_pos by exact H0.
  destruct (Qle_bool _ _) eqn:E; [apply Qle_bool_iff in E; lra |].
  destruct (Qlt_le_dec x 0); [lra |]. rewrite Qabs_pos by exact H0. reflexivity.
Qed.

(** A multiple [a / 100] of a hundredth by a rate [r / 100] is rounded
    on integers. *)
Lemma js_round_rate (a r : Z) :
  js_round ((a # 100) * (r # 100) * 100) = ((2 * (a * r) + 100) / 200)%Z.
Proof.
  change 200%Z with (2 * 100)%Z. rewrite <- (js_round_div (a * r) 100) by lia. apply js_round_proper.
  rewrite inject_Z_mult. unfold Qeq, Qmult, Qdiv, Qinv, inject_Z; cbn. lia.
Qed.

Lemma hundredths_bound (a r : Z) :
  (0 <= a)%Z -> (0 <= r <= 200)%Z -> (a < 10 ^ 20)%Z -> (a # 100) * (r # 100) < inject_Z (10 ^ 21).
Proof. intros H0 Hr H1. unfold Qlt, Qmult, inject_Z; cbn -[Z.pow]. nia. Qed.

Lemma hundredths_nonneg (a r : Z) : (0 <= a)%Z -> (0 <= r)%Z -> 0 <= (a # 100) * (r # 100).
Proof. intros H0 Hr. unfold Qle, Qmult; cbn. nia. Qed.

(** [toFixed(2)] depends on the value of its argument only, not on the
    fraction that represents it. *)
#[export] Instance toFixed2_proper : Proper (Qeq ==> eq) toFixed2.
Proof.
  intros x y E. unfold toFixed2. pose proof (Qabs_wd x y E) as A.
  destruct (Qle_bool _ (Qabs x)) eqn:Ex, (Qle_bool _ (Qabs y)) eqn:Ey; try reflexivity.
  - exfalso. apply Qle_bool_iff in Ex. rewrite A in Ex. apply Qle_bool_iff in Ex. congruence.
  - exfalso. apply Qle_bool_iff in Ey. rewrite <- A in Ey. apply Qle_bool_iff in Ey. congruence.
  - rewrite (js_round_proper (Qabs x * 100) (Qabs y * 100)) by (rewrite A; reflexivity).
    destruct (Qlt_le_dec x 0), (Qlt_le_dec y 0); reflexivity || lra.
Qed.

(** A non-negative amount of hundredths [a / 100] at the rate
    [r / 100] prints as the nearest hundredth, computed on integers. *)
Lemma toFixed2_rate (a r : Z) :
  (0 <= a)%Z -> (0 <= r <= 200)%Z -> (a < 10 ^ 20)%Z ->
  toFixed2 ((a # 100) * (r # 100)) = Some (fixed_cents ((2 * (a * r) + 100) / 200)).
Proof.
  intros H0 Hr H1. rewrite toFixed2_nonneg, js_round_rate; [reflexivity | |].
  - apply hundredths_nonneg; lia.
  - apply hundredths_bound; lia.
Qed.

End NumberFormat.

(** ** The page *)

Module CartPage.
Import NumberFormat.

(** A cart entry as the page reads it: [item.product], [item.quantity],
    [item.selectedColor], [item.selectedSize]. *)
Record cart_item := MkCartItem {
  product : Product;
  quantity : Z;
  selectedColor : option string;
  selectedSize : option string
}.

(** What [useCart()] gives the page. *)
Record cart_context := MkCartContext {
  items : list cart_item;
  totalItems : Z;
  totalPrice : Q
}.

(** The calls the page's buttons make on the context. *)
Inductive cart_call :=
| RemoveFromCart (productId : string)
| UpdateQuantity (productId : string) (quantity : Z)
| ClearCart.

(** A [string | undefined] field in a JSX condition. *)
Definition opt_truthy (o : option string) : bool :=
  match o with Some s => negb (String.eqb s "") | None => false end.

Definition opt_text (o : option string) : string :=
  match o with Some s => s | None => "" end.

(** The options line (lines 84-90): rendered only when a colour or a
    size is set, with the separator only when both are. *)
Definition options_line (color size : option string) : option string :=
  if opt_truthy color || opt_truthy size then
    Some ((if opt_truthy color then "Color: " ++ opt_text color else "") ++
          (if opt_truthy color && opt_truthy size then " · " else "") ++
          (if opt_truthy size then "Size: " ++ opt_text size else ""))
  else None.

Record line_view := MkLineView {
  lv_link : string;              (* [/product/${item.product.id}] *)
  lv_image : string;
  lv_subcategory : string;
  lv_name : string;
  lv_options : option string;
  lv_quantity : Z;
  lv_total : option string       (* [(price * quantity).toFixed(2)] *)
}.

Definition line (it : cart_item) : line_view :=
  MkLineView ("/product/" ++ id (product it)) (image (product it)) (subcategory (product it))
    (name (product it)) (options_line (selectedColor it) (selectedSize it)) (quantity it)
    (toFixed2 (inject_Z (price (product it) * quantity it))).

(** The order summary (lines 134-153): subtotal, tax at 8%, total. *)
Record summary_view := MkSummary {
  subtotal : option string;
  tax : option string;
  total : option string
}.

Definition summary (totalPrice : Q) : summary_view :=
  MkSummary (toFixed2 totalPrice) (toFixed2 (totalPrice * (8 # 100))) (toFixed2 (totalPrice * (108 # 100))).

Inductive cart_view :=
| EmptyCart                               (* "Your Cart is Empty" and "Start Shopping" *)
| CartList (heading : string) (lines : list line_view) (sum : summary_view).

(** [Cart] (lines 8-171): the empty state when [items.length === 0]. *)
Definition render (ctx : cart_context) : cart_view :=
  match items ctx with
  | [] => EmptyCart
  | its => CartList ("Shopping Cart (" ++ number_to_string (totalItems ctx) ++ " items)")
             (map line its) (summary (totalPrice ctx))
  end.

(** The buttons of the list, by the index of their line. *)
Inductive cart_button := Remove (i : nat) | Minus (i : nat) | Plus (i : nat) | Clear.

(** The call a click makes (lines 50, 93-112); [None] for a button that
    is not rendered. *)
Definition on_click (ctx : cart_context) (b : cart_button) : option cart_call :=
  match b with
  | Clear => match items ctx with [] => None | _ => Some ClearCart end
  | Remove i => option_map (fun it => RemoveFromCart (id (product it))) (nth_error (items ctx) i)
  | Minus i => option_map (fun it => UpdateQuantity (id (product it)) (quantity it - 1)) (nth_error (items ctx) i)
  | Plus i => option_map (fun it => UpdateQuantity (id (product it)) (quantity it + 1)) (nth_error (items ctx) i)
  end.

(** ** Laws *)

Local Open Scope Q_scope.

Lemma div200_twice (a : Z) : ((2 * a) / 200 = a / 100)%Z.
Proof. change 200%Z with (2 * 100)%Z. apply Z.div_mul_cancel_l; lia. Qed.

(** Whole hundredths print exactly. *)
Lemma toFixed2_cents (s : Z) :
  (0 <= s)%Z -> (s < 10 ^ 20)%Z -> toFixed2 (s # 100) = Some (fixed_cents s).
Proof.
  intros H0 H1. assert (E : (s # 100) == (s # 100) * (100 # 100)) by (unfold Qeq; cbn; lia).
  rewrite E, toFixed2_rate by lia.
  replace (2 * (s * 100) + 100)%Z with (2 * (s * 100 + 50))%Z by lia.
  rewrite div200_twice, Z.div_add_l by lia. change (50 / 100)%Z with 0%Z. rewrite Z.add_0_r. reflexivity.
Qed.

Lemma line_total (it : cart_item) :
  (0 <= price (product it) * quantity it < 10 ^ 18)%Z ->
  lv_total (line it) = Some (fixed_cents (100 * (price (product it) * quantity it))).
Proof.
  intros H. cbn [lv_total line].
  rewrite <- toFixed2_cents by (replace (10 ^ 20)%Z with (100 * 10 ^ 18)%Z by reflexivity; lia).
  apply toFixed2_proper. unfold inject_Z, Qeq; cbn [Qnum Qden]. lia.
Qed.

(** C14. For a subtotal of whole cents [s] (every catalogue price is
    in whole dollars), the order summary is exact: the subtotal prints as
    [s] hundredths, the tax as [t], the cent nearest to 8% of [s]
    (computed on integers as [(8 s + 50) / 100]), and the total as
    exactly [s + t] hundredths, so the printed subtotal and tax add up to
    the printed total.  The bound keeps [toFixed] in its fixed-point
    range. *)
Theorem summary_adds_up (s : Z) :
  (0 <= s)%Z -> (s < 10 ^ 20)%Z ->
  let t := ((8 * s + 50) / 100)%Z in
  summary (s # 100) = MkSummary (Some (fixed_cents s)) (Some (fixed_cents t)) (Some (fixed_cents (s + t))).
Proof.
  intros H0 H1 t. unfold summary. rewrite toFixed2_cents, !toFixed2_rate by lia. unfold t.
  replace (2 * (s * 8) + 100)%Z with (2 * (8 * s + 50))%Z by lia.
  replace (2 * (s * 108) + 100)%Z with (s * 200 + 2 * (8 * s + 50))%Z by lia.
  rewrite Z.div_add_l, !div200_twice by lia. reflexivity.
Qed.

(** A cart of one aviator and two pairs of round glasses: 149 + 2 * 129 =
    407 dollars, tax 32.56, total 439.56. *)
Lemma summary_adds_up_witness :
  summary (40700 # 100) = MkSummary (Some "407.00") (Some "32.56") (Some "439.56").
Proof.
  pose proof (summary_adds_up 40700 ltac:(lia) ltac:(reflexivity)) as E. cbv zeta in E.
  rewrite E. vm_compute. reflexivity.
Defined.

(** The minus button has no lower bound: on a line of quantity 1 it
    asks the cart context for quantity 0, and what the context does with
    it is not in the repository. *)
Example minus_at_one :
  on_click (MkCartContext [MkCartItem CatalogLaws.sample_product 1 None None] 1 (149 # 1)) (Minus 0) =
    Some (UpdateQuantity "classic-aviator" 0).
Proof. vm_compute. reflexivity. Qed.

End CartPage.
