(* ===== verification/Header.v ===== *)
(** * The site header: [src/src/components/layout/Header.tsx]

    The header holds one piece of state, [isMenuOpen], reads
    [totalItems] from the cart context and [user] from the auth context,
    and navigates.  Its operations are the clicks it handles; a click
    returns the new state and the effects it starts, in order: a
    navigation, or a call of [signOut] whose completion, an event of its
    own, runs the rest of [handleSignOut] ([navigate("/")]). *)

From Stdlib Require Import ZArith String List Bool Lia.
From S2P Require Import Prelude JsValue.
Import ListNotations JsValue.
Open Scope string_scope.

Module Header.

(** [navLinks] (lines 15-20): name and target. *)
Definition navLinks : list (string * string) :=
  [("Features", "/features"); ("Products", "/products"); ("Try-On", "/try-on"); ("FAQs", "/faqs")].

(** The signed-in user as the header reads it. *)
Record user := MkUser { email : string }.

(** What the header reads from [useCart()] and [useAuth()]. *)
Record header_ctx := MkHeaderCtx { totalItems : Z; current_user : option user }.

Record header_state := MkHeaderState {
  isMenuOpen : bool;
  signouts : nat               (* [handleSignOut] calls awaiting [signOut()] *)
}.

(** [useState(false)]. *)
Definition initial_header : header_state := MkHeaderState false 0.

Inductive effect :=
| Navigate (path : string)     (* a [Link] or [navigate(path)] *)
| CallSignOut.                 (* [signOut()] of the auth context *)

(** The clicks the header handles, and the completion of [signOut()]. *)
Inductive event :=
| ToggleMenu                         (* the mobile menu button *)
| DesktopLink (href : string)        (* the logo, a nav link, the cart icon, "Sign In" *)
| MobileLink (href : string)         (* a link of the open mobile menu *)
| DesktopSignOut
| MobileSignOut
| SignOutDone.

(** [handleSignOut] (lines 22-25) up to its [await]. *)
Definition handleSignOut (s : header_state) : header_state * list effect :=
  (MkHeaderState (isMenuOpen s) (S (signouts s)), [CallSignOut]).

(** The rest of [handleSignOut] once [signOut()] has resolved. *)
Definition signOutDone (s : header_state) : header_state * list effect :=
  match signouts s with
  | O => (s, [])
  | S n => (MkHeaderState (isMenuOpen s) n, [Navigate "/"])
  end.

(** The hrefs that the header renders as links. *)
Definition link_targets (ctx : header_ctx) : list string :=
  "/" :: "/cart" :: map snd navLinks ++ (match current_user ctx with None => ["/auth"] | Some _ => [] end).

(** Which events the rendered header offers. *)
Definition offered (ctx : header_ctx) (s : header_state) (e : event) : bool :=
  match e with
  | ToggleMenu | SignOutDone => true
  | DesktopLink href => existsb (String.eqb href) (link_targets ctx)
  | MobileLink href => isMenuOpen s && existsb (String.eqb href) (link_targets ctx)
  | DesktopSignOut => match current_user ctx with Some _ => true | None => false end
  | MobileSignOut => isMenuOpen s && match current_user ctx with Some _ => true | None => false end
  end.

(** The handlers (lines 22-25, 74, 93, 104-148). *)
Definition handle (s : header_state) (e : event) : header_state * list effect :=
  match e with
  | ToggleMenu => (MkHeaderState (negb (isMenuOpen s)) (signouts s), [])
  | DesktopLink href => (s, [Navigate href])
  | MobileLink href => (MkHeaderState false (signouts s), [Navigate href])
  | DesktopSignOut => handleSignOut s
  | MobileSignOut =>
      let '(s', eff) := handleSignOut s in (MkHeaderState false (signouts s'), eff)
  | SignOutDone => signOutDone s
  end.

Definition step (ctx : header_ctx) (s : header_state) (e : event) : option (header_state * list effect) :=
  if offered ctx s e then Some (handle s e) else None.

(** A sequence of events from [s]: the final state and all effects in
    order, or [None] at the first event that is not offered. *)
Fixpoint run (ctx : header_ctx) (s : header_state) (es : list event) : option (header_state * list effect) :=
  match es with
  | [] => Some (s, [])
  | e :: rest =>
      match step ctx s e with
      | None => None
      | Some (s', eff) =>
          option_map (fun '(t, eff') => (t, (eff ++ eff')%list)) (run ctx s' rest)
      end
  end.

(** ** Render (lines 27-156) *)

Inductive account_view := SignedInAs (email : string) | SignInButton.

Record header_view := MkHeaderView {
  hv_nav : list (string * string);
  hv_badge : option string;              (* the count on the bag icon *)
  hv_account : account_view;
  hv_menu : option (list (string * string) * string * account_view)   (* links, "Cart (n)", account *)
}.

Definition account (ctx : header_ctx) : account_view :=
  match current_user ctx with Some u => SignedInAs (email u) | None => SignInButton end.

Definition render (ctx : header_ctx) (s : header_state) : header_view :=
  MkHeaderView navLinks
    (if (0 <? totalItems ctx)%Z then Some (number_to_string (totalItems ctx)) else None)
    (account ctx)
    (if isMenuOpen s then Some (navLinks, "Cart (" ++ number_to_string (totalItems ctx) ++ ")", account ctx)
     else None).

(** ** Laws *)

Definition from_menu (e : event) : bool :=
  match e with MobileLink _ | MobileSignOut => true | _ => false end.

(** Every action of the mobile menu closes it at once, before a
    sign-out has completed. *)
Lemma mobile_actions_close_menu (ctx : header_ctx) (s s' : header_state) (e : event) (effs : list effect) :
  from_menu e = true -> step ctx s e = Some (s', effs) -> isMenuOpen s' = false.
Proof.
  unfold step. destruct (offered ctx s e); [| discriminate]. intros He E.
  destruct e; try discriminate He; cbn in E; injection E as <- _; reflexivity.
Qed.


End Header.
