(* ===== verification/Auth.v ===== *)
(** * The sign-in page: [src/src/pages/Auth.tsx]

    The page validates the form with two zod schemas, then awaits
    [signIn] or [signUp] of the auth context and toasts the outcome.
    Module [Zod] models the two schemas as [safeParse] functions on
    strings: [trim] (JavaScript whitespace, on Latin-1 code units), the
    [email] pattern of zod 3 ([emailRegex], a library the repository
    imports), and the length checks with their messages.  Module
    [AuthPage] is the page as a state machine: the form's state, the
    clicks and keystrokes it handles, the call to the auth context and
    its completion, which is an event of its own. *)

From Stdlib Require Import Ascii String List Bool Lia Arith.
From S2P Require Import Prelude JsValue.
Import ListNotations JsValue.
Open Scope string_scope.

Module Zod.

(** [String.prototype.trim] strips WhiteSpace and LineTerminator code
    points; those below 256 are tab, line feed, vertical tab, form feed,
    carriage return, space and no-break space. *)
Definition is_js_space (c : ascii) : bool :=
  match nat_of_ascii c with
  | 9 | 10 | 11 | 12 | 13 | 32 | 160 => true
  | _ => false
  end.

Fixpoint trim_start (s : string) : string :=
  match s with
  | EmptyString => EmptyString
  | String c rest => if is_js_space c then trim_start rest else s
  end.

Fixpoint rev_str (s acc : string) : string :=
  match s with
  | EmptyString => acc
  | String c rest => rev_str rest (String c acc)
  end.

Definition trim (s : string) : string :=
  rev_str (trim_start (rev_str (trim_start s) EmptyString)) EmptyString.

(** ** zod 3's [emailRegex]

    [/^(?!\.)(?!.*\.\.)([A-Z0-9_'+\-\.]* )[A-Z0-9_+-]@([A-Z0-9][A-Z0-9\-]*\.)+[A-Z]{2,}$/i]:
    neither part contains [@], so an address is split at its only [@];
    the local part is a non-empty run of [A-Z0-9_'+-.], not starting with
    a dot, without two dots in a row, ending in [A-Z0-9_+-]; the domain
    is one or more labels, each an alphanumeric then alphanumerics and
    hyphens, each followed by a dot, then two or more letters. *)

Definition is_letter (c : ascii) : bool :=
  let n := nat_of_ascii c in Nat.leb 65 n && Nat.leb n 90 || Nat.leb 97 n && Nat.leb n 122.

Definition is_digit (c : ascii) : bool :=
  let n := nat_of_ascii c in Nat.leb 48 n && Nat.leb n 57.

Definition is_alnum (c : ascii) : bool := is_letter c || is_digit c.

Definition local_char (c : ascii) : bool :=
  is_alnum c || existsb (Ascii.eqb c) ["_"; "'"; "+"; "-"; "."]%char.

Definition local_last (c : ascii) : bool :=
  is_alnum c || existsb (Ascii.eqb c) ["_"; "+"; "-"]%char.

Fixpoint last_char (s : string) : option ascii :=
  match s with
  | EmptyString => None
  | String c EmptyString => Some c
  | String _ rest => last_char rest
  end.

Fixpoint all_chars (p : ascii -> bool) (s : string) : bool :=
  match s with
  | EmptyString => true
  | String c rest => p c && all_chars p rest
  end.

Fixpoint no_double_dot (s : string) : bool :=
  match s with
  | String "." (String "." _) => false
  | String _ rest => no_double_dot rest
  | EmptyString => true
  end.

Definition local_ok (l : string) : bool :=
  match l with
  | EmptyString => false
  | String c _ =>
      negb (Ascii.eqb c ".") && no_double_dot l && all_chars local_char l &&
      match last_char l with Some d => local_last d | None => false end
  end.

Definition label_ok (w : string) : bool :=
  match w with
  | EmptyString => false
  | String c rest => is_alnum c && all_chars (fun d => is_alnum d || Ascii.eqb d "-") rest
  end.

Definition tld_ok (w : string) : bool := Nat.leb 2 (String.length w) && all_chars is_letter w.

Definition domain_ok (d : string) : bool :=
  match rev (split_char "." d) with
  | tld :: (_ :: _) as labels => tld_ok tld && forallb label_ok labels
  | _ => false
  end.

Definition email_ok (s : string) : bool :=
  match split_char "@" s with
  | [l; d] => local_ok l && domain_ok d
  | _ => false
  end.

(** ** The two schemas of the page (lines 11-12) *)

(** The outcome of [safeParse]: the parsed data, or the issues in the
    order of the checks. *)
Inductive parse_result := ZOk (data : string) | ZErr (messages : list string).

Definition issues_result (data : string) (issues : list string) : parse_result :=
  match issues with [] => ZOk data | _ => ZErr issues end.

(** [z.string().trim().email("Please enter a valid email").max(255)]:
    the checks run in order on the trimmed string. *)
Definition emailSchema (s : string) : parse_result :=
  let t := trim s in
  issues_result t
    ((if email_ok t then [] else ["Please enter a valid email"]) ++
     (if Nat.ltb 255 (String.length t) then ["String must contain at most 255 character(s)"] else []))%list.

(** [z.string().min(6, "Password must be at least 6 characters").max(72)]. *)
Definition passwordSchema (s : string) : parse_result :=
  issues_result s
    ((if Nat.ltb (String.length s) 6 then ["Password must be at least 6 characters"] else []) ++
     (if Nat.ltb 72 (String.length s) then ["String must contain at most 72 character(s)"] else []))%list.

(** ** Laws of the string functions *)

Lemma rev_str_app (s acc : string) : rev_str s acc = rev_str s EmptyString ++ acc.
Proof.
  revert acc. induction s as [| c s IH]; intros acc; cbn; [reflexivity |].
  rewrite IH, (IH (String c EmptyString)), JsValue.str_app_assoc. reflexivity.
Qed.

Lemma rev_str_involutive (s : string) : rev_str (rev_str s EmptyString) EmptyString = s.
Proof.
  enough (H : forall acc, rev_str (rev_str s acc) EmptyString = rev_str acc EmptyString ++ s)
    by exact (H EmptyString).
  induction s as [| c s IH]; intros acc; cbn.
  - rewrite JsValue.str_app_nil_r. reflexivity.
  - rewrite IH. cbn. rewrite (rev_str_app acc (String c EmptyString)), JsValue.str_app_assoc.
    reflexivity.
Qed.

Lemma all_chars_impl (p q : ascii -> bool) (s : string) :
  (forall c, p c = true -> q c = true) -> all_chars p s = true -> all_chars q s = true.
Proof.
  intros Hpq. induction s as [| c s IH]; cbn; [reflexivity |].
  rewrite !andb_true_iff. intros [Hc Hs]. auto.
Qed.

Lemma all_chars_rev_str (p : ascii -> bool) (s acc : string) :
  all_chars p s = true -> all_chars p acc = true -> all_chars p (rev_str s acc) = true.
Proof.
  revert acc. induction s as [| c s IH]; intros acc; cbn; [auto |].
  rewrite andb_true_iff. intros [Hc Hs] Hacc. apply IH; [exact Hs | cbn; rewrite Hc; exact Hacc].
Qed.

(** A string is made of its pieces and the separators between them. *)
Lemma all_chars_split (p : ascii -> bool) (sep : ascii) (s : string) :
  p sep = true -> Forall (fun w => all_chars p w = true) (split_char sep s) -> all_chars p s = true.
Proof.
  intros Hsep. induction s as [| c s IH]; cbn; [reflexivity |].
  destruct (Ascii.eqb_spec c sep) as [-> | _].
  - intros H. inversion H as [| x xs _ Hs]; subst. rewrite Hsep. exact (IH Hs).
  - destruct (split_char sep s) as [| w ws] eqn:E; [contradiction (split_char_nonempty sep s E) |].
    intros H. inversion H as [| x xs Hw Hws]; subst. cbn in Hw. apply andb_true_iff in Hw as [Hc Hw].
    rewrite Hc. apply IH. constructor; assumption.
Qed.

Definition no_js_space (s : string) : bool := all_chars (fun c => negb (is_js_space c)) s.

(** [trim] leaves a string without whitespace as it is. *)
Lemma trim_id (s : string) : no_js_space s = true -> trim s = s.
Proof.
  unfold no_js_space, trim. intros H.
  assert (Hk : forall t, all_chars (fun c => negb (is_js_space c)) t = true -> trim_start t = t).
  { intros [| c t]; cbn; [reflexivity |]. rewrite andb_true_iff, negb_true_iff.
    intros [-> _]. reflexivity. }
  rewrite (Hk s H), (Hk (rev_str s EmptyString)) by (apply all_chars_rev_str; [exact H | reflexivity]).
  apply rev_str_involutive.
Qed.

End Zod.

(** ** The browser's form validation

    The inputs are [type="email" required] and [required], so before
    [onSubmit] runs the browser sanitises and checks them (HTML Living
    Standard, the input element): the value of an email input has its
    newlines removed and its leading and trailing ASCII whitespace
    stripped, and must be a valid e-mail address,
    [/^[a-zA-Z0-9.!#$%&'*+\/=?^_`{|}~-]+@[a-zA-Z0-9](?:[a-zA-Z0-9-]{0,61}[a-zA-Z0-9])?(?:\.[a-zA-Z0-9](?:[a-zA-Z0-9-]{0,61}[a-zA-Z0-9])?)*$/];
    a password input has its newlines removed; a required field must not
    be empty.  An invalid form is not submitted. *)

Module Html.
Import Zod.

Definition is_newline (c : ascii) : bool := existsb (Ascii.eqb c) ["010"; "013"]%char.

Definition is_ascii_space (c : ascii) : bool := existsb (Ascii.eqb c) ["009"; "010"; "012"; "013"; " "]%char.

Fixpoint filter_chars (p : ascii -> bool) (s : string) : string :=
  match s with
  | EmptyString => EmptyString
  | String c rest => if p c then String c (filter_chars p rest) else filter_chars p rest
  end.

Fixpoint strip_start (p : ascii -> bool) (s : string) : string :=
  match s with
  | EmptyString => EmptyString
  | String c rest => if p c then strip_start p rest else s
  end.

(** The value sanitisation algorithm of [type="email"]. *)
Definition sanitize_email (v : string) : string :=
  let v := filter_chars (fun c => negb (is_newline c)) v in
  rev_str (strip_start is_ascii_space (rev_str (strip_start is_ascii_space v) EmptyString)) EmptyString.

(** ... and of [type="password"] and [type="text"]. *)
Definition sanitize_password (v : string) : string := filter_chars (fun c => negb (is_newline c)) v.

Definition html_local_char (c : ascii) : bool :=
  is_alnum c || existsb (Ascii.eqb c) ["."; "!"; "#"; "$"; "%"; "&"; "'"; "*"; "+"; "/"; "="; "?";
                                        "^"; "_"; "`"; "{"; "|"; "}"; "~"; "-"]%char.

Definition html_label_ok (w : string) : bool :=
  match w with
  | EmptyString => false
  | String c rest =>
      Nat.leb (String.length w) 63 && is_alnum c &&
      all_chars (fun d => is_alnum d || Ascii.eqb d "-") rest &&
      match last_char w with Some d => is_alnum d | None => false end
  end.

(** A valid e-mail address: the local part has no [@], so the address
    splits at its only [@]; the domain is dot-separated labels. *)
Definition valid_email_address (s : string) : bool :=
  match split_char "@" s with
  | [l; d] => negb (String.eqb l "") && all_chars html_local_char l && forallb html_label_ok (split_char "." d)
  | _ => false
  end.

(** The constraint validation of the form. *)
Definition form_valid (email password : string) : bool :=
  valid_email_address email && negb (String.eqb password "").

(** ** Laws *)

(** No character of a valid e-mail address is JavaScript whitespace. *)
Lemma html_char_not_space (c : ascii) :
  html_local_char c || Ascii.eqb c "@" || Ascii.eqb c "." || Ascii.eqb c "-" = true -> negb (is_js_space c) = true.
Proof. destruct c as [[] [] [] [] [] [] [] []]; vm_compute; congruence. Qed.

Lemma valid_email_no_space (s : string) : valid_email_address s = true -> no_js_space s = true.
Proof.
  unfold valid_email_address, no_js_space. destruct (split_char "@" s) as [| l [| d [| x r]]] eqn:E; try discriminate.
  rewrite !andb_true_iff. intros [[_ Hl] Hd].
  apply (all_chars_impl (fun c => html_local_char c || Ascii.eqb c "@" || Ascii.eqb c "." || Ascii.eqb c "-"));
    [intros c; apply html_char_not_space |].
  apply (all_chars_split _ "@"); [reflexivity |]. rewrite E. constructor; [| constructor; [| constructor]].
  - apply (all_chars_impl html_local_char); [intros c Hc; rewrite Hc; reflexivity | exact Hl].
  - apply (all_chars_split _ "."); [reflexivity |]. apply Forall_forall. intros w Hw.
    rewrite forallb_forall in Hd. specialize (Hd w Hw). destruct w as [| c w]; [discriminate |].
    unfold html_label_ok in Hd. rewrite !andb_true_iff in Hd. destruct Hd as [[[_ Hc] Hw'] _].
    cbn [all_chars].
    rewrite andb_true_iff. split; [unfold html_local_char; rewrite Hc; reflexivity |].
    apply (all_chars_impl (fun d => is_alnum d || Ascii.eqb d "-") _ w); [| exact Hw'].
    intros x Hx. apply orb_true_iff in Hx as [Hx | Hx]; [| rewrite Hx, !orb_true_r; reflexivity].
    unfold html_local_char. rewrite Hx. reflexivity.
Qed.

End Html.

(** ** The page *)

Module AuthPage.
Import Zod Html.

(** What the page reads from [useAuth()]. *)
Record auth_ctx := MkAuthCtx { loading : bool; user : option string }.

Record auth_state := MkAuthState {
  isLogin : bool;
  email : string;
  password : string;
  showPassword : bool;
  submitting : bool;
  in_flight : option bool     (* the [isLogin] of the awaited [signIn]/[signUp] *)
}.

(** The [useState] initial values (lines 16-20). *)
Definition initial_auth : auth_state := MkAuthState true "" "" false false None.

Inductive toast := ToastError (msg : string) | ToastSuccess (msg : string).

Inductive effect :=
| CallSignIn (email password : string)
| CallSignUp (email password : string)
| Toast (t : toast).

Inductive event :=
| TypeEmail (v : string)            (* [onChange] of the email input *)
| TypePassword (v : string)
| ToggleShowPassword
| ToggleMode                        (* "Sign up" / "Sign in" *)
| Submit                            (* the form's [onSubmit] *)
| AuthSettled (error : option string).   (* the awaited call resolves with [{ error }] *)

(** [errors[0].message]. *)
Definition first_message (ms : list string) : string :=
  match ms with m :: _ => m | [] => "" end.

(** [handleSubmit] up to its [await] (lines 33-50). *)
Definition handleSubmit (s : auth_state) : auth_state * list effect :=
  match emailSchema (email s) with
  | ZErr ms => (s, [Toast (ToastError (first_message ms))])
  | ZOk e =>
      match passwordSchema (password s) with
      | ZErr ms => (s, [Toast (ToastError (first_message ms))])
      | ZOk _ =>
          (MkAuthState (isLogin s) (email s) (password s) (showPassword s) true (Some (isLogin s)),
           [if isLogin s then CallSignIn e (password s) else CallSignUp e (password s)])
      end
  end.

(** The rest of [handleSubmit] (lines 52-57), with the [isLogin] of the
    closure that made the call. *)
Definition authSettled (err : option string) (s : auth_state) : auth_state * list effect :=
  match in_flight s with
  | None => (s, [])
  | Some wasLogin =>
      (MkAuthState (isLogin s) (email s) (password s) (showPassword s) false None,
       match err with
       | Some m => [Toast (ToastError m)]
       | None => if wasLogin then [] else [Toast (ToastSuccess "Account created! You're now signed in.")]
       end)
  end.

Definition handle (s : auth_state) (e : event) : auth_state * list effect :=
  match e with
  | TypeEmail v => (MkAuthState (isLogin s) (sanitize_email v) (password s) (showPassword s) (submitting s) (in_flight s), [])
  | TypePassword v => (MkAuthState (isLogin s) (email s) (sanitize_password v) (showPassword s) (submitting s) (in_flight s), [])
  | ToggleShowPassword =>
      (MkAuthState (isLogin s) (email s) (password s) (negb (showPassword s)) (submitting s) (in_flight s), [])
  | ToggleMode =>
      (MkAuthState (negb (isLogin s)) (email s) (password s) (showPassword s) (submitting s) (in_flight s), [])
  | Submit => if form_valid (email s) (password s) then handleSubmit s else (s, [])
  | AuthSettled err => authSettled err s
  end.

(** The form is shown when the context is neither loading nor signed in
    (lines 22-31); a submission of an invalid form is stopped by the
    browser before [handleSubmit]; the submit button is [disabled={submitting}], which
    also blocks implicit submission with the Enter key; a completion
    arrives only for a call in flight. *)
Definition offered (ctx : auth_ctx) (s : auth_state) (e : event) : bool :=
  match e with
  | AuthSettled _ => match in_flight s with Some _ => true | None => false end
  | Submit => negb (loading ctx) && match user ctx with None => true | Some _ => false end && negb (submitting s)
  | _ => negb (loading ctx) && match user ctx with None => true | Some _ => false end
  end.

Definition step (ctx : auth_ctx) (s : auth_state) (e : event) : option (auth_state * list effect) :=
  if offered ctx s e then Some (handle s e) else None.

(** A sequence of events: the final state and the effects in order, or
    [None] at the first event that is not offered. *)
Fixpoint run (ctx : auth_ctx) (s : auth_state) (es : list event) : option (auth_state * list effect) :=
  match es with
  | [] => Some (s, [])
  | e :: rest =>
      match step ctx s e with
      | None => None
      | Some (s', effs) => option_map (fun '(t, effs') => (t, (effs ++ effs')%list)) (run ctx s' rest)
      end
  end.

Inductive reachable (ctx : auth_ctx) : auth_state -> Prop :=
| reach_init : reachable ctx initial_auth
| reach_step (s s' : auth_state) (e : event) (effs : list effect) :
    reachable ctx s -> step ctx s e = Some (s', effs) -> reachable ctx s'.

(** ** Render (lines 22-31, 59-141) *)

Inductive auth_view :=
| Spinner
| RedirectHome                    (* [<Navigate to="/" replace />] *)
| Form (title subtitle passwordType autoComplete buttonLabel prompt toggleLabel : string)
       (buttonDisabled : bool).

Definition render (ctx : auth_ctx) (s : auth_state) : auth_view :=
  if loading ctx then Spinner
  else match user ctx with
       | Some _ => RedirectHome
       | None =>
           Form (if isLogin s then "Welcome back" else "Create account")
                (if isLogin s then "Sign in to your VirtuWear account"
                 else "Sign up to start your virtual try-on experience")
                (if showPassword s then "text" else "password")
                (if isLogin s then "current-password" else "new-password")
                (if isLogin s then "Sign In" else "Create Account")
                (if isLogin s then "Don't have an account?" else "Already have an account?")
                (if isLogin s then "Sign up" else "Sign in")
                (submitting s)
       end.

(** ** Laws *)

Definition form_shown (ctx : auth_ctx) : bool :=
  negb (loading ctx) && match user ctx with None => true | Some _ => false end.

Definition is_settle (e : event) : bool := match e with AuthSettled _ => true | _ => false end.

Definition is_submit (e : event) : bool := match e with Submit => true | _ => false end.

Definition event_eq_submit (e : event) : {e = Submit} + {e <> Submit}.
Proof. destruct e; (left; reflexivity) || (right; discriminate). Defined.

(** The state that a form event other than a submission leaves: the
    same request in flight and the same [submitting]. *)
Lemma edit_keeps_flight (s : auth_state) (e : event) :
  is_settle e = false -> e <> Submit ->
  in_flight (fst (handle s e)) = in_flight s /\ submitting (fst (handle s e)) = submitting s /\
  snd (handle s e) = [].
Proof. destruct e; cbn; intros H1 H2; try congruence; auto. Qed.

(** The outcome that [authSettled] toasts for the call's mode. *)
Definition settle_toasts (wasLogin : bool) (err : option string) : list effect :=
  match err with
  | Some m => [Toast (ToastError m)]
  | None => if wasLogin then [] else [Toast (ToastSuccess "Account created! You're now signed in.")]
  end.

Lemma authSettled_flight (s : auth_state) (b : bool) (err : option string) :
  in_flight s = Some b ->
  authSettled err s = (MkAuthState (isLogin s) (email s) (password s) (showPassword s) false None,
                       settle_toasts b err).
Proof. intros H. unfold authSettled. rewrite H. reflexivity. Qed.

Lemma handleSubmit_flight (s s' : auth_state) (effs : list effect) :
  handleSubmit s = (s', effs) ->
  (s' = s /\ exists m, effs = [Toast (ToastError m)]) \/
  (submitting s' = true /\ in_flight s' = Some (isLogin s)).
Proof.
  unfold handleSubmit. destruct (emailSchema _); [destruct (passwordSchema _) |]; intros E;
    injection E as <- <-; eauto.
Qed.

Definition auth_inv (s : auth_state) : Prop :=
  submitting s = match in_flight s with Some _ => true | None => false end.

Lemma step_auth_inv (ctx : auth_ctx) (s s' : auth_state) (e : event) (effs : list effect) :
  auth_inv s -> step ctx s e = Some (s', effs) -> auth_inv s'.
Proof.
  unfold auth_inv, step. intros Hi. destruct (offered ctx s e) eqn:Ho; [| discriminate].
  intros E. injection E as E. destruct (is_settle e) eqn:Hs.
  - destruct e; try discriminate. cbn [offered] in Ho. destruct (in_flight s) as [b |] eqn:F; [| discriminate].
    cbn [handle] in E. rewrite (authSettled_flight s b) in E by exact F. injection E as <- _. reflexivity.
  - destruct (event_eq_submit e) as [-> | Hne].
    + cbn in E. destruct (form_valid _ _); [| injection E as <- _; exact Hi].
      destruct (handleSubmit s) as [t effs'] eqn:Eh. injection E as <- _.
      destruct (handleSubmit_flight s t effs' Eh) as [[-> _] | [-> ->]]; [exact Hi | reflexivity].
    + destruct (edit_keeps_flight s e Hs Hne) as (H1 & H2 & _). rewrite E in H1, H2. cbn in H1, H2.
      rewrite H1, H2. exact Hi.
Qed.

Definition is_call (ef : effect) : bool :=
  match ef with CallSignIn _ _ | CallSignUp _ _ => true | Toast _ => false end.

(** A step that calls the auth context starts from a state with no
    call in flight, when [submitting] tracks the call. *)
Lemma call_needs_idle (ctx : auth_ctx) (s s' : auth_state) (e : event) (effs : list effect) :
  auth_inv s -> step ctx s e = Some (s', effs) -> existsb is_call effs = true -> in_flight s = None.
Proof.
  unfold auth_inv, step. intros Hi. destruct (offered ctx s e) eqn:Ho; [| discriminate].
  intros E Hc. injection E as E. destruct e as [v | v | | | | err]; cbn [offered] in Ho.
  1-4: cbn [handle] in E; injection E as _ <-; discriminate.
  - apply andb_true_iff in Ho as [_ Ho]. rewrite Hi in Ho. destruct (in_flight s); [discriminate | reflexivity].
  - destruct (in_flight s) as [b |] eqn:F; [| discriminate]. cbn [handle] in E.
    rewrite (authSettled_flight s b) in E by exact F. injection E as _ <-.
    destruct err, b; discriminate.
Qed.

(** C10. A submission of a form that the browser accepts ends on
    exactly one of five branches, in this order: the zod e-mail pattern
    fails, the address is longer than 255, the password is shorter than
    6 or longer than 72 (one error toast with zod's first message, the
    state unchanged), or the page calls [signIn] (sign-in mode) or
    [signUp] with the address and password as typed, and disables the
    button.  The schema's [trim] never changes the address: the browser
    has already stripped it and a valid address has no whitespace. *)
Theorem submit_outcome (s : auth_state) :
  form_valid (email s) (password s) = true ->
  handle s Submit =
    if negb (email_ok (email s)) then (s, [Toast (ToastError "Please enter a valid email")])
    else if Nat.ltb 255 (String.length (email s)) then
      (s, [Toast (ToastError "String must contain at most 255 character(s)")])
    else if Nat.ltb (String.length (password s)) 6 then
      (s, [Toast (ToastError "Password must be at least 6 characters")])
    else if Nat.ltb 72 (String.length (password s)) then
      (s, [Toast (ToastError "String must contain at most 72 character(s)")])
    else (MkAuthState (isLogin s) (email s) (password s) (showPassword s) true (Some (isLogin s)),
          [if isLogin s then CallSignIn (email s) (password s) else CallSignUp (email s) (password s)]).
Proof.
  intros Hv. unfold handle. rewrite Hv. unfold handleSubmit, emailSchema, passwordSchema.
  apply andb_true_iff in Hv as [Hv _]. rewrite (trim_id _ (valid_email_no_space _ Hv)).
  destruct (email_ok _), (Nat.ltb 255 _), (Nat.ltb _ 6), (Nat.ltb 72 _); reflexivity.
Qed.

(** C12. In every reachable state of the page, [submitting] is set
    exactly when a call to the auth context is in flight, and a step
    that calls [signIn] or [signUp] starts from a state with no call in
    flight: the page never has two calls outstanding. *)
Theorem at_most_one_call (ctx : auth_ctx) (s s' : auth_state) (e : event) (effs : list effect) :
  reachable ctx s ->
  auth_inv s /\ (step ctx s e = Some (s', effs) -> existsb is_call effs = true -> in_flight s = None).
Proof.
  intros R. assert (Hi : auth_inv s).
  { induction R as [| t t' e' effs' _ IH Hst]; [reflexivity | exact (step_auth_inv ctx t t' e' effs' IH Hst)]. }
  split; [exact Hi | apply (call_needs_idle ctx s s' e effs Hi)].
Qed.

(** C15. Whatever the user types or toggles while a call is in flight
    (the submit button is disabled), its completion is accepted, enables
    the button again, and toasts by the mode the call was made in, not
    the mode now shown: the error message, nothing after a sign-in, or
    "Account created! You're now signed in." after a sign-up. *)
Theorem call_settles_in_its_mode (ctx : auth_ctx) (s : auth_state) (b : bool) (es : list event)
    (err : option string) :
  form_shown ctx = true -> in_flight s = Some b ->
  forallb (fun e => negb (is_settle e) && negb (is_submit e)) es = true ->
  exists t, run ctx s (es ++ [AuthSettled err]) = Some (t, settle_toasts b err) /\
            submitting t = false /\ in_flight t = None.
Proof.
  intros Hf. revert s. induction es as [| e es IH]; intros s Hs Hes; cbn.
  - unfold step. cbn [offered]. rewrite Hs. cbn [handle]. rewrite (authSettled_flight s b) by exact Hs.
    cbn. eexists. split; [rewrite app_nil_r; reflexivity | split; reflexivity].
  - apply andb_true_iff in Hes as [He Hes]. apply andb_true_iff in He as [Hse Hsu].
    apply negb_true_iff in Hse, Hsu.
    assert (Hne : e <> Submit) by (intros ->; discriminate).
    destruct (edit_keeps_flight s e Hse Hne) as (H1 & _ & H3).
    assert (Ho : offered ctx s e = true).
    { unfold form_shown in Hf. destruct e; try discriminate; exact Hf. }
    unfold step. rewrite Ho. destruct (handle s e) as [s1 effs1] eqn:Eh. cbn in H1, H3. subst effs1.
    rewrite <- H1 in Hs. destruct (IH s1 Hs Hes) as (t & Ht & Ht1 & Ht2). rewrite Ht.
    exists t. auto.
Qed.

(** ** Witnesses *)

Definition signed_out : auth_ctx := MkAuthCtx false None.

(** [user@localhost] passes the browser's check but not zod's pattern. *)
Definition localhost_form : auth_state := MkAuthState true "user@localhost" "secret1" false false None.

Lemma submit_outcome_witness :
  form_valid (email localhost_form) (password localhost_form) = true /\
  handle localhost_form Submit = (localhost_form, [Toast (ToastError "Please enter a valid email")]).
Proof.
  split; [vm_compute; reflexivity |].
  rewrite (submit_outcome localhost_form) by (vm_compute; reflexivity). vm_compute. reflexivity.
Defined.

Lemma at_most_one_call_witness :
  reachable signed_out initial_auth /\ auth_inv initial_auth.
Proof.
  split; [constructor |]. exact (proj1 (at_most_one_call signed_out initial_auth initial_auth Submit [] (reach_init _))).
Defined.

(** A sign-up is submitted, then the user switches the form to sign-in
    and edits the address before the answer arrives. *)
Definition signing_up : auth_state := MkAuthState false "me@example.com" "secret1" false true (Some false).

Lemma call_settles_in_its_mode_witness :
  form_shown signed_out = true /\ in_flight signing_up = Some false /\
  exists t, run signed_out signing_up ([ToggleMode; TypeEmail "other@example.com"] ++ [AuthSettled None]) =
              Some (t, [Toast (ToastSuccess "Account created! You're now signed in.")]) /\
            submitting t = false /\ in_flight t = None.
Proof.
  split; [reflexivity | split; [reflexivity |]].
  exact (call_settles_in_its_mode signed_out signing_up false [ToggleMode; TypeEmail "other@example.com"] None
           eq_refl eq_refl eq_refl).
Defined.

End AuthPage.
