(* ===== verification/Landing.v ===== *)
(** * The landing and marketing pages, and what they promise

    [src/src/pages/Index.tsx] stacks five sections
    ([src/src/components/sections/HeroSection.tsx], [CategoriesSection.tsx],
    [FeaturedProducts.tsx], [HowItWorks.tsx], [CTASection.tsx]); the
    header's links lead to [src/src/pages/Features.tsx] and
    [src/src/pages/FAQs.tsx].  The pages hold no state of their own but
    the FAQ accordion.  Module [Site] models what they show and where
    their links lead: the content arrays of the sources, the small
    computations of the render (the hero's avatar letters, the
    alternating layout of the steps, the numbering and the large cards of
    the features page), the targets of the links, told apart as
    client-side route changes ([Link], [navigate]) and document loads
    ([<a href>]), and the accordion of the FAQ page.  Module [Promises]
    confronts what the pages say with what the code does, using the
    models of the try-on page, the client component and the edge
    function. *)

From Stdlib Require Import Ascii String List Bool Lia Arith ZArith.
From S2P Require Import Prelude JsValue EdgeFunction Catalog TryOnClient TryOnPage ProductPages.
Import ListNotations JsValue Catalog.
Open Scope string_scope.

Module Site.

(** Where a click leads: a route change inside the single-page app, or
    a load of a new document, which starts the app (and its contexts)
    afresh. *)
Inductive target := RouteTo (path : string) | LoadHref (href : string).

(** ** [HeroSection.tsx] *)

(** [features] (lines 8-14). *)
Definition hero_features : list string :=
  ["Glasses"; "Watches"; "Clothing"; "AI-Powered"; "Real-time Preview"].

(** The avatar letters [String.fromCharCode(64 + i)] for [i] in
    [[1, 2, 3, 4, 5]] (lines 69-76). *)
Definition hero_avatars : list string :=
  map (fun i => String (ascii_of_nat (64 + i)) EmptyString) [1; 2; 3; 4; 5].

(** The call to action (lines 90-95). *)
Definition hero_links : list (string * target) := [("Start Try-On Free", RouteTo "/try-on")].

(** ** [CategoriesSection.tsx] *)

Record category_card := MkCategoryCard { cc_name : string; cc_description : string; cc_count : string }.

(** [categories] (lines 4-26). *)
Definition categories : list category_card := [
  MkCategoryCard "Eyewear" "Sunglasses & Prescription" "2,500+ styles";
  MkCategoryCard "Watches" "Luxury & Smart Watches" "1,800+ styles";
  MkCategoryCard "Clothing" "Fashion & Apparel" "15,000+ styles"
].

(** Each card is a [motion.a] with [href="#"] (lines 50-83). *)
Definition category_links : list (string * target) :=
  map (fun c => (cc_name c, LoadHref "#")) categories.

(** ** [HowItWorks.tsx] *)

Record step := MkStep { st_title : string; st_description : string; st_accent : string }.

(** [steps] (lines 4-29). *)
Definition steps : list step := [
  MkStep "Capture Your Look" "Enable your camera or upload a photo. Our seamless interface makes it easy to get started in seconds." "01";
  MkStep "AI Does The Magic" "Advanced AI instantly detects your face and body measurements for pixel-perfect product placement." "02";
  MkStep "Try Before You Buy" "Browse and virtually try on glasses, watches, or clothing. See exactly how they look on you in real-time." "03";
  MkStep "Shop With Confidence" "Find your perfect fit and checkout. No more returns, no more guessing—just perfect purchases." "04"
].

(** Odd steps are laid out right to left (line 65), and every step but
    the last has a connector below it (line 106). *)
Definition step_reversed (index : nat) : bool := Nat.odd index.

Definition has_connector (index : nat) : bool := Nat.ltb index (length steps - 1).

(** The bottom call to action is a plain anchor (lines 132-138). *)
Definition howItWorks_links : list (string * target) := [("Start Your Experience", LoadHref "/try-on")].

(** ** [CTASection.tsx] *)

Definition cta_links : list (string * target) :=
  [("Start Try-On Now", RouteTo "/try-on"); ("Browse Products", RouteTo "/products")].

(** The badges (line 83). *)
Definition cta_badges : list string := ["Free Returns"; "Secure Payment"; "24/7 Support"].

(** ** [Index.tsx] *)

Inductive landing_section := Hero | CategoriesSec | Featured | HowItWorksSec | CTA.

(** The sections in page order (lines 14-18). *)
Definition index_sections : list landing_section := [Hero; CategoriesSec; Featured; HowItWorksSec; CTA].

(** The links of a section; the featured section's are its "View All
    Products" button and the "Try On" button of each featured card
    (FeaturedProducts.tsx lines 43, 75). *)
Definition section_links (sec : landing_section) : list (string * target) :=
  match sec with
  | Hero => hero_links
  | CategoriesSec => category_links
  | Featured =>
      ("View All Products", RouteTo "/products") ::
      map (fun p => ("Try On", RouteTo ("/try-on?product=" ++ id p))) Cards.featured
  | HowItWorksSec => howItWorks_links
  | CTA => cta_links
  end.

Definition index_links : list (string * target) := flat_map section_links index_sections.

(** ** [Features.tsx] *)

Record feature := MkFeature { ft_title : string; ft_description : string }.

(** [features] (lines 6-49). *)
Definition features : list feature := [
  MkFeature "Virtual Try-On" "Use your camera to see how products look on you in real-time. No downloads or apps required â€” it works right in your browser.";
  MkFeature "AI-Powered Fitting" "Our advanced AI analyzes your photo and overlays products with realistic scaling and positioning for an accurate preview.";
  MkFeature "Works on Any Device" "Whether you're on desktop, tablet, or phone, VirtuWear delivers a seamless try-on experience across all devices.";
  MkFeature "Shop with Confidence" "See it before you buy it. Reduce returns and make better purchasing decisions with our virtual preview technology.";
  MkFeature "Privacy First" "Your photos are processed locally and never stored on our servers. Your privacy is our top priority.";
  MkFeature "Instant Results" "Get real-time try-on results with zero wait time. Our optimized pipeline delivers instant visual feedback."
].

(** The first and fourth cards are large (line 82). *)
Definition isLarge (index : nat) : bool := Nat.eqb index 0 || Nat.eqb index 3.

(** [s.padStart(n, c)] for a one-character pad. *)
Definition pad_start (n : nat) (c : ascii) (s : string) : string :=
  (if Nat.ltb (String.length s) n then String.concat "" (repeat (String c EmptyString) (n - String.length s))
   else "") ++ s.

(** [String(index + 1).padStart(2, "0")] (line 98). *)
Definition feature_number (index : nat) : string :=
  pad_start 2 "0" (number_to_string (Z.of_nat (index + 1))).

Definition features_links : list (string * target) := [("Try It Now", RouteTo "/try-on")].

(** ** [FAQs.tsx] *)

Record faq := MkFaq { question : string; answer : string }.

(** [faqs] (lines 10-51). *)
Definition faqs : list faq := [
  MkFaq "How does the virtual try-on work?" "Our virtual try-on uses your device's camera to capture your image and overlays selected products in real-time, giving you a realistic preview of how items look on you before purchasing.";
  MkFaq "Is the virtual try-on free to use?" "Yes! The virtual try-on feature is completely free for all users. Simply browse our products, select one, and click 'Try On' to get started.";
  MkFaq "What devices are supported?" "VirtuWear works on any modern browser with camera access â€” desktops, laptops, tablets, and smartphones. For the best experience, we recommend using Chrome or Safari.";
  MkFaq "How accurate is the virtual try-on?" "Our AI-powered technology provides a highly realistic representation. While results may vary slightly from real life, it gives you an excellent idea of fit, style, and color.";
  MkFaq "Can I save or share my try-on results?" "Yes! After capturing your try-on photo, you can download the image to share with friends or save for later reference.";
  MkFaq "What products are available for try-on?" "We currently support sunglasses, watches, jackets, and blazers for virtual try-on. We're constantly adding new categories and products.";
  MkFaq "Do you ship internationally?" "Yes, we ship to most countries worldwide. Shipping times and costs vary by location. Check our shipping page for more details.";
  MkFaq "What is your return policy?" "We offer a 30-day hassle-free return policy. If you're not satisfied with your purchase, you can return it for a full refund or exchange."
].

(** The value of the [index]-th item, [`item-${index}`] (line 70). *)
Definition item_value (index : nat) : string := "item-" ++ number_to_string (Z.of_nat index).

(** [<Accordion type="single" collapsible>] (line 68): the open item, if
    any; a click on a trigger opens its item and closes the others, and
    a click on the open item's trigger closes it. *)
Definition accordion_click (value : string) (open_item : option string) : option string :=
  match open_item with
  | Some v => if String.eqb v value then None else Some value
  | None => Some value
  end.

(** What the FAQ page shows for an open item: the questions, each with
    its answer when its item is open. *)
Definition faq_view (open_item : option string) : list (string * option string) :=
  map (fun '(i, f) =>
         (question f, if match open_item with Some v => String.eqb v (item_value i) | None => false end
                      then Some (answer f) else None))
      (combine (seq 0 (length faqs)) faqs).

(** The answers [faq_view] shows. *)
Definition shown (view : list (string * option string)) : nat :=
  length (filter (fun x => match snd x with Some _ => true | None => false end) view).

Lemma shown_cons (q : string) (a : option string) (view : list (string * option string)) :
  shown ((q, a) :: view) = (match a with Some _ => 1 | None => 0 end + shown view)%nat.
Proof. destruct a; reflexivity. Qed.

Lemma item_value_nodup : NoDup (map item_value (seq 0 (length faqs))).
Proof.
  vm_compute. repeat (constructor; [cbn; intuition discriminate |]). constructor.
Qed.

Lemma shown_none_missing (v : string) (idx : list nat) (fs : list faq) :
  ~ In v (map item_value idx) ->
  shown (map (fun '(i, f) => (question f, if String.eqb v (item_value i) then Some (answer f) else None))
             (combine idx fs)) = 0.
Proof.
  revert fs. induction idx as [| i idx IH]; intros [| f fs] Hv; try reflexivity.
  cbn [combine map]. rewrite shown_cons.
  destruct (String.eqb_spec v (item_value i)) as [-> | _]; [destruct Hv; left; reflexivity |].
  apply IH. intros H. apply Hv. right. exact H.
Qed.

Lemma shown_at_most_one (v : string) (idx : list nat) (fs : list faq) :
  NoDup (map item_value idx) ->
  shown (map (fun '(i, f) => (question f, if String.eqb v (item_value i) then Some (answer f) else None))
             (combine idx fs)) <= 1.
Proof.
  revert fs. induction idx as [| i idx IH]; intros [| f fs] Hd; try (cbn; lia).
  inversion Hd as [| ? ? Hi Hd']; subst. cbn [combine map]. rewrite shown_cons.
  destruct (String.eqb_spec v (item_value i)) as [-> | _].
  - rewrite (shown_none_missing (item_value i) idx fs Hi). lia.
  - apply IH, Hd'.
Qed.

(** C39. The FAQ page's accordion is single and collapsible: whatever
    item is open (as [accordion_click] leaves it), the page shows at most
    one answer, since the item values [item-<index>] are distinct. *)
Lemma faq_view_at_most_one (open_item : option string) : shown (faq_view open_item) <= 1.
Proof.
  unfold faq_view. destruct open_item as [v |].
  - apply shown_at_most_one, item_value_nodup.
  - vm_compute. lia.
Qed.

(** A click on a closed item's trigger shows exactly its answer. *)
Lemma accordion_opens (i : nat) (f : faq) (open_item : option string) :
  nth_error faqs i = Some f -> open_item <> Some (item_value i) ->
  In (question f, Some (answer f)) (faq_view (accordion_click (item_value i) open_item)).
Proof.
  intros Hf Ho. assert (Hopen : accordion_click (item_value i) open_item = Some (item_value i)).
  { destruct open_item as [v |]; [| reflexivity]. unfold accordion_click.
    destruct (String.eqb_spec v (item_value i)) as [-> | _]; [contradiction | reflexivity]. }
  rewrite Hopen. unfold faq_view. apply in_map_iff. exists (i, f).
  rewrite String.eqb_refl. split; [reflexivity |].
  assert (Hi : i < length faqs) by (apply nth_error_Some; congruence).
  assert (Hc : nth i (combine (seq 0 (length faqs)) faqs) (0, f) = (i, f)).
  { rewrite combine_nth by apply length_seq. rewrite seq_nth by exact Hi.
    rewrite (nth_error_nth faqs i f Hf). reflexivity. }
  rewrite <- Hc. apply nth_In. rewrite length_combine, length_seq, Nat.min_id. exact Hi.
Qed.

End Site.

(** ** What the pages promise, against what the code does *)

Module Promises.
Import TryOnCanvas EdgeFunction.

(** The body a fetch of Gemini carries for a photo whose data URL has
    media type [m] and payload [d], after the prompt part [part]. *)
Definition photo_body (part : jsval) (m d : string) : jsval :=
  JObj [("contents",
         JArr [JObj [("parts", JArr [part; JObj [("inlineData", JObj [("mimeType", JStr m); ("data", JStr d)])]])]]);
        ("generationConfig", JObj [("responseModalities", JArr [JStr "TEXT"; JStr "IMAGE"])])].

Lemma reachable_inv (s : TryOnPage.page) : TryOnPage.reachable s -> TryOnPage.page_inv s.
Proof.
  induction 1 as [param | s s' e _ IH H]; [apply TryOnPage.initial_inv | exact (TryOnPage.step_inv s s' e IH H)].
Qed.

(** A click on "Try On" with a photo and no canvas shown mounts the
    canvas, whose effect starts an [invoke] carrying the photo. *)
Lemma tryon_click_invokes (s s' : TryOnPage.page) (u : string) :
  TryOnPage.page_inv s -> TryOnPage.userImage s = Some u -> TryOnPage.has_image s = true ->
  TryOnPage.isCameraActive s = false -> TryOnPage.showTryOn s = false ->
  TryOnPage.step s TryOnPage.TryOnClick = Some s' ->
  In (TryOnPage.PInvoke (TryOnPage.fresh s) (invoke_body (MkProps u (TryOnPage.activeProduct s))))
     (TryOnPage.pending s').
Proof.
  intros Hinv Hu Hi Hc Hsh H. unfold TryOnPage.step in H. cbn [TryOnPage.handle] in H.
  destruct (TryOnPage.offered s TryOnPage.BtnTryOn); [| discriminate]. cbn [option_map] in H.
  injection H as <-. unfold TryOnPage.handleTryOn. rewrite Hi.
  assert (Hcan : TryOnPage.canvas s = None).
  { destruct Hinv as (Hok & _). unfold TryOnPage.canvas_ok, TryOnPage.desired in Hok.
    rewrite Hc, Hsh in Hok. destruct (TryOnPage.canvas s); [contradiction | reflexivity]. }
  unfold TryOnPage.commit, TryOnPage.desired, TryOnPage.has_image in *.
  cbn [TryOnPage.canvas TryOnPage.isCameraActive TryOnPage.showTryOn TryOnPage.userImage TryOnPage.set_showTryOn].
  rewrite Hcan, Hc, Hu. rewrite Hu in Hi. rewrite Hi. cbn [andb].
  unfold TryOnPage.run_effect, TryOnPage.add_pending.
  cbn [TryOnPage.pending TryOnPage.fresh TryOnPage.activeProduct TryOnPage.set_fresh TryOnPage.set_pending
       TryOnPage.set_canvas TryOnPage.set_showTryOn].
  apply in_or_app. right. left. reflexivity.
Qed.

(** Whatever Gemini answers, the retry loop's first effect is the fetch
    of its request. *)
Lemma fetch_loop_first (gemini : nat -> gemini_request -> js_result upstream) (f : nat)
    (r : option upstream) (rq : gemini_request) :
  exists t, fst (fetch_loop gemini (S f) 0 r rq) = EFetch 0 rq :: t.
Proof.
  cbn [fetch_loop]. change (Nat.leb 0 maxRetries) with true. cbn iota.
  destruct (gemini 0 rq) as [e | r']; cbn [fst]; [eauto |].
  destruct ((up_status r' =? 429)%Z && Nat.ltb 0 maxRetries);
    [destruct (fetch_loop gemini f 1 (Some r') rq) | ]; cbn [fst]; eauto.
Qed.

(** The edge function, given the client's body for a data-URL photo and
    a catalogue product, first fetches Gemini with the photo's payload. *)
Lemma edge_forwards_photo (gemini : nat -> gemini_request -> js_result upstream) (key u m d : string)
    (p : Product) :
  match_data_url u = Some (m, d) -> key <> "" -> id p <> "" ->
  exists part t,
    fst (EdgeFunction.handle gemini (MkRequest "POST" (inr (invoke_body (MkProps u p)))) (Some key)) =
      EFetch 0 (MkGeminiRequest (gemini_url key) (Some (photo_body part m d))) :: t.
Proof.
  intros Hm Hk Hid.
  rewrite (handle_well_formed gemini _ (invoke_body (MkProps u p)) key u m d (JStr (id p)) (JStr (name p))
             (JStr (category_key (category p))) (name p) (category_key (category p)));
    [| discriminate | reflexivity | reflexivity | apply truthy_str; exact Hid | exact Hk | exact Hm
     | reflexivity | reflexivity].
  destruct (fetch_loop_first gemini 3 None (sent_request key m d (name p) (category_key (category p))))
    as [t Ht].
  cbn [fst]. rewrite Ht.
  exists (match json_omit (prompt_for (name p) (category_key (category p))) with
          | Some y => JObj [("text", y)] | None => JObj [] end), t.
  unfold sent_request, gemini_request_of, gemini_body. cbn [json_omit fold_right map snd fst].
  destruct (json_omit _); reflexivity.
Qed.

(** C34. The features page promises "Your photos are processed locally
    and never stored on our servers" (Features.tsx line 39); the code
    sends them away.  From any reachable try-on page with a photo [u] and
    no canvas shown, the "Try On" click starts an [invoke] of the edge
    function whose body carries [u]; and the edge function, given that
    body (a base64 data URL, the API key configured, a catalogue product
    with an id), makes as its first effect, whatever Gemini answers, a
    fetch of the Gemini endpoint whose body holds the photo's media type
    and base64 payload. *)
Theorem photo_sent_to_gemini (s s' : TryOnPage.page) (u : string)
    (gemini : nat -> gemini_request -> js_result upstream) (key m d : string) :
  TryOnPage.reachable s -> TryOnPage.userImage s = Some u -> TryOnPage.has_image s = true ->
  TryOnPage.isCameraActive s = false -> TryOnPage.showTryOn s = false ->
  TryOnPage.step s TryOnPage.TryOnClick = Some s' ->
  In (TryOnPage.PInvoke (TryOnPage.fresh s) (invoke_body (MkProps u (TryOnPage.activeProduct s))))
     (TryOnPage.pending s') /\
  (match_data_url u = Some (m, d) -> key <> "" -> id (TryOnPage.activeProduct s) <> "" ->
   exists part t,
     fst (EdgeFunction.handle gemini
            (MkRequest "POST" (inr (invoke_body (MkProps u (TryOnPage.activeProduct s))))) (Some key)) =
       EFetch 0 (MkGeminiRequest (gemini_url key) (Some (photo_body part m d))) :: t).
Proof.
  intros R Hu Hi Hc Hsh H. split.
  - exact (tryon_click_invokes s s' u (reachable_inv s R) Hu Hi Hc Hsh H).
  - apply edge_forwards_photo.
Qed.

(** The sample photo uploaded, no product chosen. *)
Definition uploaded : TryOnPage.page :=
  TryOnPage.after [TryOnPage.FileSelected (Some (1000%Z, sample_image_url)); TryOnPage.ReaderLoaded 0].

Definition clicked : TryOnPage.page :=
  match TryOnPage.step uploaded TryOnPage.TryOnClick with Some s => s | None => uploaded end.

Lemma photo_sent_to_gemini_witness :
  match_data_url sample_image_url = Some ("image/png", "iVBORw0KGgo") /\
  In (TryOnPage.PInvoke (TryOnPage.fresh uploaded)
        (invoke_body (MkProps sample_image_url (TryOnPage.activeProduct uploaded))))
     (TryOnPage.pending clicked) /\
  exists part t,
    fst (EdgeFunction.handle (fun _ _ => inr busy_answer)
           (MkRequest "POST" (inr (invoke_body (MkProps sample_image_url (TryOnPage.activeProduct uploaded)))))
           (Some "k")) =
      EFetch 0 (MkGeminiRequest (gemini_url "k") (Some (photo_body part "image/png" "iVBORw0KGgo"))) :: t.
Proof.
  assert (H : match_data_url sample_image_url = Some ("image/png", "iVBORw0KGgo")) by (vm_compute; reflexivity).
  destruct (photo_sent_to_gemini uploaded clicked sample_image_url (fun _ _ => inr busy_answer) "k"
              "image/png" "iVBORw0KGgo") as [H1 H2].
  - apply (TryOnPage.run_reachable (TryOnPage.initial_page None)
             _ [TryOnPage.FileSelected (Some (1000%Z, sample_image_url)); TryOnPage.ReaderLoaded 0]);
      [constructor | vm_compute; reflexivity].
  - vm_compute; reflexivity.
  - vm_compute; reflexivity.
  - vm_compute; reflexivity.
  - vm_compute; reflexivity.
  - vm_compute; reflexivity.
  - split; [exact H | split; [exact H1 |]].
    apply H2; [exact H | discriminate | vm_compute; discriminate].
Defined.

End Promises.
